(** * VisionOCR: the OCR request pipeline, embedded and verified

    The development follows the layers of the repository:

    - [JS], [Json]: the fragment of the JavaScript string and JSON value
      semantics the code relies on (UTF-16 code units, [trim], [split],
      [includes], optional chaining);
    - [Handler]: the serverless [ocr-process] function (the callback
      handed to [serve]);
    - [Client]: [services/ocrEngine.ts] ([fileToBase64],
      [isLikelyHandwritten], [processDocument], ...);
    - [Pipeline]: the page component's [handleOCRProcessing] and
      [handleHistoryDelete], over a model of the two persisted tables;
    - [Claims]: the terms in which the specification states its
      properties; [Examples]: concrete deployments, requests and files.

    Definitions come first, the properties after them. *)

From Stdlib Require Import ZArith NArith QArith String Ascii DecimalString.
From stdpp Require Import base option list gmap.

Local Open Scope N_scope.

(* ===================================================================== *)
(** * JavaScript strings *)
(* ===================================================================== *)

Module JS.

(** A JavaScript string is a sequence of UTF-16 code units; [length]
    counts code units. *)
Abbreviation jsstring := (list N).

(** ASCII literals of the source, as code units. *)
Definition js (s : string) : jsstring :=
  map N_of_ascii (list_ascii_of_string s).

(** ECMAScript [WhiteSpace] and [LineTerminator] code units.  This one
    set is what the regular expression class [\s] matches and what
    [String.prototype.trim] strips. *)
Definition white_space_units : list N :=
  [ 0x0009; 0x000A; 0x000B; 0x000C; 0x000D; 0x0020; 0x00A0; 0x1680;
    0x2000; 0x2001; 0x2002; 0x2003; 0x2004; 0x2005; 0x2006; 0x2007;
    0x2008; 0x2009; 0x200A; 0x2028; 0x2029; 0x202F; 0x205F; 0x3000;
    0xFEFF ].

Definition isWhiteSpace (c : N) : bool :=
  existsb (N.eqb c) white_space_units.

(** [s.length] *)
Definition jslength (s : jsstring) : N := N.of_nat (length s).

(** [s.startsWith(p)] *)
Fixpoint startsWith (s p : jsstring) : bool :=
  match p, s with
  | [], _ => true
  | _ :: _, [] => false
  | c :: p', d :: s' => (c =? d) && startsWith s' p'
  end.

(** [s.includes(k)]: [k] occurs at some position of [s]. *)
Fixpoint includes (s k : jsstring) : bool :=
  startsWith s k ||
  match s with
  | [] => false
  | _ :: s' => includes s' k
  end.

(** [xs.includes(x)] on an array of strings. *)
Definition array_includes (xs : list jsstring) (x : jsstring) : bool :=
  bool_decide (x ∈ xs).

(** [s.trim()] *)
Fixpoint trimStart (s : jsstring) : jsstring :=
  match s with
  | c :: s' => if isWhiteSpace c then trimStart s' else s
  | [] => []
  end.

Definition trimEnd (s : jsstring) : jsstring := rev (trimStart (rev s)).

Definition trim (s : jsstring) : jsstring := trimEnd (trimStart s).

(** [s.split(sep)] for a one-unit separator: the string is cut at every
    unit satisfying [is_sep]; the result always has at least one piece. *)
Fixpoint split_at (is_sep : N -> bool) (s : jsstring) : list jsstring :=
  match s with
  | [] => [[]]
  | c :: s' =>
      if is_sep c then [] :: split_at is_sep s'
      else match split_at is_sep s' with
           | w :: ws => (c :: w) :: ws
           | [] => [[c]]
           end
  end.

Definition comma : N := 0x2C.
Definition colon : N := 0x3A.

(** [s.split(",")] *)
Definition split_comma (s : jsstring) : list jsstring :=
  split_at (N.eqb comma) s.

(** [s.split(/\s+/)]: the matcher is tried at every position; [\s+] is
    greedy, so a whole run of white space is one separator.  [in_sep]
    records that the previous unit belonged to the separator being
    matched.  The empty string gives one empty piece, since [\s+] does
    not match the empty string. *)
Fixpoint split_ws_from (in_sep : bool) (s : jsstring) : list jsstring :=
  match s with
  | [] => [[]]
  | c :: s' =>
      if isWhiteSpace c then
        if in_sep then split_ws_from true s'
        else [] :: split_ws_from true s'
      else match split_ws_from false s' with
           | w :: ws => (c :: w) :: ws
           | [] => [[c]]
           end
  end.

Definition split_whitespace_regex (s : jsstring) : list jsstring :=
  split_ws_from false s.

(** Truthiness of a string: [Boolean(s)], [!s]. *)
Definition truthy_string (s : jsstring) : bool :=
  match s with [] => false | _ :: _ => true end.

(** [xs.filter(Boolean)] on an array of strings. *)
Definition filter_Boolean (xs : list jsstring) : list jsstring :=
  List.filter truthy_string xs.

(** [`${n}`] for a non-negative integer. *)
Definition number_to_string (n : N) : jsstring :=
  match n with
  | 0 => js "0"
  | _ => js (NilEmpty.string_of_uint (N.to_uint n))
  end.

(** The lowering of the ASCII letters, which is what
    [String.prototype.toLowerCase] does on ASCII text.  The full Unicode
    mapping of the engine is a parameter of the code below; this
    instance serves to run it on ASCII inputs. *)
Definition ascii_lower_unit (c : N) : N :=
  if (0x41 <=? c) && (c <=? 0x5A) then c + 0x20 else c.

Definition toLowerCase_ascii (s : jsstring) : jsstring :=
  map ascii_lower_unit s.

End JS.

Export JS.

(* ===================================================================== *)
(** * Parsed JSON and property access *)
(* ===================================================================== *)

Module Json.

(** A value produced by [JSON.parse].  Objects are kept as the list of
    their fields after parsing (keys distinct).  Of a number only its
    truthiness is observed by the code, so the integer stands for the
    parsed number up to being zero or not. *)
#[warnings="-register-all"]
Inductive json :=
| JNull
| JBool (b : bool)
| JNum (z : Z)
| JStr (s : jsstring)
| JArr (xs : list json)
| JObj (fields : list (jsstring * json)).

(** A JavaScript value reachable from parsed JSON: [None] is
    [undefined]. *)
Abbreviation value := (option json).

Definition lookup_field (name : jsstring) (fields : list (jsstring * json))
  : value :=
  snd <$> List.find (fun kv => bool_decide (fst kv = name)) fields.

(** [v.name] on a value that is neither [null] nor [undefined], for a
    name that is not a built-in property of arrays, strings, numbers or
    booleans ([choices], [message], [content]). *)
Definition get_prop (name : jsstring) (v : json) : value :=
  match v with
  | JObj fs => lookup_field name fs
  | _ => None
  end.

(** [v[0]] on a value that is neither [null] nor [undefined]. *)
Definition get_index0 (v : json) : value :=
  match v with
  | JArr xs => head xs
  | JStr (c :: _) => Some (JStr [c])
  | JObj fs => lookup_field (js "0") fs
  | _ => None
  end.

(** Optional chaining [v?.p]: short-circuits to [undefined] on [null]
    and [undefined]. *)
Definition optional (access : json -> value) (v : value) : value :=
  match v with
  | None | Some JNull => None
  | Some j => access j
  end.

(** Truthiness, as tested by [||] and [!]. *)
Definition truthy (v : value) : bool :=
  match v with
  | None | Some JNull => false
  | Some (JBool b) => b
  | Some (JNum z) => negb (z =? 0)%Z
  | Some (JStr s) => truthy_string s
  | Some (JArr _) | Some (JObj _) => true
  end.

End Json.

Export Json.

(* ===================================================================== *)
(** * Types shared by the function and its client *)
(* ===================================================================== *)

(** [type OCRMode = "printed" | "handwriting" | "mixed"] *)
Inductive OCRMode := printed | handwriting | mixed.

(** [interface OCRResponse] of the function, [interface OCRResult] of the
    client: the same five fields. *)
Record OCRResponse := {
  extracted_text : jsstring;
  processing_time_ms : Z;
  word_count : N;
  character_count : N;
  confidence_note : jsstring
}.

(** A thrown value: an [Error] instance with its message (this covers
    the engine's [TypeError] and [SyntaxError]), or anything else. *)
Inductive thrown :=
| ErrorObject (message : jsstring)
| OtherValue.

(* ===================================================================== *)
(** * The [ocr-process] function *)
(* ===================================================================== *)

Module Handler.

(** [interface OCRRequest].  A field the code tests for presence is an
    option: [None] is an absent ([undefined]) field. *)
Record OCRRequest := {
  imageBase64 : option jsstring;
  fileName : option jsstring;
  fileType : option jsstring;
  mode : option OCRMode;
  userAccessToken : option jsstring
}.

(** What [await req.json()] yields: a rejection (no JSON in the body),
    [null], or any other JSON value, read as a payload through
    [OCRRequest] (a field the value does not have is absent). *)
Inductive parsed_body :=
| BodyNotJson (e : thrown)
| BodyNull
| BodyObject (p : OCRRequest).

Record Request := {
  method : jsstring;
  json_body : parsed_body
}.

(** The body of a [Response]: [null], or the [JSON.stringify] of an
    error object or of an [OCRResponse]. *)
Inductive response_body :=
| NoBody
| ErrorJson (error : jsstring) (elapsed_ms : option Z)
| ResultJson (result : OCRResponse).

Record Response := {
  status : N;
  body : response_body
}.

(** The body of the chat-completion request sent to the AI gateway. *)
Record gateway_request := {
  gw_authorization : jsstring;
  gw_model : jsstring;
  gw_system_prompt : jsstring;
  gw_user_prompt : jsstring;
  gw_image_url : jsstring;
  gw_max_tokens : N
}.

(** [await response.json()]: the parsed body, or a rejection when the
    body is no JSON. *)
Inductive json_result :=
| NotJson (e : thrown)
| Parsed (data : json).

(** [await response.text()]: the body as text, or a rejection when the
    body cannot be read. *)
Inductive text_result :=
| TextRejected (e : thrown)
| TextRead (text : jsstring).

(** The gateway's answer: its status and its body, as [response.text()]
    and as [response.json()] yield it.  A run reads the body once: as
    text when the status is no success, as JSON when it is. *)
Record gateway_response := {
  gw_status : N;
  gw_text : text_result;
  gw_json : json_result
}.

Inductive fetch_result :=
| FetchRejected (e : thrown)
| FetchResponse (r : gateway_response).

(** [supabaseAdmin.auth.getUser(token)]: [{ data: { user }, error }],
    or a rejection. *)
Inductive auth_result :=
| AuthRejected (e : thrown)
| AuthResult (user_id : option jsstring) (error : option jsstring).

(** Everything outside the function: the environment variables, the
    client library's check of the backend URL (the error its constructor
    throws for a non-empty URL it does not accept, such as one that is
    not an HTTP or HTTPS URL), the backend's auth service, the AI
    gateway, the clock (its successive readings), and the message the
    engine puts in a [TypeError]. *)
Record world := {
  env_get : jsstring -> option jsstring;
  client_url_error : jsstring -> option thrown;
  auth_getUser : jsstring -> auth_result;
  gateway_fetch : gateway_request -> fetch_result;
  date_now : N -> Z;
  type_error_message : jsstring
}.

(** The external calls a run makes, in order. *)
Inductive event :=
| AuthGetUser (token : jsstring)
| GatewayFetch (rq : gateway_request).

(** ** Control flow of the [async] callback

    A statement completes normally, or leaves the function through
    [return], or throws.  A computation also extends the trace of
    external calls. *)
Inductive outcome (A : Type) :=
| Normal (a : A)
| Returned (r : Response)
| Threw (e : thrown).
Arguments Normal {A} a.
Arguments Returned {A} r.
Arguments Threw {A} e.

Definition M (A : Type) : Type := list event -> outcome A * list event.

Definition ret {A} (a : A) : M A := fun tr => (Normal a, tr).

Definition bind {A B} (m : M A) (k : A -> M B) : M B :=
  fun tr =>
    match m tr with
    | (Normal a, tr') => k a tr'
    | (Returned r, tr') => (Returned r, tr')
    | (Threw e, tr') => (Threw e, tr')
    end.

Definition return_ {A} (r : Response) : M A := fun tr => (Returned r, tr).
Definition throw {A} (e : thrown) : M A := fun tr => (Threw e, tr).
Definition call (ev : event) : M unit := fun tr => (Normal tt, tr ++ [ev]).
Definition when (c : bool) (m : M unit) : M unit := if c then m else ret tt.

#[global] Instance M_ret : MRet M := @ret.
#[global] Instance M_bind : MBind M := fun A B k m => bind m k.

(** [new Error(msg)] *)
Definition new_Error (msg : jsstring) : thrown := ErrorObject msg.

(** [new Response(JSON.stringify({ error }), { status, headers })] *)
Definition error_response (st : N) (msg : jsstring) : Response :=
  {| status := st; body := ErrorJson msg None |}.

(** ** Constants of the source *)

Definition MAX_SIZE_MB : N := 10.
Definition MAX_SIZE_BYTES : N := MAX_SIZE_MB * 1024 * 1024.

Definition allowedTypes : list jsstring :=
  [ js "image/png"; js "image/jpeg"; js "image/jpg"; js "image/webp";
    js "image/gif"; js "application/pdf" ].

Definition msg_rate_limit : jsstring :=
  js "Rate limit exceeded. Please try again in a moment.".
Definition msg_usage_limit : jsstring :=
  js "Usage limit reached. Please add credits to continue.".
Definition msg_invalid_type : jsstring :=
  js "Invalid file type. Allowed: PNG, JPEG, WebP, GIF, PDF".
Definition msg_too_large : jsstring :=
  js "File too large. Maximum size is " ++ number_to_string MAX_SIZE_MB
  ++ js "MB".
Definition msg_no_image : jsstring := js "No image data provided".
Definition msg_no_text : jsstring :=
  js "No text could be extracted from the image".

(** ** The callback handed to [serve] *)

Section Serve.

(** [String.prototype.toLowerCase] of the engine (the Unicode lower-case
    mapping), and the world the function runs in. *)
Variable toLowerCase : jsstring -> jsstring.
Variable w : world.

(** [!s] and [s || d] on an optional string field. *)
Definition present (o : option jsstring) : bool :=
  match o with
  | Some s => truthy_string s
  | None => false
  end.

Definition or_else (o : option jsstring) (d : jsstring) : jsstring :=
  if present o then default d o else d.

(** [await req.json()] followed by the first property read of the
    payload, which throws a [TypeError] on [null]. *)
Definition await_json (req : Request) : M OCRRequest :=
  match json_body req with
  | BodyNotJson e => throw e
  | BodyNull => throw (ErrorObject (type_error_message w))
  | BodyObject p => mret p
  end.

(** [createClient(Deno.env.get("SUPABASE_URL") ?? "", Deno.env.get(
    "SUPABASE_SERVICE_ROLE_KEY") ?? "")]; the constructor of the client
    library throws on an empty URL, on a URL it does not accept, and on
    an empty key. *)
Definition createClient : M unit :=
  let url := default [] (env_get w (js "SUPABASE_URL")) in
  let key := default [] (env_get w (js "SUPABASE_SERVICE_ROLE_KEY")) in
  if negb (truthy_string url) then
    throw (new_Error (js "supabaseUrl is required."))
  else
    match client_url_error w url with
    | Some e => throw e
    | None =>
        if negb (truthy_string key) then
          throw (new_Error (js "supabaseKey is required."))
        else mret tt
    end.

(** [await supabaseAdmin.auth.getUser(userAccessToken)] *)
Definition getUser (token : jsstring)
  : M (option jsstring * option jsstring) :=
  call (AuthGetUser token);;
  match auth_getUser w token with
  | AuthRejected e => throw e
  | AuthResult user error => mret (user, error)
  end.

(** [(imageBase64.length * 3) / 4].  The length of a string times three
    is far below 2^53 and a division by four is exact in binary floating
    point, so the number computed is this rational. *)
Definition estimatedSize (image : jsstring) : Q :=
  (inject_Z (Z.of_N (jslength image)) * 3) / 4.

(** [estimatedSize > MAX_SIZE_BYTES] *)
Definition too_large (image : jsstring) : bool :=
  negb (Qle_bool (estimatedSize image) (inject_Z (Z.of_N MAX_SIZE_BYTES))).

(** [fileType && !allowedTypes.includes(fileType.toLowerCase())] *)
Definition invalid_file_type (fileType : option jsstring) : bool :=
  present fileType &&
  negb (array_includes allowedTypes (toLowerCase (default [] fileType))).

Definition systemPrompt (m : OCRMode) : jsstring :=
  match m with
  | printed => js
"You are an advanced OCR (Optical Character Recognition) engine. Your task is to extract ALL printed text from the provided image with perfect accuracy. 

Rules:
- Extract text exactly as it appears, preserving formatting where possible
- Maintain paragraph structure and line breaks
- Include headers, footers, captions, and any visible text
- If text is unclear, make your best interpretation but note uncertainty
- Do not add any commentary or explanations - only output the extracted text"
  | handwriting => js
"You are an advanced OCR engine specialized in handwriting recognition. Your task is to carefully read and transcribe all handwritten text from the provided image.

Rules:
- Carefully interpret handwritten characters
- Preserve the structure and flow of the writing
- If a word is unclear, provide your best interpretation
- Handle cursive, print, and mixed handwriting styles
- Do not add commentary - only output the extracted text"
  | mixed => js
"You are an advanced OCR (Optical Character Recognition) engine capable of reading both printed text and handwriting. Your task is to extract ALL text from the provided image.

Rules:
- Extract ALL visible text including printed and handwritten content
- Preserve document structure (headers, paragraphs, lists)
- Handle tables by extracting content row by row
- Include captions, annotations, and marginalia
- For unclear text, make your best interpretation
- Output ONLY the extracted text without any commentary"
  end.

Definition userPrompt (m : OCRMode) : jsstring :=
  match m with
  | printed => js
"Extract all printed text from this document image. Output ONLY the extracted text, nothing else."
  | handwriting => js
"Carefully read and transcribe all handwritten text from this image. Output ONLY the extracted text, nothing else."
  | mixed => js
"Extract all text (printed and handwritten) from this document image. Output ONLY the extracted text, maintaining the original structure."
  end.

(** The image URL: the payload itself when it already is a data URL,
    else the payload behind a [data:<mime>;base64,] prefix, the MIME
    type being [fileType || "image/png"]. *)
Definition imageUrl (image : jsstring) (fileType : option jsstring)
  : jsstring :=
  if negb (startsWith image (js "data:")) then
    let mimeType := or_else fileType (js "image/png") in
    js "data:" ++ mimeType ++ js ";base64," ++ image
  else image.

Definition chat_completion_request (key : jsstring) (m : OCRMode)
    (url : jsstring) : gateway_request :=
  {| gw_authorization := js "Bearer " ++ key;
     gw_model := js "google/gemini-2.5-flash";
     gw_system_prompt := systemPrompt m;
     gw_user_prompt := userPrompt m;
     gw_image_url := url;
     gw_max_tokens := 4096 |}.

(** [await fetch("https://ai.gateway.lovable.dev/v1/chat/completions",
    ...)] *)
Definition fetch_gateway (rq : gateway_request) : M gateway_response :=
  call (GatewayFetch rq);;
  match gateway_fetch w rq with
  | FetchRejected e => throw e
  | FetchResponse r => mret r
  end.

(** [response.ok] *)
Definition ok (r : gateway_response) : bool :=
  (200 <=? gw_status r) && (gw_status r <=? 299).

(** [await response.text()] *)
Definition await_text (r : gateway_response) : M jsstring :=
  match gw_text r with
  | TextRejected e => throw e
  | TextRead text => mret text
  end.

(** [await response.json()] *)
Definition await_json_body (r : gateway_response) : M json :=
  match gw_json r with
  | NotJson e => throw e
  | Parsed data => mret data
  end.

(** [data.choices?.[0]?.message?.content], for [data] other than
    [null]. *)
Definition content_of (data : json) : value :=
  optional (get_prop (js "content"))
    (optional (get_prop (js "message"))
       (optional get_index0 (get_prop (js "choices") data))).

(** [content || ""] *)
Definition extractedText_of (data : json) : value :=
  if truthy (content_of data) then content_of data else Some (JStr []).

(** [const extractedText = data.choices?.[0]?.message?.content || ""];
    reading [choices] off [null] is a [TypeError]. *)
Definition content_or_empty (data : json) : M value :=
  match data with
  | JNull => throw (ErrorObject (type_error_message w))
  | _ => mret (extractedText_of data)
  end.

(** The receiver of [extractedText.trim()]: only a string has the
    method, any other value makes the call a [TypeError]. *)
Definition string_receiver (v : value) : M jsstring :=
  match v with
  | Some (JStr s) => mret s
  | _ => throw (ErrorObject (type_error_message w))
  end.

Definition confidence (m : OCRMode) : jsstring :=
  match m with
  | handwriting =>
      js "Handwriting recognition - accuracy may vary based on writing clarity"
  | _ => js "High confidence OCR extraction"
  end.

(** The part of the [try] block that follows the gateway call: on a
    status that is no success the body is read as text (for the log) and
    the status is mapped to a response; otherwise the text is read out
    of the completion, and the result is assembled. *)
Definition normalize (mode : OCRMode) (startTime : Z)
    (response : gateway_response) : M Response :=
  when (negb (ok response))
    (errorText ← await_text response;
     when (gw_status response =? 429)
       (return_ (error_response 429 msg_rate_limit));;
     when (gw_status response =? 402)
       (return_ (error_response 402 msg_usage_limit));;
     throw (new_Error (js "AI Gateway error: "
                       ++ number_to_string (gw_status response))));;
  data ← await_json_body response;
  content ← content_or_empty data;
  extractedText ← string_receiver content;
  when (negb (truthy_string (trim extractedText)))
    (throw (new_Error msg_no_text));;
  let processingTime := (date_now w 1 - startTime)%Z in
  let words := filter_Boolean (split_whitespace_regex extractedText) in
  let result :=
    {| extracted_text := extractedText;
       processing_time_ms := processingTime;
       word_count := N.of_nat (length words);
       character_count := jslength extractedText;
       confidence_note := confidence mode |} in
  mret {| status := 200; body := ResultJson result |}.

(** The body of the [try] block. *)
Definition try_block (req : Request) (startTime : Z) : M Response :=
  payload ← await_json req;
  when (negb (present (userAccessToken payload)))
    (return_ (error_response 401 (js "Authentication required")));;
  let token := default [] (userAccessToken payload) in
  createClient;;
  '(user, authError) ← getUser token;
  when (bool_decide (is_Some authError) || negb (bool_decide (is_Some user)))
    (return_ (error_response 401 (js "Unauthorized")));;
  let LOVABLE_API_KEY := env_get w (js "LOVABLE_API_KEY") in
  when (negb (present LOVABLE_API_KEY))
    (throw (new_Error (js "LOVABLE_API_KEY is not configured")));;
  let key := default [] LOVABLE_API_KEY in
  let mode := default mixed (mode payload) in
  when (negb (present (imageBase64 payload)))
    (return_ (error_response 400 msg_no_image));;
  let image := default [] (imageBase64 payload) in
  when (too_large image)
    (return_ (error_response 400 msg_too_large));;
  when (invalid_file_type (fileType payload))
    (return_ (error_response 400 msg_invalid_type));;
  let url := imageUrl image (fileType payload) in
  response ← fetch_gateway (chat_completion_request key mode url);
  normalize mode startTime response.

(** The [catch] block. *)
Definition catch_block (e : thrown) (startTime : Z) : Response :=
  let processingTime := (date_now w 1 - startTime)%Z in
  {| status := 500;
     body := ErrorJson
               (match e with
                | ErrorObject message => message
                | OtherValue => js "Unknown error occurred"
                end)
               (Some processingTime) |}.

(** How the callback ends: with the response returned from the [try]
    block, or with the one the [catch] block builds. *)
Definition settle (startTime : Z) (o : outcome Response) : Response :=
  match o with
  | Normal r => r
  | Returned r => r
  | Threw e => catch_block e startTime
  end.

(** The whole callback: the response, and the external calls made
    before it. *)
Definition serve (req : Request) : Response * list event :=
  if bool_decide (method req = js "OPTIONS") then
    ({| status := 200; body := NoBody |}, [])
  else
    let startTime := date_now w 0 in
    let '(o, tr) := try_block req startTime [] in
    (settle startTime o, tr).

End Serve.

End Handler.

(* ===================================================================== *)
(** * The client: [services/ocrEngine.ts] *)
(* ===================================================================== *)

Module Client.

(** A browser [File]: [name], [type], [size], and the bytes a reader
    gets out of it ([None] when reading fails). *)
Record File := {
  file_name : jsstring;
  file_type : jsstring;
  file_size : N;
  file_bytes : option (list N)
}.

(** The settlement of a promise. *)
Inductive promise (A : Type) :=
| Rejected (e : thrown)
| Resolved (a : A).
Arguments Rejected {A} e.
Arguments Resolved {A} a.

(** ** [FileReader.readAsDataURL]

    The browser's encoder, after the File API and RFC 4648: the result
    is [data:<type>;base64,<base64 of the bytes>], the type of a file
    without one being [application/octet-stream]. *)

Definition base64_alphabet : jsstring :=
  js "ABCDEFGHIJKLMNOPQRSTUVWXYZabcdefghijklmnopqrstuvwxyz0123456789+/".

Definition base64_pad : N := 0x3D.

Definition base64_digit (i : N) : N :=
  nth (N.to_nat (N.land i 63)) base64_alphabet base64_pad.

Fixpoint base64 (bs : list N) : jsstring :=
  match bs with
  | [] => []
  | [a] =>
      [ base64_digit (N.shiftr a 2);
        base64_digit (N.shiftl (N.land a 3) 4);
        base64_pad; base64_pad ]
  | [a; b] =>
      [ base64_digit (N.shiftr a 2);
        base64_digit (N.lor (N.shiftl (N.land a 3) 4) (N.shiftr b 4));
        base64_digit (N.shiftl (N.land b 15) 2);
        base64_pad ]
  | a :: b :: c :: rest =>
      base64_digit (N.shiftr a 2)
      :: base64_digit (N.lor (N.shiftl (N.land a 3) 4) (N.shiftr b 4))
      :: base64_digit (N.lor (N.shiftl (N.land b 15) 2) (N.shiftr c 6))
      :: base64_digit c
      :: base64 rest
  end.

Definition data_url_prefix (mime : jsstring) : jsstring :=
  js "data:" ++ mime ++ js ";base64,".

Definition readAsDataURL (f : File) : option jsstring :=
  bs ← file_bytes f;
  let mime :=
    if truthy_string (file_type f) then file_type f
    else js "application/octet-stream" in
  Some (data_url_prefix mime ++ base64 bs).

(** ** [fileToBase64]

    Resolves with [result.split(",")[1]] ([undefined] when the split has
    a single piece); a reader error rejects with the error event, which
    is no [Error] instance. *)
Definition fileToBase64 (f : File) : promise (option jsstring) :=
  match readAsDataURL f with
  | Some result => Resolved (split_comma result !! 1%nat)
  | None => Rejected OtherValue
  end.

(** ** [invokeOcrProcess] *)

(** The JSON the function answers with, as the client reads it: an
    object with an [error] field, or a result. *)
Inductive invoke_data :=
| DataError (error : jsstring)
| DataResult (r : OCRResponse).

(** [{ data, error }] of the invocation ([error] holding its message),
    or a rejection. *)
Inductive invoke_result :=
| InvokeRejected (e : thrown)
| InvokeSettled (data : option invoke_data) (error : option jsstring).

(** The client's surroundings: the current session's access token and
    the deployed function. *)
Record world := {
  session_access_token : option jsstring;
  functions_invoke : Handler.OCRRequest -> invoke_result
}.

Section Engine.

Variable toLowerCase : jsstring -> jsstring.
Variable cw : world.

(** A client computation: its settlement and the bodies it posted to
    the function. *)
Definition async (A : Type) : Type := promise A * list Handler.OCRRequest.

(** [type OcrProcessBody] *)
Record OcrProcessBody := {
  body_imageBase64 : option jsstring;
  body_fileName : jsstring;
  body_fileType : jsstring;
  body_mode : OCRMode
}.

Definition invokeOcrProcess (b : OcrProcessBody)
  : async (option invoke_data * option jsstring) :=
  if negb (Handler.present (session_access_token cw)) then
    (Rejected (ErrorObject (js "You must be logged in to use OCR processing")),
     [])
  else
    let posted :=
      {| Handler.imageBase64 := body_imageBase64 b;
         Handler.fileName := Some (body_fileName b);
         Handler.fileType := Some (body_fileType b);
         Handler.mode := Some (body_mode b);
         Handler.userAccessToken := session_access_token cw |} in
    match functions_invoke cw posted with
    | InvokeRejected e => (Rejected e, [posted])
    | InvokeSettled data error => (Resolved (data, error), [posted])
    end.

(** The common body of [processImage] and [processPDF], which differ in
    the fallback message only.  The value returned is [data as
    OCRResult], whatever [data] is. *)
Definition process_with (fallback : jsstring) (f : File) (m : OCRMode)
  : async (option invoke_data) :=
  match fileToBase64 f with
  | Rejected e => (Rejected e, [])
  | Resolved base64 =>
      match invokeOcrProcess
              {| body_imageBase64 := base64;
                 body_fileName := file_name f;
                 body_fileType := file_type f;
                 body_mode := m |} with
      | (Rejected e, posted) => (Rejected e, posted)
      | (Resolved (data, error), posted) =>
          match error with
          | Some message =>
              (Rejected (ErrorObject
                 (if truthy_string message then message else fallback)),
               posted)
          | None =>
              match data with
              | Some (DataError e) =>
                  if truthy_string e then (Rejected (ErrorObject e), posted)
                  else (Resolved data, posted)
              | _ => (Resolved data, posted)
              end
          end
      end
  end.

Definition processImage (f : File) (m : OCRMode) : async (option invoke_data) :=
  process_with (js "OCR processing failed") f m.

Definition processPDF (f : File) (m : OCRMode) : async (option invoke_data) :=
  process_with (js "PDF OCR processing failed") f m.

Definition processHandwriting (f : File) : async (option invoke_data) :=
  processImage f handwriting.

(** ** [isLikelyHandwritten] *)

Definition handwritingKeywords : list jsstring :=
  [ js "handwritten"; js "handwriting"; js "notes"; js "notebook";
    js "manuscript"; js "letter"; js "diary"; js "journal" ].

Definition isLikelyHandwritten (fileName : jsstring) : bool :=
  let lowerName := toLowerCase fileName in
  existsb (fun keyword => includes lowerName keyword) handwritingKeywords.

(** ** [processDocument] *)

(** [mode || (isLikelyHandwritten(file.name) ? "handwriting" : "mixed")] *)
Definition detectedMode (f : File) (mode : option OCRMode) : OCRMode :=
  match mode with
  | Some m => m
  | None => if isLikelyHandwritten (file_name f) then handwriting else mixed
  end.

Definition processDocument (f : File) (mode : option OCRMode)
  : async (option invoke_data) :=
  let detected := detectedMode f mode in
  if bool_decide (file_type f = js "application/pdf") then
    processPDF f detected
  else if startsWith (file_type f) (js "image/") then
    processImage f detected
  else
    (Rejected (ErrorObject (js "Unsupported file type: " ++ file_type f)), []).

End Engine.

End Client.

(* ===================================================================== *)
(** * The page component: persistence and history *)
(* ===================================================================== *)

Module Pipeline.

(** ** The relational store *)

(** A row of [documents], keyed by its [id] in the table. *)
Record document := {
  doc_user_id : jsstring;
  doc_file_name : jsstring;
  doc_file_type : jsstring;
  doc_file_size : N;
  doc_status : jsstring;
  doc_created_at : Z
}.

(** A row of [ocr_results]; the fields copied from the OCR result are
    [undefined] ([None]) when the data received is not a result. *)
Record ocr_result := {
  res_document_id : jsstring;
  res_user_id : jsstring;
  res_extracted_text : option jsstring;
  res_word_count : option N;
  res_character_count : option N;
  res_processing_time_ms : option Z
}.

Record database := {
  documents : gmap jsstring document;
  ocr_results : list ocr_result
}.

(** The statements the page sends to the store. *)
Inductive command :=
| InsertDocument (user_id file_name file_type : jsstring) (file_size : N)
    (status : jsstring)
| InsertOcrResult (row : ocr_result)
| UpdateDocumentStatus (id : jsstring) (status : jsstring)
| DeleteDocument (id : jsstring).

(** The store's side of a statement: whether it answers with an error
    (policy, constraint, network), the id it gives a new row, and its
    clock. *)
Record backend := {
  refuses : command -> database -> bool;
  generate_id : database -> jsstring;
  now : Z
}.

Section Store.

Variable b : backend.

(** Modelled from the spec: the [documents] table of the relational
    schema; [insert(...).select().single()] stores the row under a new id
    and gives the id back, or answers with an error and stores nothing. *)
Definition insert_document (db : database)
    (user_id file_name file_type : jsstring) (file_size : N)
    (status : jsstring) : option (jsstring * database) :=
  let id := generate_id b db in
  if refuses b (InsertDocument user_id file_name file_type file_size status) db
     || bool_decide (is_Some (documents db !! id))
  then None
  else
    let row :=
      {| doc_user_id := user_id; doc_file_name := file_name;
         doc_file_type := file_type; doc_file_size := file_size;
         doc_status := status; doc_created_at := now b |} in
    Some (id, {| documents := <[id := row]> (documents db);
                 ocr_results := ocr_results db |}).

(** Modelled from the spec: the [ocr_results] table, each row owned by a
    document; an insert stores the row or answers with an error. *)
Definition insert_ocr_result (db : database) (row : ocr_result)
  : option database :=
  if refuses b (InsertOcrResult row) db
     || negb (bool_decide (is_Some (documents db !! res_document_id row)))
  then None
  else Some {| documents := documents db;
               ocr_results := ocr_results db ++ [row] |}.

Definition set_status (status : jsstring) (d : document) : document :=
  {| doc_user_id := doc_user_id d; doc_file_name := doc_file_name d;
     doc_file_type := doc_file_type d; doc_file_size := doc_file_size d;
     doc_status := status; doc_created_at := doc_created_at d |}.

(** Modelled from the spec: [update({ status }).eq("id", id)] on
    [documents] rewrites the status of the row with that id, if any. *)
Definition update_document_status (db : database) (id status : jsstring)
  : option database :=
  if refuses b (UpdateDocumentStatus id status) db then None
  else Some {| documents := alter (set_status status) id (documents db);
               ocr_results := ocr_results db |}.

(** Modelled from the spec: [delete().eq("id", id)] on [documents];
    deleting a document cascades to its OCR result. *)
Definition delete_document (db : database) (id : jsstring)
  : option database :=
  if refuses b (DeleteDocument id) db then None
  else Some {| documents := delete id (documents db);
               ocr_results :=
                 List.filter
                   (fun r => negb (bool_decide (res_document_id r = id)))
                   (ocr_results db) |}.

End Store.

(** ** The component's state *)

Inductive ProcessingStatus := idle | uploading | processing | complete | error.

Record HistoryItem := {
  item_id : jsstring;
  item_fileName : jsstring;
  item_fileType : jsstring;
  item_extractedText : option jsstring;
  item_processedAt : Z
}.

(** A toast: its title and whether it is the destructive variant (the
    description is not modelled). *)
Record toast := {
  toast_title : jsstring;
  toast_destructive : bool
}.

Record ProcessingStats := {
  stats_time : option Z;
  stats_words : option N;
  stats_chars : option N
}.

(** The [useState] cells of [Index], and the toasts shown so far. *)
Record page := {
  status : ProcessingStatus;
  progress : N;
  extractedText : option jsstring;
  currentFileName : jsstring;
  history : list HistoryItem;
  selectedHistoryId : option jsstring;
  processingStats : option ProcessingStats;
  toasts : list toast
}.

(** The store, the page, and the statements sent to the store so far. *)
Record state := {
  db : database;
  ui : page;
  sent : list command
}.

Record User := {
  user_id : jsstring;
  user_email : jsstring
}.

(** [result.<field>] on the data the OCR call resolved with. *)
Definition result_field {A} (get : OCRResponse -> A)
    (d : Client.invoke_data) : option A :=
  match d with
  | Client.DataResult r => Some (get r)
  | Client.DataError _ => None
  end.

Section Index.

Variable toLowerCase : jsstring -> jsstring.
Variable cw : Client.world.
Variable b : backend.

(** The [catch] block of [handleOCRProcessing]: mark the document failed,
    show the error. *)
Definition ocr_failed (docId : jsstring) (db1 : database) (p : page)
    (sent1 : list command) : state :=
  let cmd := UpdateDocumentStatus docId (js "failed") in
  {| db := default db1 (update_document_status b db1 docId (js "failed"));
     ui := {| status := error; progress := progress p;
              extractedText := extractedText p;
              currentFileName := currentFileName p;
              history := history p;
              selectedHistoryId := selectedHistoryId p;
              processingStats := processingStats p;
              toasts := toasts p
                        ++ [{| toast_title := js "OCR Failed";
                               toast_destructive := true |}] |};
     sent := sent1 ++ [cmd] |}.

Definition handleOCRProcessing (user : option User) (f : Client.File)
    (mode : OCRMode) (s : state) : state :=
  match user with
  | None => s
  | Some u =>
      (* the state resets and the simulated upload progress 0, 10, 20, 30 *)
      let p1 :=
        {| status := uploading; progress := 30;
           extractedText := Some [];
           currentFileName := Client.file_name f;
           history := history (ui s);
           selectedHistoryId := None;
           processingStats := None;
           toasts := toasts (ui s) |} in
      (* create the document record *)
      let create :=
        InsertDocument (user_id u) (Client.file_name f) (Client.file_type f)
          (Client.file_size f) (js "processing") in
      let sent1 := sent s ++ [create] in
      match insert_document b (db s) (user_id u) (Client.file_name f)
              (Client.file_type f) (Client.file_size f) (js "processing") with
      | None =>
          {| db := db s;
             ui := {| status := error; progress := progress p1;
                      extractedText := extractedText p1;
                      currentFileName := currentFileName p1;
                      history := history p1;
                      selectedHistoryId := selectedHistoryId p1;
                      processingStats := processingStats p1;
                      toasts := toasts p1
                                ++ [{| toast_title := js "Error";
                                       toast_destructive := true |}] |};
             sent := sent1 |}
      | Some (docId, db1) =>
          let p2 :=
            {| status := processing; progress := 40;
               extractedText := extractedText p1;
               currentFileName := currentFileName p1;
               history := history p1;
               selectedHistoryId := selectedHistoryId p1;
               processingStats := processingStats p1;
               toasts := toasts p1 |} in
          match fst (Client.processDocument toLowerCase cw f (Some mode)) with
          | Client.Rejected _ => ocr_failed docId db1 p2 sent1
          | Client.Resolved None =>
              (* [result.extracted_text] on [null]: a [TypeError] *)
              ocr_failed docId db1
                {| status := status p2; progress := 90;
                   extractedText := extractedText p2;
                   currentFileName := currentFileName p2;
                   history := history p2;
                   selectedHistoryId := selectedHistoryId p2;
                   processingStats := processingStats p2;
                   toasts := toasts p2 |}
                sent1
          | Client.Resolved (Some result) =>
              (* save the OCR result; an error is only logged *)
              let row :=
                {| res_document_id := docId;
                   res_user_id := user_id u;
                   res_extracted_text := result_field extracted_text result;
                   res_word_count := result_field word_count result;
                   res_character_count := result_field character_count result;
                   res_processing_time_ms :=
                     result_field processing_time_ms result |} in
              let db2 := default db1 (insert_ocr_result b db1 row) in
              (* update the document status *)
              let finish := UpdateDocumentStatus docId (js "completed") in
              let db3 :=
                default db2
                  (update_document_status b db2 docId (js "completed")) in
              let newItem :=
                {| item_id := docId;
                   item_fileName := Client.file_name f;
                   item_fileType := Client.file_type f;
                   item_extractedText := result_field extracted_text result;
                   item_processedAt := now b |} in
              {| db := db3;
                 ui := {| status := complete; progress := 100;
                          extractedText := result_field extracted_text result;
                          currentFileName := currentFileName p2;
                          history := newItem :: take 9 (history p2);
                          selectedHistoryId := Some docId;
                          processingStats :=
                            Some {| stats_time :=
                                      result_field processing_time_ms result;
                                    stats_words :=
                                      result_field word_count result;
                                    stats_chars :=
                                      result_field character_count result |};
                          toasts := toasts p2
                                    ++ [{| toast_title :=
                                             js "Extraction complete";
                                           toast_destructive := false |}] |};
                 sent := sent1 ++ [InsertOcrResult row; finish] |}
          end
      end
  end.

(** The earlier, demonstration version of the same handler,
    [simulateOCRProcessing]: no OCR call is made, the text saved is a
    fixed template filled in with the file's and the user's data
    ([demoText], taken as given). *)
Definition simulateOCRProcessing (demoText : jsstring) (user : option User)
    (f : Client.File) (s : state) : state :=
  match user with
  | None => s
  | Some u =>
      let p1 :=
        {| status := processing; progress := 40;
           extractedText := Some [];
           currentFileName := Client.file_name f;
           history := history (ui s);
           selectedHistoryId := None;
           processingStats := processingStats (ui s);
           toasts := toasts (ui s) |} in
      let create :=
        InsertDocument (user_id u) (Client.file_name f) (Client.file_type f)
          (Client.file_size f) (js "processing") in
      let sent1 := sent s ++ [create] in
      match insert_document b (db s) (user_id u) (Client.file_name f)
              (Client.file_type f) (Client.file_size f) (js "processing") with
      | None =>
          {| db := db s;
             ui := {| status := error; progress := progress p1;
                      extractedText := extractedText p1;
                      currentFileName := currentFileName p1;
                      history := history p1;
                      selectedHistoryId := selectedHistoryId p1;
                      processingStats := processingStats p1;
                      toasts := toasts p1
                                ++ [{| toast_title := js "Error";
                                       toast_destructive := true |}] |};
             sent := sent1 |}
      | Some (docId, db1) =>
          let wordCount :=
            N.of_nat
              (length (filter_Boolean (split_whitespace_regex demoText))) in
          let charCount := jslength demoText in
          let row :=
            {| res_document_id := docId;
               res_user_id := user_id u;
               res_extracted_text := Some demoText;
               res_word_count := Some wordCount;
               res_character_count := Some charCount;
               res_processing_time_ms := Some 1500%Z |} in
          let db2 := default db1 (insert_ocr_result b db1 row) in
          let finish := UpdateDocumentStatus docId (js "completed") in
          let db3 :=
            default db2
              (update_document_status b db2 docId (js "completed")) in
          let newItem :=
            {| item_id := docId;
               item_fileName := Client.file_name f;
               item_fileType := Client.file_type f;
               item_extractedText := Some demoText;
               item_processedAt := now b |} in
          {| db := db3;
             ui := {| status := complete; progress := 100;
                      extractedText := Some demoText;
                      currentFileName := currentFileName p1;
                      history := newItem :: take 9 (history p1);
                      selectedHistoryId := Some docId;
                      processingStats := processingStats p1;
                      toasts := toasts p1
                                ++ [{| toast_title := js "Extraction complete";
                                       toast_destructive := false |}] |};
             sent := sent1 ++ [InsertOcrResult row; finish] |}
      end
  end.

Definition handleHistoryDelete (id : jsstring) (s : state) : state :=
  let p := ui s in
  let sent1 := sent s ++ [DeleteDocument id] in
  match delete_document b (db s) id with
  | None =>
      {| db := db s;
         ui := {| status := status p; progress := progress p;
                  extractedText := extractedText p;
                  currentFileName := currentFileName p;
                  history := history p;
                  selectedHistoryId := selectedHistoryId p;
                  processingStats := processingStats p;
                  toasts := toasts p
                            ++ [{| toast_title := js "Error";
                                   toast_destructive := true |}] |};
         sent := sent1 |}
  | Some db1 =>
      let selected := bool_decide (selectedHistoryId p = Some id) in
      {| db := db1;
         ui := {| status := if selected then idle else status p;
                  progress := progress p;
                  extractedText :=
                    if selected then Some [] else extractedText p;
                  currentFileName := currentFileName p;
                  history :=
                    List.filter
                      (fun item => negb (bool_decide (item_id item = id)))
                      (history p);
                  selectedHistoryId :=
                    if selected then None else selectedHistoryId p;
                  processingStats := processingStats p;
                  toasts := toasts p
                            ++ [{| toast_title := js "Deleted";
                                   toast_destructive := false |}] |};
         sent := sent1 |}
  end.

End Index.

End Pipeline.

(* ===================================================================== *)
(** * The rest of the page: selection, upload zone, result and history
      views, sign-in form *)
(* ===================================================================== *)

(** ** [handleHistorySelect] and [handleNewScan] of [Index] *)

Module Navigation.

Import Pipeline.

Definition handleHistorySelect (item : HistoryItem) (s : state) : state :=
  let p := ui s in
  {| db := db s;
     ui := {| status := complete; progress := progress p;
              extractedText := item_extractedText item;
              currentFileName := item_fileName item;
              history := history p;
              selectedHistoryId := Some (item_id item);
              processingStats := None;
              toasts := toasts p |};
     sent := sent s |}.

Definition handleNewScan (s : state) : state :=
  let p := ui s in
  {| db := db s;
     ui := {| status := idle; progress := 0;
              extractedText := Some [];
              currentFileName := [];
              history := history p;
              selectedHistoryId := None;
              processingStats := None;
              toasts := toasts p |};
     sent := sent s |}.

End Navigation.

(** ** The upload zone: [components/UploadZone.tsx] *)

Module UploadZone.

(** The [useState] cells of the component. *)
Record zone := {
  isDragging : bool;
  selectedFile : option Client.File;
  selectedMode : OCRMode
}.

Definition initial : zone :=
  {| isDragging := false; selectedFile := None; selectedMode := mixed |}.

Definition handleDragOver (z : zone) : zone :=
  {| isDragging := true; selectedFile := selectedFile z;
     selectedMode := selectedMode z |}.

Definition handleDragLeave (z : zone) : zone :=
  {| isDragging := false; selectedFile := selectedFile z;
     selectedMode := selectedMode z |}.

(** [file.type.startsWith("image/") || file.type === "application/pdf"] *)
Definition droppable (f : Client.File) : bool :=
  startsWith (Client.file_type f) (js "image/")
  || bool_decide (Client.file_type f = js "application/pdf").

(** [handleDrop], on [e.dataTransfer.files[0]]. *)
Definition handleDrop (dropped : option Client.File) (z : zone) : zone :=
  {| isDragging := false;
     selectedFile :=
       match dropped with
       | Some f => if droppable f then Some f else selectedFile z
       | None => selectedFile z
       end;
     selectedMode := selectedMode z |}.

(** [handleFileInput], on [e.target.files?.[0]]. *)
Definition handleFileInput (chosen : option Client.File) (z : zone) : zone :=
  match chosen with
  | Some f =>
      {| isDragging := isDragging z; selectedFile := Some f;
         selectedMode := selectedMode z |}
  | None => z
  end.

Definition clearFile (z : zone) : zone :=
  {| isDragging := isDragging z; selectedFile := None;
     selectedMode := selectedMode z |}.

(** The mode buttons: [setSelectedMode(option.value)]. *)
Definition setSelectedMode (m : OCRMode) (z : zone) : zone :=
  {| isDragging := isDragging z; selectedFile := selectedFile z;
     selectedMode := m |}.

(** [handleProcess]: the call [onFileSelect(selectedFile, selectedMode)]
    it makes, if any. *)
Definition handleProcess (z : zone) : option (Client.File * OCRMode) :=
  match selectedFile z with
  | Some f => Some (f, selectedMode z)
  | None => None
  end.

(** The "Extract Text" button of the page: [handleProcess] wired, through
    [handleFileSelect], to [handleOCRProcessing]. *)
Definition extract (toLowerCase : jsstring -> jsstring) (cw : Client.world)
    (b : Pipeline.backend) (user : option Pipeline.User) (z : zone)
    (s : Pipeline.state) : Pipeline.state :=
  match handleProcess z with
  | Some (f, m) => Pipeline.handleOCRProcessing toLowerCase cw b user f m s
  | None => s
  end.

End UploadZone.

(** ** The result view: [components/ResultDisplay.tsx] *)

Module ResultDisplay.

Definition dot : N := 0x2E.

(** [fileName.split(".")[0]] *)
Definition base_name (fileName : jsstring) : jsstring :=
  match split_at (N.eqb dot) fileName with
  | first :: _ => first
  | [] => []
  end.

(** The name [handleDownload] gives the exported file:
    [fileName ? `${fileName.split(".")[0]}_ocr.txt` : "extracted_text.txt"] *)
Definition download_name (fileName : option jsstring) : jsstring :=
  if Handler.present fileName then
    base_name (default [] fileName) ++ js "_ocr.txt"
  else js "extracted_text.txt".

(** [text.split(/\s+/).filter(Boolean).length] and [text.length], the
    figures shown in the header. *)
Definition wordCount (text : jsstring) : N :=
  N.of_nat (length (filter_Boolean (split_whitespace_regex text))).

Definition charCount (text : jsstring) : N := jslength text.

End ResultDisplay.

(** ** The history list: [formatTimeAgo] of [DocumentHistory] *)

Module DocumentHistory.

(** Times are the integer millisecond counts of [Date.getTime()]; the
    quotients under [Math.floor] are taken exactly, as the doubles of
    the source do for any pair of real dates. *)
Definition formatTimeAgo (now date : Z) : jsstring :=
  let seconds := ((now - date) / 1000)%Z in
  if (seconds <? 60)%Z then js "Just now"
  else if (seconds <? 3600)%Z then
    number_to_string (Z.to_N (seconds / 60)) ++ js "m ago"
  else if (seconds <? 86400)%Z then
    number_to_string (Z.to_N (seconds / 3600)) ++ js "h ago"
  else number_to_string (Z.to_N (seconds / 86400)) ++ js "d ago".

(** The preview line: [item.extractedText.slice(0, 80)] followed by
    three dots. *)
Definition preview (extractedText : jsstring) : jsstring :=
  take 80 extractedText ++ js "...".

(** The icon test [item.fileType.includes("image")]. *)
Definition image_icon (fileType : jsstring) : bool :=
  includes fileType (js "image").

End DocumentHistory.

(** ** The sign-in form: [pages/Auth.tsx] *)

Module Auth.

(** The fields of the form. *)
Record form := {
  isLogin : bool;
  email : jsstring;
  password : jsstring;
  fullName : jsstring
}.

(** [newErrors]: a message per failing field. *)
Record field_errors := {
  email_error : option jsstring;
  password_error : option jsstring;
  fullName_error : option jsstring
}.

(** What the auth hook answers: [{ error }], holding the error's message
    if there is one. *)
Record auth_backend := {
  signIn : jsstring -> jsstring -> option jsstring;
  signUp : jsstring -> jsstring -> jsstring -> option jsstring
}.

(** The calls made to the auth hook. *)
Inductive auth_call :=
| SignIn (email password : jsstring)
| SignUp (email password fullName : jsstring).

Record toast := {
  toast_title : jsstring;
  toast_description : jsstring;
  toast_destructive : bool
}.

(** The page after a submit: the errors shown, the loading flag, the
    toasts, whether it navigated to ["/"], and the calls it made. *)
Record page := {
  errors : field_errors;
  isLoading : bool;
  toasts : list toast;
  navigated : bool;
  calls : list auth_call
}.

Section Form.

(** The e-mail test of the validation library ([z.string().email()]). *)
Variable is_email : jsstring -> bool.
Variable backend : auth_backend.

(** [emailSchema], [passwordSchema], [fullNameSchema]: the message of
    the first failing check, if any. *)
Definition emailSchema (s : jsstring) : option jsstring :=
  if is_email s then None else Some (js "Please enter a valid email address").

Definition passwordSchema (s : jsstring) : option jsstring :=
  if jslength s <? 6 then Some (js "Password must be at least 6 characters")
  else None.

Definition fullNameSchema (s : jsstring) : option jsstring :=
  if jslength s <? 2 then Some (js "Name must be at least 2 characters")
  else if 100 <? jslength s then Some (js "Name is too long")
  else None.

(** [validateForm]: the errors it sets and the boolean it returns. *)
Definition validateForm (f : form) : field_errors * bool :=
  let newErrors :=
    {| email_error := emailSchema (email f);
       password_error := passwordSchema (password f);
       fullName_error :=
         if isLogin f then None else fullNameSchema (fullName f) |} in
  (newErrors,
   bool_decide (email_error newErrors = None)
   && bool_decide (password_error newErrors = None)
   && bool_decide (fullName_error newErrors = None)).

Definition failure (title description : jsstring) : toast :=
  {| toast_title := title; toast_description := description;
     toast_destructive := true |}.

Definition success (title description : jsstring) : toast :=
  {| toast_title := title; toast_description := description;
     toast_destructive := false |}.

(** [handleSubmit], from a page that is not loading. *)
Definition handleSubmit (f : form) (p : page) : page :=
  let '(newErrors, valid) := validateForm f in
  if negb valid then
    {| errors := newErrors; isLoading := isLoading p; toasts := toasts p;
       navigated := navigated p; calls := calls p |}
  else if isLogin f then
    let call := SignIn (email f) (password f) in
    match signIn backend (email f) (password f) with
    | Some message =>
        {| errors := newErrors; isLoading := false;
           toasts :=
             toasts p
             ++ [if includes message (js "Invalid login credentials") then
                   failure (js "Login failed")
                     (js "Invalid email or password. Please try again.")
                 else failure (js "Login failed") message];
           navigated := navigated p; calls := calls p ++ [call] |}
    | None =>
        {| errors := newErrors; isLoading := false;
           toasts :=
             toasts p
             ++ [success (js "Welcome back!")
                   (js "You have successfully logged in.")];
           navigated := true; calls := calls p ++ [call] |}
    end
  else
    let call := SignUp (email f) (password f) (fullName f) in
    match signUp backend (email f) (password f) (fullName f) with
    | Some message =>
        {| errors := newErrors; isLoading := false;
           toasts :=
             toasts p
             ++ [if includes message (js "User already registered") then
                   failure (js "Account exists")
                     (js "An account with this email already exists. Please log in instead.")
                 else failure (js "Sign up failed") message];
           navigated := navigated p; calls := calls p ++ [call] |}
    | None =>
        {| errors := newErrors; isLoading := false;
           toasts :=
             toasts p
             ++ [success (js "Account created!") (js "Welcome to VisionOCR.")];
           navigated := true; calls := calls p ++ [call] |}
    end.

End Form.

End Auth.

(** ** The client against the deployed function *)

Module Deployed.

Section Wiring.

Variable toLowerCase : jsstring -> jsstring.
Variable w : Handler.world.

(** What [response.json()] throws on a body that is no JSON. *)
Variable syntax_error : thrown.

(** The fetch-based [invokeOcrProcess] after its session check, run
    against the function itself: the body is posted, the response is
    parsed, and a status outside 200..299 becomes
    [{ data: null, error: new Error(data.error || `HTTP ${status}`) }]. *)
Definition post_to_function (posted : Handler.OCRRequest)
  : Client.invoke_result :=
  let response :=
    fst (Handler.serve toLowerCase w
           {| Handler.method := js "POST";
              Handler.json_body := Handler.BodyObject posted |}) in
  let response_ok :=
    (200 <=? Handler.status response) && (Handler.status response <=? 299) in
  match Handler.body response with
  | Handler.NoBody => Client.InvokeRejected syntax_error
  | Handler.ErrorJson e _ =>
      if response_ok then Client.InvokeSettled (Some (Client.DataError e)) None
      else
        Client.InvokeSettled None
          (Some (if truthy_string e then e
                 else js "HTTP " ++ number_to_string (Handler.status response)))
  | Handler.ResultJson r =>
      if response_ok then Client.InvokeSettled (Some (Client.DataResult r)) None
      else
        Client.InvokeSettled None
          (Some (js "HTTP " ++ number_to_string (Handler.status response)))
  end.

(** A browser session holding [token], talking to the function. *)
Definition browser (token : option jsstring) : Client.world :=
  {| Client.session_access_token := token;
     Client.functions_invoke := post_to_function |}.

(** The request [processDocument] makes of the function for a file with
    bytes [bs]: the function's view of the posted body. *)
Definition request_for (f : Client.File) (bs : list N)
    (mode : option OCRMode) (token : jsstring) : Handler.Request :=
  {| Handler.method := js "POST";
     Handler.json_body :=
       Handler.BodyObject
         {| Handler.imageBase64 := Some (Client.base64 bs);
            Handler.fileName := Some (Client.file_name f);
            Handler.fileType := Some (Client.file_type f);
            Handler.mode := Some (Client.detectedMode toLowerCase f mode);
            Handler.userAccessToken := Some token |} |}.

End Wiring.

End Deployed.

(** ** The components as state machines over their handlers *)

Module Session.

(** What the user can do to the upload zone. *)
Inductive zone_event :=
| DragOver
| DragLeave
| Drop (dropped : option Client.File)
| Choose (chosen : option Client.File)
| Clear
| PickMode (m : OCRMode).

Definition zone_step (z : UploadZone.zone) (e : zone_event)
  : UploadZone.zone :=
  match e with
  | DragOver => UploadZone.handleDragOver z
  | DragLeave => UploadZone.handleDragLeave z
  | Drop dropped => UploadZone.handleDrop dropped z
  | Choose chosen => UploadZone.handleFileInput chosen z
  | Clear => UploadZone.clearFile z
  | PickMode m => UploadZone.setSelectedMode m z
  end.

Definition zone_run (es : list zone_event) (z : UploadZone.zone)
  : UploadZone.zone :=
  fold_left zone_step es z.

Definition is_choose (e : zone_event) : bool :=
  match e with Choose _ => true | _ => false end.

(** What the user can do on the page. *)
Inductive page_event :=
| Scan (f : Client.File) (m : OCRMode)
| Delete (id : jsstring)
| Select (item : Pipeline.HistoryItem)
| NewScan.

Section Page.

Variable toLowerCase : jsstring -> jsstring.
Variable cw : Client.world.
Variable b : Pipeline.backend.
Variable user : option Pipeline.User.

Definition page_step (s : Pipeline.state) (e : page_event)
  : Pipeline.state :=
  match e with
  | Scan f m => Pipeline.handleOCRProcessing toLowerCase cw b user f m s
  | Delete id => Pipeline.handleHistoryDelete b id s
  | Select item => Navigation.handleHistorySelect item s
  | NewScan => Navigation.handleNewScan s
  end.

Definition page_run (es : list page_event) (s : Pipeline.state)
  : Pipeline.state :=
  fold_left page_step es s.

End Page.

End Session.

(* ===================================================================== *)
(** * The vocabulary of the specification *)
(* ===================================================================== *)

Module Claims.

Import Handler.

(** "The non-empty substrings obtained by splitting the text on
    whitespace": the text is cut at every white-space unit and the empty
    pieces are dropped. *)
Definition whitespace_separated_words (text : jsstring) : list jsstring :=
  List.filter (fun piece => negb (bool_decide (piece = [])))
    (split_at isWhiteSpace text).

(** "Empty or whitespace-only". *)
Definition whitespace_only (text : jsstring) : bool :=
  forallb isWhiteSpace text.

(** "The name contains the keyword". *)
Definition contains (s k : jsstring) : Prop :=
  exists before after, s = before ++ k ++ after.

(** "An authenticated request": one that the function reads a token
    from and whose token the backend's auth service, reached through a
    client built from the deployment's secrets, resolves to a user
    without an error. *)
Definition authenticated (w : world) (req : Request) : bool :=
  negb (bool_decide (method req = js "OPTIONS")) &&
  match json_body req with
  | BodyObject p =>
      present (userAccessToken p)
      && present (env_get w (js "SUPABASE_URL"))
      && negb (bool_decide
                 (is_Some (client_url_error w
                             (default [] (env_get w (js "SUPABASE_URL"))))))
      && present (env_get w (js "SUPABASE_SERVICE_ROLE_KEY"))
      && match auth_getUser w (default [] (userAccessToken p)) with
         | AuthResult (Some _) None => true
         | _ => false
         end
  | _ => false
  end.

(** The gateway credential is configured. *)
Definition api_key_configured (w : world) : bool :=
  present (env_get w (js "LOVABLE_API_KEY")).

(** "The upstream AI gateway responds with [r]" in a run with trace
    [tr]: the run called the gateway and [r] is what it answered. *)
Definition gateway_responds (w : world) (tr : list event)
    (r : gateway_response) : Prop :=
  exists rq, GatewayFetch rq ∈ tr /\ gateway_fetch w rq = FetchResponse r.

(** "The decoded size estimate exceeds 10 MB (10485760 bytes)". *)
Definition exceeds_10MB (image : jsstring) : Prop :=
  (inject_Z 10485760 < estimatedSize image)%Q.

(** The status a statement gives a document: the one it is created
    with, or the one it is updated to. *)
Inductive status_write :=
| Created (status : jsstring)
| Updated (id status : jsstring).

Definition status_write_of (c : Pipeline.command) : option status_write :=
  match c with
  | Pipeline.InsertDocument _ _ _ _ status => Some (Created status)
  | Pipeline.UpdateDocumentStatus id status => Some (Updated id status)
  | _ => None
  end.

Definition status_writes (cs : list Pipeline.command) : list status_write :=
  omap status_write_of cs.

(** "OCR succeeds": the call to [processDocument] resolves with data. *)
Definition ocr_succeeds (toLowerCase : jsstring -> jsstring)
    (cw : Client.world) (f : Client.File) (m : OCRMode) : bool :=
  match fst (Client.processDocument toLowerCase cw f (Some m)) with
  | Client.Resolved (Some _) => true
  | _ => false
  end.

End Claims.

(* ===================================================================== *)
(** * Concrete deployments, requests and files *)
(* ===================================================================== *)

Module Examples.

Import Handler.

(** The chat-completion answer carrying [text] as its first choice. *)
Definition completion (text : jsstring) : json :=
  JObj [(js "choices",
         JArr [JObj [(js "message", JObj [(js "content", JStr text)])]])].

Definition answer (st : N) (text : jsstring) : fetch_result :=
  FetchResponse {| gw_status := st;
                   gw_text := TextRead (js "{}");
                   gw_json := Parsed (completion text) |}.

(** The URL check of a client library that refuses every URL that does
    not begin with [http://] or [https://], in any case of letters. *)
Definition http_url_check (url : jsstring) : option thrown :=
  if startsWith (toLowerCase_ascii url) (js "http://")
     || startsWith (toLowerCase_ascii url) (js "https://")
  then None
  else Some (ErrorObject
               (js "Invalid supabaseUrl: Must be a valid HTTP or HTTPS URL.")).

(** A deployment with the backend's secrets set, with or without the
    gateway credential; its auth service knows the token [tok], and its
    gateway answers every call with [reply]. *)
Definition deployment (with_key : bool) (reply : fetch_result) : world :=
  {| env_get := fun k =>
       if bool_decide (k = js "LOVABLE_API_KEY") then
         if with_key then Some (js "gateway-key") else None
       else if bool_decide (k = js "SUPABASE_URL") then
         Some (js "https://project.supabase.co")
       else if bool_decide (k = js "SUPABASE_SERVICE_ROLE_KEY") then
         Some (js "service-role")
       else None;
     client_url_error := http_url_check;
     auth_getUser := fun t =>
       if bool_decide (t = js "tok") then AuthResult (Some (js "user-1")) None
       else AuthResult None (Some (js "invalid JWT"));
     gateway_fetch := fun _ => reply;
     date_now := fun n => (1000 + 7 * Z.of_N n)%Z;
     type_error_message := js "Cannot read properties of null" |}.

Definition upload (image : jsstring) (type token : option jsstring)
  : OCRRequest :=
  {| imageBase64 := Some image; fileName := Some (js "scan.png");
     fileType := type; mode := None; userAccessToken := token |}.

Definition post (p : OCRRequest) : Request :=
  {| method := js "POST"; json_body := BodyObject p |}.

Definition preflight (p : OCRRequest) : Request :=
  {| method := js "OPTIONS"; json_body := BodyObject p |}.

(** 13981014 base64 characters: an estimate of 10485760.5 bytes. *)
Definition big_image : jsstring := replicate (N.to_nat 13981014) 0x41.

Definition two_lines : jsstring := js "hello  world
 x".

(** A deployment whose gateway reads [two_lines] off every image, and
    the same deployment with the gateway credential left unset. *)
Definition production : world := deployment true (answer 200 two_lines).
Definition misconfigured : world := deployment false (answer 200 two_lines).

(** The same deployment with a gateway that answers [st]. *)
Definition upstream (st : N) (text : jsstring) : world :=
  deployment true (answer st text).

(** A gateway answer with status [st] whose body cannot be read, the
    connection being lost before the body arrives; and the deployment
    whose gateway answers so. *)
Definition unreadable (st : N) : gateway_response :=
  {| gw_status := st;
     gw_text :=
       TextRejected (ErrorObject (js "error reading a body from connection"));
     gw_json :=
       NotJson (ErrorObject (js "error reading a body from connection")) |}.

Definition broken_upstream (st : N) : world :=
  deployment true (FetchResponse (unreadable st)).

(** [production] with the scheme left out of the backend URL. *)
Definition mistyped_backend : world :=
  {| env_get := fun k =>
       if bool_decide (k = js "SUPABASE_URL") then
         Some (js "project.supabase.co")
       else env_get production k;
     client_url_error := client_url_error production;
     auth_getUser := auth_getUser production;
     gateway_fetch := gateway_fetch production;
     date_now := date_now production;
     type_error_message := type_error_message production |}.

Definition small_upload (type : option jsstring) : OCRRequest :=
  upload (js "AAAA") type (Some (js "tok")).

Definition oversized_upload (type : option jsstring) : OCRRequest :=
  upload big_image type (Some (js "tok")).

Definition anonymous_upload : OCRRequest :=
  upload (js "AAAA") (Some (js "image/png")) None.

(** A signed-in upload that names no file type and carries no image. *)
Definition untyped_empty_upload : OCRRequest :=
  {| imageBase64 := None; fileName := Some (js "scan.png");
     fileType := None; mode := None; userAccessToken := Some (js "tok") |}.

(** A POST whose body is [null], and one with an empty body. *)
Definition null_post : Request :=
  {| method := js "POST"; json_body := BodyNull |}.

Definition empty_post : Request :=
  {| method := js "POST";
     json_body := BodyNotJson (ErrorObject (js "Unexpected end of JSON input")) |}.

(** The gateway request made for [small_upload] of the given data URL. *)
Definition small_request (url : jsstring) : gateway_request :=
  chat_completion_request (js "gateway-key") mixed url.

Definition two_lines_result : OCRResponse :=
  {| extracted_text := two_lines;
     processing_time_ms := 7;
     word_count := 3;
     character_count := 15;
     confidence_note := js "High confidence OCR extraction" |}.

(** A three-byte PNG fragment named like a page of notes, and a signed-in
    client whose function always answers [two_lines_result]. *)
Definition notes_png : Client.File :=
  {| Client.file_name := js "Lecture NOTES p1.png";
     Client.file_type := js "image/png";
     Client.file_size := 3;
     Client.file_bytes := Some [0x89; 0x50; 0x4E] |}.

Definition invoice_pdf : Client.File :=
  {| Client.file_name := js "invoice-2024.pdf";
     Client.file_type := js "application/pdf";
     Client.file_size := 3;
     Client.file_bytes := Some [0x25; 0x50; 0x44] |}.

Definition signed_in : Client.world :=
  {| Client.session_access_token := Some (js "tok");
     Client.functions_invoke := fun _ =>
       Client.InvokeSettled (Some (Client.DataResult two_lines_result)) None |}.

(** A signed-out client: every OCR call is rejected before it is sent. *)
Definition signed_out : Client.world :=
  {| Client.session_access_token := None;
     Client.functions_invoke := fun _ =>
       Client.InvokeSettled None (Some (js "unreachable")) |}.

(** A store that accepts every statement and numbers its documents. *)
Definition store : Pipeline.backend :=
  {| Pipeline.refuses := fun _ _ => false;
     Pipeline.generate_id := fun d =>
       js "doc-"
       ++ number_to_string (N.of_nat (size (Pipeline.documents d)) + 1);
     Pipeline.now := 1700000000000 |}.

(** A store that answers every statement with an error. *)
Definition unavailable : Pipeline.backend :=
  {| Pipeline.refuses := fun _ _ => true;
     Pipeline.generate_id := fun _ => js "doc-0";
     Pipeline.now := 1700000000000 |}.

Definition alice : Pipeline.User :=
  {| Pipeline.user_id := js "user-1";
     Pipeline.user_email := js "alice@example.org" |}.

Definition fresh_page : Pipeline.page :=
  {| Pipeline.status := Pipeline.idle; Pipeline.progress := 0;
     Pipeline.extractedText := Some [];
     Pipeline.currentFileName := [];
     Pipeline.history := [];
     Pipeline.selectedHistoryId := None;
     Pipeline.processingStats := None;
     Pipeline.toasts := [] |}.

Definition fresh_state : Pipeline.state :=
  {| Pipeline.db := {| Pipeline.documents := ∅; Pipeline.ocr_results := [] |};
     Pipeline.ui := fresh_page;
     Pipeline.sent := [] |}.

(** The state after one successful scan of [notes_png]. *)
Definition after_scan : Pipeline.state :=
  Pipeline.handleOCRProcessing toLowerCase_ascii signed_in store (Some alice)
    notes_png mixed fresh_state.

End Examples.

(** ** Further scenarios *)

Module Scenarios.

Import Handler.

(** A valid upload to [Examples.production], and the gateway call it
    leads to. *)
Definition valid_post : Request :=
  Examples.post (Examples.small_upload (Some (js "image/png"))).

Definition valid_fetch : gateway_request :=
  Examples.small_request (js "data:image/png;base64,AAAA").

Definition two_lines_answer : gateway_response :=
  {| gw_status := 200;
     gw_text := TextRead (js "{}");
     gw_json := Parsed (Examples.completion Examples.two_lines) |}.

(** Uploads that fail a check: a token the auth service does not know,
    no image data, a type that is not allowed. *)
Definition stale_upload : OCRRequest :=
  Examples.upload (js "AAAA") (Some (js "image/png")) (Some (js "stale")).

Definition empty_upload : OCRRequest :=
  {| imageBase64 := None; fileName := Some (js "scan.png");
     fileType := Some (js "image/png"); mode := None;
     userAccessToken := Some (js "tok") |}.

Definition text_upload : OCRRequest :=
  Examples.small_upload (Some (js "text/plain")).

(** A PNG whose name says nothing about handwriting, and a text file. *)
Definition scan_png : Client.File :=
  {| Client.file_name := js "scan.png";
     Client.file_type := js "image/png";
     Client.file_size := 3;
     Client.file_bytes := Some [0x89; 0x50; 0x4E] |}.

Definition readme_txt : Client.File :=
  {| Client.file_name := js "README.txt";
     Client.file_type := js "text/plain";
     Client.file_size := 2;
     Client.file_bytes := Some [0x68; 0x69] |}.

(** A browser signed in with [tok], talking to [Examples.production] or
    to a deployment whose gateway is rate limited. *)
Definition live_browser : Client.world :=
  Deployed.browser toLowerCase_ascii Examples.production
    (ErrorObject (js "Unexpected end of JSON input")) (Some (js "tok")).

Definition throttled_browser : Client.world :=
  Deployed.browser toLowerCase_ascii (Examples.upstream 429 [])
    (ErrorObject (js "Unexpected end of JSON input")) (Some (js "tok")).

(** The store after the document for [scan_png] was created. *)
Definition created : Pipeline.database :=
  match
    Pipeline.insert_document Examples.store
      (Pipeline.db Examples.fresh_state) (js "user-1") (js "scan.png")
      (js "image/png") 3 (js "processing")
  with
  | Some (_, d) => d
  | None => Pipeline.db Examples.fresh_state
  end.

Definition created_readme : Pipeline.database :=
  match
    Pipeline.insert_document Examples.store
      (Pipeline.db Examples.fresh_state) (js "user-1") (js "README.txt")
      (js "text/plain") 2 (js "processing")
  with
  | Some (_, d) => d
  | None => Pipeline.db Examples.fresh_state
  end.

(** A drag, a drop and a choice of mode; and a short visit of the page. *)
Definition drop_and_pick : list Session.zone_event :=
  [Session.DragOver; Session.Drop (Some scan_png);
   Session.PickMode printed].

Definition visit : list Session.page_event :=
  [Session.Scan scan_png mixed; Session.NewScan;
   Session.Scan Examples.notes_png handwriting;
   Session.Delete (js "doc-1")].

Definition login_form : Auth.form :=
  {| Auth.isLogin := true; Auth.email := js "alice@example.org";
     Auth.password := js "secret1"; Auth.fullName := [] |}.

End Scenarios.

(* ===================================================================== *)
(** * Properties *)
(* ===================================================================== *)

Arguments js : simpl never.

(** ** Strings *)

Section StringFacts.

Implicit Types (s k : jsstring) (c : N).

Lemma truthy_string_nonempty s :
  truthy_string s = negb (bool_decide (s = [])).
Proof. by destruct s. Qed.

(** The regular-expression split and the unit-wise split agree on their
    first piece and, up to empty pieces, on the rest. *)
Lemma split_ws_from_split_at s :
  (exists w tl1 tl2,
      split_ws_from false s = w :: tl1
      /\ split_at isWhiteSpace s = w :: tl2
      /\ filter_Boolean tl1 = filter_Boolean tl2)
  /\ filter_Boolean (split_ws_from true s)
     = filter_Boolean (split_at isWhiteSpace s).
Proof.
  induction s as [|c s [(w & tl1 & tl2 & E1 & E2 & Etl) IHsep]]; simpl.
  - split; [by exists [], [], [] | done].
  - destruct (isWhiteSpace c) eqn:Hc.
    + split; [|done].
      exists [], (split_ws_from true s), (split_at isWhiteSpace s).
      by rewrite IHsep.
    + rewrite E1, E2. split.
      * by exists (c :: w), tl1, tl2.
      * unfold filter_Boolean in *. simpl. by rewrite Etl.
Qed.

Lemma filter_Boolean_split s :
  filter_Boolean (split_whitespace_regex s)
  = Claims.whitespace_separated_words s.
Proof.
  unfold split_whitespace_regex, Claims.whitespace_separated_words.
  destruct (split_ws_from_split_at s) as [(w & tl1 & tl2 & -> & -> & E) _].
  unfold filter_Boolean in *. simpl. rewrite E.
  rewrite truthy_string_nonempty.
  destruct (negb _); [f_equal|];
    apply List.filter_ext; intros; apply truthy_string_nonempty.
Qed.

End StringFacts.

Section MoreStringFacts.

Implicit Types (s k : jsstring) (c : N).

Lemma trimStart_nil s : trimStart s = [] <-> forallb isWhiteSpace s = true.
Proof.
  induction s as [|c s IH]; simpl; [done|].
  destruct (isWhiteSpace c); simpl; [done|]. split; discriminate.
Qed.

Lemma forallb_trimStart s :
  forallb isWhiteSpace (trimStart s) = forallb isWhiteSpace s.
Proof.
  induction s as [|c s IH]; simpl; [done|].
  destruct (isWhiteSpace c) eqn:Hc; simpl; [done|]. by rewrite Hc.
Qed.

Lemma forallb_rev (P : N -> bool) s : forallb P (rev s) = forallb P s.
Proof.
  induction s as [|c s IH]; simpl; [done|].
  rewrite forallb_app, IH. simpl. destruct (P c), (forallb P s); done.
Qed.

(** [!text.trim()] holds exactly of the empty and the white-space-only
    texts. *)
Lemma trim_whitespace_only s :
  truthy_string (trim s) = negb (Claims.whitespace_only s).
Proof.
  unfold Claims.whitespace_only.
  destruct (forallb isWhiteSpace s) eqn:Hall; simpl.
  - apply trimStart_nil in Hall. unfold trim, trimEnd. by rewrite Hall.
  - destruct (trim s) eqn:Ht; [|done]. exfalso.
    unfold trim, trimEnd in Ht.
    apply (f_equal (@rev N)) in Ht. rewrite rev_involutive in Ht.
    simpl in Ht. apply trimStart_nil in Ht.
    rewrite forallb_rev, forallb_trimStart in Ht. congruence.
Qed.

End MoreStringFacts.

(** ** The size estimate *)

Section SizeFacts.

Import Handler Claims.

Lemma exceeds_10MB_length (image : jsstring) :
  exceeds_10MB image <-> (4 * 10485760 < 3 * Z.of_nat (length image))%Z.
Proof.
  unfold exceeds_10MB, estimatedSize, jslength, Qlt, Qdiv, Qmult, Qinv,
    inject_Z.
  rewrite nat_N_Z. cbn. lia.
Qed.

(** The guard [estimatedSize > MAX_SIZE_BYTES] is the specification's
    "exceeds 10485760 bytes". *)
Lemma too_large_exceeds (image : jsstring) :
  too_large image = true <-> exceeds_10MB image.
Proof.
  unfold too_large, exceeds_10MB.
  change (Z.of_N MAX_SIZE_BYTES) with 10485760%Z.
  rewrite negb_true_iff, <- not_true_iff_false, Qle_bool_iff.
  split; [apply Qnot_le_lt | apply Qlt_not_le].
Qed.

Lemma exceeds_10MB_nonempty (image : jsstring) :
  exceeds_10MB image -> truthy_string image = true.
Proof.
  rewrite exceeds_10MB_length. destruct image; simpl; [lia | done].
Qed.

End SizeFacts.

(** ** The function *)

Section HandlerFacts.

Import Handler Claims.

Variable toLowerCase : jsstring -> jsstring.
Variable w : world.

Ltac unfold_monad :=
  unfold call, when, throw, return_, mbind, mret, M_bind, M_ret, bind, ret
    in *.

Ltac unfold_try :=
  unfold serve, try_block, await_json, createClient, getUser, fetch_gateway
    in *; unfold_monad.

Ltac unfold_normalize :=
  unfold normalize, await_text, await_json_body, content_or_empty,
    string_receiver in *;
  unfold_monad.

Ltac cases := repeat (case_match; simplify_eq/=).

Lemma present_default (o : option jsstring) :
  truthy_string (default [] o) = present o.
Proof. by destruct o. Qed.

(** A response carrying a result comes out of [normalize] with the
    counts of its text. *)
Lemma normalize_result (m : OCRMode) (start : Z) (r : gateway_response)
    (tr tr' : list event) (o : outcome Response) (res : OCRResponse) :
  normalize w m start r tr = (o, tr') ->
  body (settle w start o) = ResultJson res ->
  word_count res
  = N.of_nat (length (filter_Boolean
                        (split_whitespace_regex (extracted_text res))))
  /\ character_count res = jslength (extracted_text res).
Proof.
  intros Hrun Hbody. unfold_normalize. unfold settle, catch_block in *.
  cases; done.
Qed.

(** [normalize] makes no external call. *)
Lemma normalize_trace (m : OCRMode) (start : Z) (r : gateway_response)
    (tr tr' : list event) (o : outcome Response) :
  normalize w m start r tr = (o, tr') -> tr' = tr.
Proof. intros Hrun. unfold_normalize. by cases. Qed.

(** A run either ends without an answer from the gateway, and then
    without a result, or calls the gateway once, after the auth lookup,
    and hands its answer to [normalize]. *)
Lemma serve_inv (req : Request) (resp : Response) (tr : list event) :
  serve toLowerCase w req = (resp, tr) ->
  ((forall r, ~ gateway_responds w tr r)
   /\ forall res, body resp <> ResultJson res)
  \/ exists p token rq r o,
      json_body req = BodyObject p
      /\ userAccessToken p = Some token
      /\ tr = [AuthGetUser token; GatewayFetch rq]
      /\ rq = chat_completion_request
                (default [] (env_get w (js "LOVABLE_API_KEY")))
                (default mixed (mode p))
                (imageUrl (default [] (imageBase64 p)) (fileType p))
      /\ invalid_file_type toLowerCase (fileType p) = false
      /\ gateway_fetch w rq = FetchResponse r
      /\ normalize w (default mixed (mode p)) (date_now w 0) r tr = (o, tr)
      /\ resp = settle w (date_now w 0) o.
Proof.
  intros Hrun. unfold_try.
  repeat (case_match; simplify_eq/=);
    try (left; split; [intros r (rq & Hin & Hfetch)|intros res; done];
         repeat (apply elem_of_cons in Hin as [?|Hin];
                 [simplify_eq; congruence|]);
         by apply not_elem_of_nil in Hin).
  right.
  match goal with H : normalize _ _ _ _ _ = _ |- _ =>
    pose proof (normalize_trace _ _ _ _ _ _ H) as ->; rename H into Hnorm end.
  match goal with H : negb (present (userAccessToken ?a)) = false |- _ =>
    destruct (userAccessToken a) as [token|] eqn:Htoken; [|done] end.
  by eexists _, token, _, _, _.
Qed.

(** When the gateway responds in a run, the response of the run is what
    [normalize] makes of the gateway's answer. *)
Lemma gateway_responds_inv (req : Request) (resp : Response)
    (tr : list event) (r : gateway_response) :
  serve toLowerCase w req = (resp, tr) ->
  gateway_responds w tr r ->
  exists m o,
    normalize w m (date_now w 0) r tr = (o, tr)
    /\ resp = settle w (date_now w 0) o.
Proof.
  intros Hrun Hgw.
  destruct (serve_inv _ _ _ Hrun)
    as [[Hnone _]|(p & tok & rq & r' & o & _ & _ & -> & _ & _ & Hr & Hn & ->)].
  { by destruct (Hnone r). }
  destruct Hgw as (rq' & Hin & Hfetch).
  apply elem_of_cons in Hin as [?|Hin]; [done|].
  apply list_elem_of_singleton in Hin. simplify_eq.
  assert (r' = r) as -> by congruence. eauto.
Qed.

(** C1. Every response that carries an OCR result reports, as
    [word_count], the number of non-empty pieces its [extracted_text]
    splits into at white space, and, as [character_count], the length of
    that text. *)
Theorem successful_response_counts (req : Request) (resp : Response)
    (tr : list event) (res : OCRResponse) :
  serve toLowerCase w req = (resp, tr) ->
  body resp = ResultJson res ->
  word_count res
  = N.of_nat (length (whitespace_separated_words (extracted_text res)))
  /\ character_count res = N.of_nat (length (extracted_text res)).
Proof.
  intros Hrun Hbody.
  destruct (serve_inv _ _ _ Hrun)
    as [[_ Hnone]|(p & tok & rq & r & o & _ & _ & _ & _ & _ & _ & Hn & ->)].
  { by destruct (Hnone res). }
  rewrite <- filter_Boolean_split.
  exact (normalize_result _ _ _ _ _ _ _ Hn Hbody).
Qed.

(** What [authenticated] gives, in the form the function tests it. *)
Lemma authenticated_inv (req : Request) :
  authenticated w req = true ->
  method req <> js "OPTIONS"
  /\ exists p token user,
      json_body req = BodyObject p
      /\ userAccessToken p = Some token
      /\ truthy_string token = true
      /\ present (env_get w (js "SUPABASE_URL")) = true
      /\ client_url_error w (default [] (env_get w (js "SUPABASE_URL")))
         = None
      /\ present (env_get w (js "SUPABASE_SERVICE_ROLE_KEY")) = true
      /\ auth_getUser w token = AuthResult (Some user) None.
Proof.
  unfold authenticated. intros H.
  apply andb_prop in H as [H Hrest].
  apply negb_true_iff, bool_decide_eq_false in H. split; [done|].
  destruct (json_body req) as [| |p]; try done.
  repeat match goal with
         | H : _ && _ = true |- _ => apply andb_prop in H as [H ?]
         end.
  destruct (userAccessToken p) as [token|] eqn:Htok; [|done].
  match goal with
  | H : negb (bool_decide (is_Some ?c)) = true |- _ =>
      apply negb_true_iff, bool_decide_eq_false in H;
      apply eq_None_not_Some in H
  end.
  simpl in *.
  destruct (auth_getUser w token) as [|[user|] [|]] eqn:Hget; try done.
  by exists p, token, user.
Qed.

(** The run of an authenticated request up to the auth lookup. *)
Ltac use_authenticated H p :=
  apply authenticated_inv in H as
    (Hmethod & p' & token & user & Hpayload & Htoken & Htruthy
     & Hurl & Hcheck & Hservice & Hlookup);
  assert (p' = p) by congruence; subst p';
  apply (bool_decide_eq_false_2 _) in Hmethod;
  unfold_try; rewrite Hmethod, Hpayload; simpl;
  rewrite Htoken; simpl; rewrite Htruthy; simpl;
  rewrite !present_default, Hurl, Hcheck, Hservice; simpl;
  rewrite Hlookup; simpl.

(** C2, amended. An authenticated request whose payload's decoded size
    estimate exceeds 10485760 bytes is answered 400 "File too large",
    whatever its [fileType], provided the gateway credential is
    configured; the gateway is not called. *)
Theorem oversized_payload_rejected (req : Request) (p : OCRRequest)
    (image : jsstring) :
  authenticated w req = true ->
  api_key_configured w = true ->
  json_body req = BodyObject p ->
  imageBase64 p = Some image ->
  exceeds_10MB image ->
  exists token,
    userAccessToken p = Some token
    /\ serve toLowerCase w req
       = ({| status := 400;
             body := ErrorJson (js "File too large. Maximum size is 10MB")
                       None |},
          [AuthGetUser token]).
Proof.
  intros HA HK HB HI HS.
  pose proof (exceeds_10MB_nonempty _ HS) as Hnonempty.
  apply too_large_exceeds in HS.
  unfold api_key_configured in HK.
  use_authenticated HA p.
  exists token; split; [done|].
  rewrite HK; simpl. rewrite HI; simpl.
  rewrite Hnonempty; simpl. by rewrite HS.
Qed.

(** C3, amended. A request other than a CORS preflight whose body is
    JSON other than [null] and lacks [userAccessToken] (the field is
    absent, or is the empty string) is answered 401 "Authentication
    required", and no external call, neither the auth lookup nor the
    gateway fetch, is made before that response. *)
Theorem missing_token_unauthorized (req : Request) (p : OCRRequest) :
  method req <> js "OPTIONS" ->
  json_body req = BodyObject p ->
  userAccessToken p = None \/ userAccessToken p = Some [] ->
  serve toLowerCase w req
  = ({| status := 401;
        body := ErrorJson (js "Authentication required") None |}, []).
Proof.
  intros Hmethod Hbody Htoken.
  apply (bool_decide_eq_false_2 _) in Hmethod.
  unfold_try. rewrite Hmethod, Hbody.
  by destruct Htoken as [-> | ->].
Qed.

(** A CORS preflight is answered at once, whatever its body, and makes
    no external call either. *)
Lemma preflight_answered (req : Request) :
  method req = js "OPTIONS" ->
  serve toLowerCase w req = ({| status := 200; body := NoBody |}, []).
Proof.
  intros Hmethod. unfold serve.
  by rewrite (bool_decide_eq_true_2 _ Hmethod).
Qed.

(** A request other than a preflight whose body is [null], or no JSON
    at all, has no field to read: it ends in the [catch] block, with
    status 500, and makes no external call either. *)
Lemma unreadable_body_fails (req : Request) :
  method req <> js "OPTIONS" ->
  json_body req = BodyNull \/ (exists e, json_body req = BodyNotJson e) ->
  status (fst (serve toLowerCase w req)) = 500
  /\ snd (serve toLowerCase w req) = [].
Proof.
  intros Hmethod Hbody.
  apply (bool_decide_eq_false_2 _) in Hmethod.
  unfold_try. rewrite Hmethod.
  by destruct Hbody as [-> | [e ->]].
Qed.

(** Whatever the method and the body, a request that carries no token
    is answered without any external call. *)
Lemma no_token_no_external_call (req : Request) :
  (forall p, json_body req = BodyObject p ->
             present (userAccessToken p) = false) ->
  snd (serve toLowerCase w req) = [].
Proof.
  intros Hno. unfold_try.
  destruct (bool_decide (method req = js "OPTIONS")); [done|].
  destruct (json_body req) as [e| |p]; try done.
  by rewrite (Hno p eq_refl).
Qed.

(** C4, amended. When the gateway answers 429 and the body of its
    answer can be read (the function awaits [response.text()] before it
    looks at the status), the response is 429 with the message "Rate
    limit exceeded. Please try again in a moment."; when it answers 402
    and the body can be read, the response is 402. *)
Theorem upstream_rate_and_quota_limits (req : Request) (resp : Response)
    (tr : list event) (r : gateway_response) (errorText : jsstring) :
  serve toLowerCase w req = (resp, tr) ->
  gateway_responds w tr r ->
  gw_text r = TextRead errorText ->
  (gw_status r = 429 ->
   resp = {| status := 429;
             body := ErrorJson
                       (js "Rate limit exceeded. Please try again in a moment.")
                       None |})
  /\ (gw_status r = 402 -> status resp = 402).
Proof.
  intros Hrun Hgw Htext.
  destruct (gateway_responds_inv _ _ _ _ Hrun Hgw) as (m & o & Hn & ->).
  unfold_normalize. unfold ok in *. rewrite Htext in Hn.
  split; intros Hst; rewrite Hst in *; by simplify_eq/=.
Qed.

(** When the body of an answer that is no success cannot be read, the
    rejection of [response.text()] is what the [catch] block reports,
    whatever the status. *)
Lemma unreadable_error_body (req : Request) (resp : Response)
    (tr : list event) (r : gateway_response) (e : thrown) :
  serve toLowerCase w req = (resp, tr) ->
  gateway_responds w tr r ->
  gw_status r < 200 \/ 299 < gw_status r ->
  gw_text r = TextRejected e ->
  resp = catch_block w e (date_now w 0).
Proof.
  intros Hrun Hgw Hst Htext.
  destruct (gateway_responds_inv _ _ _ _ Hrun Hgw) as (m & o & Hn & ->).
  unfold_normalize. unfold ok in *.
  assert ((200 <=? gw_status r) && (gw_status r <=? 299) = false) as Hok.
  { apply andb_false_iff. rewrite !N.leb_gt. lia. }
  rewrite Hok, Htext in Hn. by simplify_eq/=.
Qed.

(** [response.ok] is the status lying in 200..299. *)
Lemma ok_true_iff (r : gateway_response) :
  ok r = true <-> 200 <= gw_status r <= 299.
Proof. unfold ok. by rewrite andb_true_iff, !N.leb_le. Qed.

Lemma ok_false_iff (r : gateway_response) :
  ok r = false <-> gw_status r < 200 \/ 299 < gw_status r.
Proof. rewrite <- not_true_iff_false, ok_true_iff. lia. Qed.

(** C5. When the gateway answers with a status outside 200..299 other
    than 429 and 402, or answers successfully with an extracted text
    that is empty or white space only, the response is 500 and its body
    is a JSON error object. *)
Theorem generic_failure (req : Request) (resp : Response)
    (tr : list event) (r : gateway_response) :
  serve toLowerCase w req = (resp, tr) ->
  gateway_responds w tr r ->
  ((gw_status r < 200 \/ 299 < gw_status r)
   /\ gw_status r <> 429 /\ gw_status r <> 402)
  \/ (200 <= gw_status r <= 299
      /\ exists data text,
          gw_json r = Parsed data
          /\ extractedText_of data = Some (JStr text)
          /\ whitespace_only text = true) ->
  status resp = 500
  /\ exists message elapsed, body resp = ErrorJson message (Some elapsed).
Proof.
  intros Hrun Hgw Hcase.
  destruct (gateway_responds_inv _ _ _ _ Hrun Hgw) as (m & o & Hn & ->).
  unfold_normalize. unfold settle, catch_block in *.
  destruct Hcase as [(Hst & H429 & H402)
                    |(Hst & data & text & Hdata & Htext & Hws)].
  - apply N.eqb_neq in H429, H402. rewrite H429, H402 in Hn.
    apply ok_false_iff in Hst. rewrite Hst in Hn.
    destruct (gw_text r); simplify_eq/=; eauto.
  - apply ok_true_iff in Hst. rewrite Hst in Hn.
    rewrite Hdata in Hn. simpl in Hn.
    destruct data; simplify_eq/=; eauto.
    all: rewrite Htext in Hn; simpl in Hn.
    all: rewrite trim_whitespace_only, Hws in Hn; simplify_eq/=; eauto.
Qed.

(** The guard of the "Invalid file type" branch: a non-empty [fileType]
    whose lower-casing is outside the allowed list. *)
Lemma invalid_file_type_iff (ft : option jsstring) :
  invalid_file_type toLowerCase ft = true
  <-> exists s, ft = Some s /\ s <> [] /\ toLowerCase s ∉ allowedTypes.
Proof.
  unfold invalid_file_type, array_includes, present.
  rewrite andb_true_iff, negb_true_iff, bool_decide_eq_false.
  destruct ft as [[|c s]|]; simpl; split.
  all: try by intros [? ?].
  all: try by intros (? & ? & ? & ?); simplify_eq.
  intros [_ ?]. by exists (c :: s).
Qed.

(** The responses of [normalize] are 200, 402, 429 or 500. *)
Lemma normalize_status (m : OCRMode) (start : Z) (r : gateway_response)
    (tr tr' : list event) (o : outcome Response) :
  normalize w m start r tr = (o, tr') ->
  status (settle w start o) ∈ [200; 402; 429; 500].
Proof.
  intros Hrun. unfold_normalize. unfold settle, catch_block.
  cases; set_solver.
Qed.

(** The gateway is only ever called with the request built from the
    payload. *)
Lemma gateway_fetch_inv (req : Request) (resp : Response) (tr : list event)
    (rq : gateway_request) :
  serve toLowerCase w req = (resp, tr) ->
  GatewayFetch rq ∈ tr ->
  exists p,
    json_body req = BodyObject p
    /\ rq = chat_completion_request
              (default [] (env_get w (js "LOVABLE_API_KEY")))
              (default mixed (mode p))
              (imageUrl (default [] (imageBase64 p)) (fileType p)).
Proof.
  intros Hrun Hin. unfold_try.
  repeat (case_match; simplify_eq/=);
    try match goal with
        | H : normalize _ _ _ _ _ = _ |- _ =>
            apply normalize_trace in H; subst
        end;
    repeat (apply elem_of_cons in Hin as [?|Hin]; [simplify_eq|]);
    try (by apply not_elem_of_nil in Hin); eauto.
Qed.

(** The "Invalid file type" response is only given when the guard of
    its branch holds. *)
Lemma invalid_type_response_inv (req : Request) (tr : list event) :
  serve toLowerCase w req = (error_response 400 msg_invalid_type, tr) ->
  exists p,
    json_body req = BodyObject p
    /\ invalid_file_type toLowerCase (fileType p) = true.
Proof.
  intros Hrun. unfold_try.
  repeat (case_match; simplify_eq/=); eauto.
  match goal with
  | H : normalize _ _ _ _ _ = _, E : settle _ _ _ = _ |- _ =>
      apply normalize_status in H; rewrite E in H; simpl in H;
      repeat (apply elem_of_cons in H as [?|H]; [done|]);
      by apply not_elem_of_nil in H
  end.
Qed.

(** A request that passes the earlier checks is answered "Invalid file
    type" exactly when the guard holds. *)
Lemma invalid_type_response_iff (req : Request) (p : OCRRequest)
    (image : jsstring) :
  authenticated w req = true ->
  api_key_configured w = true ->
  json_body req = BodyObject p ->
  imageBase64 p = Some image -> image <> [] -> ~ exceeds_10MB image ->
  fst (serve toLowerCase w req) = error_response 400 msg_invalid_type
  <-> invalid_file_type toLowerCase (fileType p) = true.
Proof.
  intros HA HK HB HI Hne HS. split.
  - destruct (serve toLowerCase w req) as [resp tr] eqn:Hrun. simpl.
    intros ->. apply invalid_type_response_inv in Hrun as (p' & ? & ?).
    assert (p' = p) by congruence. by subst.
  - intros Hguard.
    rewrite <- too_large_exceeds, not_true_iff_false in HS.
    unfold api_key_configured in HK.
    use_authenticated HA p.
    rewrite HK; simpl. rewrite HI; simpl.
    destruct image; [done|]; simpl. rewrite HS; simpl.
    by rewrite Hguard.
Qed.

(** A request that passes every check reaches the gateway. *)
Lemma valid_request_reaches_gateway (req : Request) (p : OCRRequest)
    (image : jsstring) :
  authenticated w req = true ->
  api_key_configured w = true ->
  json_body req = BodyObject p ->
  imageBase64 p = Some image -> image <> [] -> ~ exceeds_10MB image ->
  invalid_file_type toLowerCase (fileType p) = false ->
  exists rq, GatewayFetch rq ∈ snd (serve toLowerCase w req).
Proof.
  intros HA HK HB HI Hne HS Hguard.
  rewrite <- too_large_exceeds, not_true_iff_false in HS.
  unfold api_key_configured in HK.
  use_authenticated HA p.
  rewrite HK; simpl. rewrite HI; simpl.
  destruct image; [done|]; simpl. rewrite HS; simpl.
  rewrite Hguard; simpl.
  eexists. destruct (gateway_fetch w _) as [e|r]; simpl.
  - apply elem_of_cons; right. apply list_elem_of_singleton. reflexivity.
  - match goal with |- context [normalize ?a ?b ?c ?d ?e] =>
      destruct (normalize a b c d e) as [o tr'] eqn:Hn end.
    apply normalize_trace in Hn as ->. simpl.
    apply elem_of_cons; right. apply list_elem_of_singleton. reflexivity.
Qed.

(** The data URL built for a payload without one, when [fileType] is
    absent or empty. *)
Lemma imageUrl_default (image : jsstring) (ft : option jsstring) :
  ft = None \/ ft = Some [] ->
  startsWith image (js "data:") = false ->
  imageUrl image ft = js "data:image/png;base64," ++ image.
Proof. unfold imageUrl. by intros [->| ->] ->. Qed.

(** The run of a request that passes every check, up to the gateway
    call: one auth lookup, then the gateway call built from the
    payload. *)
Lemma valid_request_trace (req : Request) (p : OCRRequest)
    (image : jsstring) :
  authenticated w req = true ->
  api_key_configured w = true ->
  json_body req = BodyObject p ->
  imageBase64 p = Some image -> image <> [] -> ~ exceeds_10MB image ->
  invalid_file_type toLowerCase (fileType p) = false ->
  exists token,
    userAccessToken p = Some token
    /\ snd (serve toLowerCase w req)
       = [AuthGetUser token;
          GatewayFetch
            (chat_completion_request
               (default [] (env_get w (js "LOVABLE_API_KEY")))
               (default mixed (mode p)) (imageUrl image (fileType p)))].
Proof.
  intros HA HK HB HI Hne HS Hguard.
  rewrite <- too_large_exceeds, not_true_iff_false in HS.
  unfold api_key_configured in HK.
  use_authenticated HA p.
  exists token; split; [done|].
  rewrite HK; simpl. rewrite HI; simpl.
  destruct image; [done|]; simpl. rewrite HS; simpl.
  rewrite Hguard; simpl.
  destruct (gateway_fetch w _) as [e|r]; simpl; [done|].
  match goal with |- context [normalize ?a ?b ?c ?d ?e] =>
    destruct (normalize a b c d e) as [o tr'] eqn:Hn end.
  by apply normalize_trace in Hn as ->.
Qed.

(** C10, amended. For an authenticated request whose [fileType] is
    absent or the empty string the MIME-type validation is skipped: the
    guard of the 400 "Invalid file type" branch, which holds if and only
    if [fileType] is non-empty and its lower-casing is outside the
    allowed list, is false, and that response is not given.  When,
    moreover, the gateway credential is configured and the payload is
    present and within the size limit, the request proceeds: after the
    auth lookup the gateway is called, with the payload behind the
    default [data:image/png;base64,] prefix when the payload has no
    [data:] prefix, and with the payload itself when it has one. *)
Theorem absent_file_type_skips_validation (req : Request) (p : OCRRequest)
    (resp : Response) (tr : list event) :
  authenticated w req = true ->
  json_body req = BodyObject p ->
  fileType p = None \/ fileType p = Some [] ->
  serve toLowerCase w req = (resp, tr) ->
  (forall ft,
      invalid_file_type toLowerCase ft = true
      <-> exists s, ft = Some s /\ s <> [] /\ toLowerCase s ∉ allowedTypes)
  /\ invalid_file_type toLowerCase (fileType p) = false
  /\ resp <> {| status := 400;
                body := ErrorJson
                          (js "Invalid file type. Allowed: PNG, JPEG, WebP, GIF, PDF")
                          None |}
  /\ (api_key_configured w = true ->
      forall image,
        imageBase64 p = Some image -> image <> [] -> ~ exceeds_10MB image ->
        exists token key,
          userAccessToken p = Some token
          /\ env_get w (js "LOVABLE_API_KEY") = Some key
          /\ tr = [AuthGetUser token;
                   GatewayFetch
                     (chat_completion_request key (default mixed (mode p))
                        (if startsWith image (js "data:") then image
                         else js "data:image/png;base64," ++ image))]).
Proof.
  intros HA HB Hft Hrun.
  assert (invalid_file_type toLowerCase (fileType p) = false) as Hguard
    by (by destruct Hft as [->| ->]).
  split; [apply invalid_file_type_iff|]. split; [done|]. split.
  - intros ->. apply invalid_type_response_inv in Hrun as (p' & ? & ?).
    assert (p' = p) by congruence. subst. congruence.
  - intros HK image HI Hne HS.
    destruct (valid_request_trace req p image) as (token & Htoken & Htrace);
      try done.
    rewrite Hrun in Htrace. simpl in Htrace.
    unfold api_key_configured in HK.
    destruct (env_get w (js "LOVABLE_API_KEY")) as [key|] eqn:Hkey; [|done].
    exists token, key. split; [done|]. split; [done|].
    rewrite Htrace.
    assert (imageUrl image (fileType p)
            = if startsWith image (js "data:") then image
              else js "data:image/png;base64," ++ image) as ->; [|done].
    destruct (startsWith image (js "data:")) eqn:Hprefix.
    + unfold imageUrl. by rewrite Hprefix.
    + by apply imageUrl_default.
Qed.

End HandlerFacts.

(** ** The client *)

Section ClientFacts.

Import Client Claims.

Implicit Types (s k p : jsstring) (c : N) (bs : list N).

(** *** Prefixes and substrings *)

Lemma startsWith_prefix s p :
  startsWith s p = true <-> exists rest, s = p ++ rest.
Proof.
  revert s. induction p as [|c p IH]; intros [|d s]; simpl.
  - split; [by exists [] | done].
  - split; [by exists (d :: s) | done].
  - split; [done | by intros [? ?]].
  - rewrite andb_true_iff, N.eqb_eq, IH. split.
    + intros [-> [rest ->]]. by exists rest.
    + intros [rest ?]. simplify_eq. eauto.
Qed.

(** [includes] is the specification's "contains". *)
Lemma includes_contains s k : includes s k = true <-> contains s k.
Proof.
  unfold contains. induction s as [|c s IH].
  - cbn [includes]. rewrite orb_false_r, startsWith_prefix. split.
    + intros [rest E]. by exists [], rest.
    + intros (before & after & E).
      destruct before; [by exists after | done].
  - cbn [includes]. rewrite orb_true_iff, startsWith_prefix, IH. split.
    + intros [[rest E]|(before & after & E)].
      * by exists [], rest.
      * exists (c :: before), after. by rewrite E.
    + intros (before & after & E). destruct before as [|d before].
      * left. by exists after.
      * right. exists before, after. by simplify_eq/=.
Qed.

Lemma startsWith_elem s p c :
  startsWith s p = true -> c ∈ p -> c ∈ s.
Proof.
  intros [rest ->]%startsWith_prefix Hin. apply elem_of_app. by left.
Qed.

(** *** Splitting at a separator *)

Lemma split_at_none (is_sep : N -> bool) s :
  Forall (fun c => is_sep c = false) s -> split_at is_sep s = [s].
Proof.
  induction 1 as [|c s Hc _ IH]; simpl; [done|]. by rewrite Hc, IH.
Qed.

Lemma split_at_first (is_sep : N -> bool) s c k :
  Forall (fun c => is_sep c = false) s -> is_sep c = true ->
  split_at is_sep (s ++ c :: k) = s :: split_at is_sep k.
Proof.
  intros Hs Hc. induction Hs as [|d s Hd _ IH]; simpl.
  - by rewrite Hc.
  - by rewrite Hd, IH.
Qed.

(** *** The base64 alphabet *)

Lemma base64_digit_alphabet (i : N) : base64_digit i ∈ base64_alphabet.
Proof.
  unfold base64_digit. apply list_elem_of_In, nth_In.
  change 63 with (N.ones 6). rewrite N.land_ones.
  change (length base64_alphabet) with (N.to_nat 64).
  assert (i mod 2 ^ 6 < 64) by (by apply N.mod_lt). lia.
Qed.

Lemma base64_units bs :
  Forall (fun c => c ∈ base64_alphabet \/ c = base64_pad) (base64 bs).
Proof.
  assert (forall n bs, (length bs <= n)%nat ->
            Forall (fun c => c ∈ base64_alphabet \/ c = base64_pad)
              (base64 bs)) as Hn.
  { clear bs. induction n as [|n IH]; intros bs Hlen.
    - destruct bs; [constructor | simpl in Hlen; lia].
    - destruct bs as [|a [|b [|c rest]]]; simpl;
        repeat match goal with
               | |- Forall _ (_ :: _) => constructor
               | |- Forall _ [] => constructor
               | |- base64_digit _ ∈ _ \/ _ => left; apply base64_digit_alphabet
               | |- _ \/ base64_pad = base64_pad => by right
               end.
      apply IH. simpl in Hlen. lia. }
  by apply (Hn (length bs)).
Qed.

(** White space, the comma and the colon are no base64 characters. *)
Lemma base64_excludes bs c :
  c = comma \/ c = colon -> c ∉ base64 bs.
Proof.
  intros Hc Hin.
  pose proof (base64_units bs) as Hall.
  rewrite Forall_forall in Hall. apply Hall in Hin as [Hin| ->].
  - destruct Hc as [-> | ->]; vm_compute in Hin;
      by repeat (apply elem_of_cons in Hin as [?|Hin]; [done|]);
         apply not_elem_of_nil in Hin.
  - by destruct Hc.
Qed.

(** *** [fileToBase64] *)

Lemma no_comma_units s :
  comma ∉ s -> Forall (fun c => (comma =? c) = false) s.
Proof.
  intros Hs. apply Forall_forall. intros c Hc.
  apply N.eqb_neq. by intros <-.
Qed.

(** The data URL of the reader has its only comma at the end of the
    prefix. *)
Lemma data_url_split (mime : jsstring) bs :
  comma ∉ mime ->
  split_comma (data_url_prefix mime ++ base64 bs)
  = [js "data:" ++ mime ++ js ";base64"; base64 bs].
Proof.
  intros Hmime. unfold split_comma, data_url_prefix.
  replace ((js "data:" ++ mime ++ js ";base64,") ++ base64 bs)
    with ((js "data:" ++ mime ++ js ";base64") ++ comma :: base64 bs)
    by (by rewrite <- !app_assoc).
  rewrite split_at_first, split_at_none; [done| | |by vm_compute].
  - apply no_comma_units, base64_excludes. by left.
  - repeat (apply Forall_app; split);
      [by vm_compute; repeat constructor
      |by apply no_comma_units
      |by vm_compute; repeat constructor].
Qed.

Lemma fileToBase64_base64 (f : File) bs :
  file_bytes f = Some bs -> comma ∉ file_type f ->
  fileToBase64 f = Resolved (Some (base64 bs)).
Proof.
  intros Hbytes Hmime. unfold fileToBase64, readAsDataURL.
  rewrite Hbytes. cbn [mbind option_bind]. rewrite data_url_split; [done|].
  destruct (truthy_string (file_type f)); [done|].
  vm_compute. intros Hin.
  by repeat (apply elem_of_cons in Hin as [?|Hin]; [done|]);
     apply not_elem_of_nil in Hin.
Qed.

(** C6, amended. The client capture layer turns a selected file into
    the bare base64 text of its data URL: [fileToBase64] resolves with
    the part after the comma, so the payload sent to the handler does
    not begin with [data:]; the [data:<mime>;base64,] prefix is put back
    by the handler, from [fileType] (or [image/png]), when it builds the
    image URL. *)
Theorem fileToBase64_strips_data_url_prefix
    (toLowerCase : jsstring -> jsstring) (cw : world) (f : File) bs
    (mode : option OCRMode) :
  file_bytes f = Some bs ->
  comma ∉ file_type f ->
  fileToBase64 f = Resolved (Some (base64 bs))
  /\ (forall posted,
        posted ∈ snd (processDocument toLowerCase cw f mode) ->
        Handler.imageBase64 posted = Some (base64 bs))
  /\ startsWith (base64 bs) (js "data:") = false
  /\ Handler.imageUrl (base64 bs) (Some (file_type f))
     = js "data:"
       ++ (if truthy_string (file_type f) then file_type f
           else js "image/png")
       ++ js ";base64," ++ base64 bs.
Proof.
  intros Hbytes Hmime.
  pose proof (fileToBase64_base64 f bs Hbytes Hmime) as Hresolved.
  assert (startsWith (base64 bs) (js "data:") = false) as Hprefix.
  { apply not_true_iff_false. intros Hstarts.
    apply (base64_excludes bs colon); [by right|].
    apply (startsWith_elem _ _ _ Hstarts). by vm_compute; repeat constructor. }
  split; [done|]. split; [|split; [done|]].
  - intros posted.
    unfold processDocument, processPDF, processImage, process_with,
      invokeOcrProcess.
    rewrite Hresolved.
    repeat (case_match; simplify_eq/=);
      intros Hin;
      repeat (apply elem_of_cons in Hin as [?|Hin]; [by simplify_eq|]);
      by apply not_elem_of_nil in Hin.
  - unfold Handler.imageUrl, Handler.or_else. rewrite Hprefix. simpl.
    by destruct (truthy_string (file_type f)).
Qed.

(** *** [isLikelyHandwritten] and [processDocument] *)

Lemma isLikelyHandwritten_contains (toLowerCase : jsstring -> jsstring)
    (fileName : jsstring) :
  isLikelyHandwritten toLowerCase fileName = true
  <-> exists keyword,
      keyword ∈ handwritingKeywords
      /\ contains (toLowerCase fileName) keyword.
Proof.
  unfold isLikelyHandwritten. rewrite existsb_exists.
  split; intros (keyword & Hin & Hk); exists keyword.
  - by rewrite list_elem_of_In, <- includes_contains.
  - by rewrite <- list_elem_of_In, includes_contains.
Qed.

(** Every body [processDocument] posts carries the detected mode. *)
Lemma processDocument_mode (toLowerCase : jsstring -> jsstring) (cw : world)
    (f : File) (mode : option OCRMode) (posted : Handler.OCRRequest) :
  posted ∈ snd (processDocument toLowerCase cw f mode) ->
  Handler.mode posted = Some (detectedMode toLowerCase f mode).
Proof.
  unfold processDocument, processPDF, processImage, process_with,
    invokeOcrProcess.
  repeat (case_match; simplify_eq/=);
    intros Hin;
    repeat (apply elem_of_cons in Hin as [?|Hin]; [by simplify_eq|]);
    by apply not_elem_of_nil in Hin.
Qed.

(** C7. With no mode given, [processDocument] works in mode
    [handwriting] exactly when the lower-cased file name contains one of
    the keywords handwritten, handwriting, notes, notebook, manuscript,
    letter, diary, journal, and in mode [mixed] otherwise; that mode is
    the one it posts to the function. *)
Theorem mode_inferred_from_file_name (toLowerCase : jsstring -> jsstring)
    (cw : world) (f : File) :
  (forall posted,
      posted ∈ snd (processDocument toLowerCase cw f None) ->
      Handler.mode posted = Some (detectedMode toLowerCase f None))
  /\ (detectedMode toLowerCase f None = handwriting
      <-> exists keyword,
          keyword ∈ [ js "handwritten"; js "handwriting"; js "notes";
                      js "notebook"; js "manuscript"; js "letter";
                      js "diary"; js "journal" ]
          /\ contains (toLowerCase (file_name f)) keyword)
  /\ (detectedMode toLowerCase f None = mixed
      <-> ~ exists keyword,
            keyword ∈ [ js "handwritten"; js "handwriting"; js "notes";
                        js "notebook"; js "manuscript"; js "letter";
                        js "diary"; js "journal" ]
            /\ contains (toLowerCase (file_name f)) keyword).
Proof.
  split; [intros posted; apply processDocument_mode|].
  change [ js "handwritten"; js "handwriting"; js "notes"; js "notebook";
           js "manuscript"; js "letter"; js "diary"; js "journal" ]
    with handwritingKeywords.
  rewrite <- isLikelyHandwritten_contains. unfold detectedMode.
  destruct (isLikelyHandwritten toLowerCase (file_name f)); split; split;
    done.
Qed.

End ClientFacts.

(** ** Persistence and history *)

Section PipelineFacts.

Import Pipeline Claims.

Variable toLowerCase : jsstring -> jsstring.
Variable cw : Client.world.
Variable b : backend.

Lemma insert_document_inv (d d1 : database) (u fname ftype : jsstring)
    (size : N) (st id : jsstring) :
  insert_document b d u fname ftype size st = Some (id, d1) ->
  documents d !! id = None
  /\ exists row,
      doc_status row = st
      /\ documents d1 = <[id := row]> (documents d)
      /\ ocr_results d1 = ocr_results d.
Proof.
  unfold insert_document. intros H.
  case_match eqn:Hgo; simplify_eq/=.
  apply orb_false_iff in Hgo as [_ Hfresh].
  apply bool_decide_eq_false in Hfresh.
  split; [by apply eq_None_not_Some|].
  eexists. split; [|split; reflexivity]. reflexivity.
Qed.

Lemma documents_insert_ocr_result (d : database) (row : ocr_result) :
  documents (default d (insert_ocr_result b d row)) = documents d.
Proof. unfold insert_ocr_result. by case_match. Qed.

Lemma documents_update_status (d : database) (id st : jsstring) :
  documents (default d (update_document_status b d id st)) = documents d
  \/ documents (default d (update_document_status b d id st))
     = alter (set_status st) id (documents d).
Proof. unfold update_document_status. case_match; auto. Qed.

(** C8. A run of [handleOCRProcessing] creates the document with status
    "processing" and afterwards updates its status at most once: to
    "completed" when OCR succeeds, to "failed" when it fails.  It writes
    no other status, and leaves the documents that existed before as
    they were. *)
Theorem document_status_lifecycle (user : option User) (f : Client.File)
    (m : OCRMode) (s : state) :
  exists new,
    sent (handleOCRProcessing toLowerCase cw b user f m s) = sent s ++ new
    /\ (forall id,
          is_Some (documents (db s) !! id) ->
          documents (db (handleOCRProcessing toLowerCase cw b user f m s)) !! id
          = documents (db s) !! id)
    /\ (status_writes new = []
        \/ (status_writes new = [Created (js "processing")]
            /\ db (handleOCRProcessing toLowerCase cw b user f m s) = db s)
        \/ exists id,
            documents (db s) !! id = None
            /\ (ocr_succeeds toLowerCase cw f m = true
                /\ status_writes new
                   = [Created (js "processing"); Updated id (js "completed")]
                /\ doc_status
                     <$> documents
                           (db (handleOCRProcessing toLowerCase cw b user f m s))
                         !! id
                   ∈ [Some (js "processing"); Some (js "completed")]
                \/ ocr_succeeds toLowerCase cw f m = false
                   /\ status_writes new
                      = [Created (js "processing"); Updated id (js "failed")]
                   /\ doc_status
                        <$> documents
                              (db (handleOCRProcessing toLowerCase cw b user f
                                     m s))
                            !! id
                      ∈ [Some (js "processing"); Some (js "failed")])).
Proof.
  unfold handleOCRProcessing, ocr_succeeds.
  destruct user as [u|]; [|exists []; by rewrite app_nil_r; auto].
  destruct (insert_document _ _ _ _ _ _ _) as [[id d1]|] eqn:Hins.
  2: { eexists; split; [done|]. split; [done|]. right; left. done. }
  apply insert_document_inv in Hins as (Hfresh & row & Hst & Hd1 & _).
  assert (forall d st,
            documents d = documents d1 ->
            (forall id', is_Some (documents (db s) !! id') ->
                documents (default d (update_document_status b d id st)) !! id'
                = documents (db s) !! id')
            /\ doc_status
                 <$> documents (default d (update_document_status b d id st))
                     !! id
               ∈ [Some (js "processing"); Some st]) as Hupdate.
  { intros d st Hd.
    destruct (documents_update_status d id st) as [-> | ->];
      rewrite Hd, Hd1; split.
    - intros id' [? ?]. rewrite lookup_insert_ne; [done|congruence].
    - rewrite lookup_insert_eq. simpl. rewrite Hst.
      apply elem_of_cons. by left.
    - intros id' [? ?].
      rewrite lookup_alter_ne, lookup_insert_ne; [done|congruence..].
    - rewrite lookup_alter_eq, lookup_insert_eq. simpl.
      apply elem_of_cons; right. apply elem_of_cons; by left. }
  destruct (Client.processDocument _ _ _ _) as [[e|[result|]] posted];
    cbn [fst]; unfold ocr_failed; cbn [sent db].
  - destruct (Hupdate d1 (js "failed") eq_refl) as [Hold Hnew].
    eexists. split; [by rewrite <- app_assoc|]. split; [done|].
    right; right. exists id. split; [done|]. by right.
  - destruct (Hupdate (default d1 (insert_ocr_result b d1
                 {| res_document_id := id; res_user_id := user_id u;
                    res_extracted_text := result_field extracted_text result;
                    res_word_count := result_field word_count result;
                    res_character_count :=
                      result_field character_count result;
                    res_processing_time_ms :=
                      result_field processing_time_ms result |}))
                (js "completed")
                (documents_insert_ocr_result _ _)) as [Hold Hnew].
    eexists. split; [by rewrite <- app_assoc|]. split; [done|].
    right; right. exists id. split; [done|]. by left.
  - destruct (Hupdate d1 (js "failed") eq_refl) as [Hold Hnew].
    eexists. split; [by rewrite <- app_assoc|]. split; [done|].
    right; right. exists id. split; [done|]. by right.
Qed.

(** The demonstration version writes the same statuses: "processing" at
    creation, then "completed" once. *)
Lemma simulated_status_lifecycle (demoText : jsstring) (user : option User)
    (f : Client.File) (s : state) :
  exists new,
    sent (simulateOCRProcessing b demoText user f s) = sent s ++ new
    /\ (status_writes new = []
        \/ status_writes new = [Created (js "processing")]
        \/ exists id,
            status_writes new
            = [Created (js "processing"); Updated id (js "completed")]).
Proof.
  unfold simulateOCRProcessing.
  destruct user as [u|]; [|exists []; by rewrite app_nil_r; auto].
  destruct (insert_document _ _ _ _ _ _ _) as [[id d1]|]; cbn [sent].
  - eexists. split; [by rewrite <- app_assoc|]. right; right. by exists id.
  - eexists. split; [done|]. right; by left.
Qed.

(** C9. When the delete of a document succeeds, the store holds neither
    the document nor an OCR result linked to it (the other results are
    kept), and the history list loses exactly the items with that id;
    when the delete fails, the store and the history list are left
    unchanged. *)
Theorem history_delete (id : jsstring) (s : state) :
  match delete_document b (db s) id with
  | Some d =>
      db (handleHistoryDelete b id s) = d
      /\ documents d !! id = None
      /\ (forall r, r ∈ ocr_results d
                    <-> r ∈ ocr_results (db s) /\ res_document_id r <> id)
      /\ (forall item,
            item ∈ history (ui (handleHistoryDelete b id s))
            <-> item ∈ history (ui s) /\ item_id item <> id)
  | None =>
      db (handleHistoryDelete b id s) = db s
      /\ history (ui (handleHistoryDelete b id s)) = history (ui s)
  end.
Proof.
  unfold handleHistoryDelete.
  destruct (delete_document b (db s) id) as [d|] eqn:Hdel; simpl; [|done].
  unfold delete_document in Hdel. case_match; simplify_eq/=.
  split; [done|]. split; [apply lookup_delete_eq|].
  split; intros x; rewrite !list_elem_of_In, filter_In, negb_true_iff,
    bool_decide_eq_false; done.
Qed.

End PipelineFacts.

(** ** The function on concrete requests *)

Section HandlerExamples.

Import Handler Claims Examples.

Lemma big_image_exceeds : exceeds_10MB big_image.
Proof.
  apply exceeds_10MB_length. unfold big_image.
  rewrite length_replicate, N_nat_Z. reflexivity.
Qed.

End HandlerExamples.

Lemma successful_response_counts_witness :
  word_count Examples.two_lines_result
  = N.of_nat (length (Claims.whitespace_separated_words
                        (extracted_text Examples.two_lines_result)))
  /\ character_count Examples.two_lines_result
     = N.of_nat (length (extracted_text Examples.two_lines_result)).
Proof.
  apply (successful_response_counts toLowerCase_ascii Examples.production
           (Examples.post (Examples.small_upload (Some (js "image/PNG"))))
           {| Handler.status := 200;
              Handler.body := Handler.ResultJson Examples.two_lines_result |}
           [Handler.AuthGetUser (js "tok");
            Handler.GatewayFetch
              (Examples.small_request (js "data:image/PNG;base64,AAAA"))]).
  - vm_compute. reflexivity.
  - reflexivity.
Defined.

(** C2, as stated, fails: in a deployment without the gateway credential
    an authenticated request with an oversized payload is answered 500,
    by the guard that precedes the size check. *)
Lemma oversized_without_gateway_key :
  Claims.authenticated Examples.misconfigured
    (Examples.post (Examples.oversized_upload (Some (js "image/png")))) = true
  /\ Handler.imageBase64 (Examples.oversized_upload (Some (js "image/png")))
     = Some Examples.big_image
  /\ Claims.exceeds_10MB Examples.big_image
  /\ Handler.serve toLowerCase_ascii Examples.misconfigured
       (Examples.post (Examples.oversized_upload (Some (js "image/png"))))
     = ({| Handler.status := 500;
           Handler.body :=
             Handler.ErrorJson (js "LOVABLE_API_KEY is not configured")
               (Some 7%Z) |},
        [Handler.AuthGetUser (js "tok")])
  /\ Handler.status
       (fst (Handler.serve toLowerCase_ascii Examples.misconfigured
               (Examples.post
                  (Examples.oversized_upload (Some (js "image/png"))))))
     <> 400.
Proof.
  split; [reflexivity|]. split; [reflexivity|].
  split; [apply big_image_exceeds|].
  assert (Handler.serve toLowerCase_ascii Examples.misconfigured
            (Examples.post (Examples.oversized_upload (Some (js "image/png"))))
          = ({| Handler.status := 500;
                Handler.body :=
                  Handler.ErrorJson (js "LOVABLE_API_KEY is not configured")
                    (Some 7%Z) |},
             [Handler.AuthGetUser (js "tok")])) as Hrun by reflexivity.
  split; [exact Hrun|]. rewrite Hrun. discriminate.
Qed.

Lemma oversized_payload_rejected_witness :
  exists token,
    Some (js "tok") = Some token
    /\ Handler.serve toLowerCase_ascii Examples.production
         (Examples.post (Examples.oversized_upload (Some (js "text/plain"))))
       = ({| Handler.status := 400;
             Handler.body :=
               Handler.ErrorJson (js "File too large. Maximum size is 10MB")
                 None |},
          [Handler.AuthGetUser token]).
Proof.
  apply (oversized_payload_rejected toLowerCase_ascii Examples.production
           (Examples.post (Examples.oversized_upload (Some (js "text/plain"))))
           (Examples.oversized_upload (Some (js "text/plain")))
           Examples.big_image).
  - reflexivity.
  - reflexivity.
  - reflexivity.
  - reflexivity.
  - apply big_image_exceeds.
Defined.

(** C3, as stated, fails: a CORS preflight whose body lacks the token is
    answered 200 before the body is read. *)
Lemma preflight_without_token :
  Handler.json_body (Examples.preflight Examples.anonymous_upload)
  = Handler.BodyObject Examples.anonymous_upload
  /\ Handler.userAccessToken Examples.anonymous_upload = None
  /\ Handler.serve toLowerCase_ascii Examples.production
       (Examples.preflight Examples.anonymous_upload)
     = ({| Handler.status := 200; Handler.body := Handler.NoBody |}, [])
  /\ Handler.status
       (fst (Handler.serve toLowerCase_ascii Examples.production
               (Examples.preflight Examples.anonymous_upload)))
     <> 401.
Proof. repeat split; discriminate. Qed.

Lemma missing_token_unauthorized_witness :
  Handler.serve toLowerCase_ascii Examples.production
    (Examples.post Examples.anonymous_upload)
  = ({| Handler.status := 401;
        Handler.body :=
          Handler.ErrorJson (js "Authentication required") None |}, []).
Proof.
  apply (missing_token_unauthorized toLowerCase_ascii Examples.production
           (Examples.post Examples.anonymous_upload)
           Examples.anonymous_upload).
  - discriminate.
  - reflexivity.
  - left. reflexivity.
Defined.

(** A POST whose body is [null], and one whose body is no JSON, carry no
    token either; they are answered 500 by the [catch] block, again
    without any external call. *)
Example null_body_without_token :
  Handler.serve toLowerCase_ascii Examples.production Examples.null_post
  = ({| Handler.status := 500;
        Handler.body :=
          Handler.ErrorJson (js "Cannot read properties of null") (Some 7%Z) |},
     [])
  /\ Handler.serve toLowerCase_ascii Examples.production Examples.empty_post
     = ({| Handler.status := 500;
           Handler.body :=
             Handler.ErrorJson (js "Unexpected end of JSON input") (Some 7%Z) |},
        []).
Proof. split; by vm_compute. Qed.

Lemma upstream_rate_and_quota_limits_witness :
  fst (Handler.serve toLowerCase_ascii (Examples.upstream 429 [])
         (Examples.post (Examples.small_upload (Some (js "image/png")))))
  = {| Handler.status := 429;
       Handler.body :=
         Handler.ErrorJson
           (js "Rate limit exceeded. Please try again in a moment.") None |}.
Proof.
  refine (proj1
            (upstream_rate_and_quota_limits toLowerCase_ascii
               (Examples.upstream 429 [])
               (Examples.post (Examples.small_upload (Some (js "image/png"))))
               _
               [Handler.AuthGetUser (js "tok");
                Handler.GatewayFetch
                  (Examples.small_request (js "data:image/png;base64,AAAA"))]
               {| Handler.gw_status := 429;
                  Handler.gw_text := Handler.TextRead (js "{}");
                  Handler.gw_json := Handler.Parsed (Examples.completion []) |}
               (js "{}") _ _ _) _).
  - vm_compute. reflexivity.
  - eexists. split; [|reflexivity]. by repeat constructor.
  - reflexivity.
  - reflexivity.
Defined.

(** C4, as stated, fails: when the gateway answers 429 and the body of
    its answer cannot be read, [response.text()], awaited before the
    status is looked at, rejects, and the response is the 500 of the
    [catch] block. *)
Lemma rate_limit_with_unreadable_body :
  Claims.gateway_responds (Examples.broken_upstream 429)
    (snd (Handler.serve toLowerCase_ascii (Examples.broken_upstream 429)
            (Examples.post (Examples.small_upload (Some (js "image/png"))))))
    (Examples.unreadable 429)
  /\ Handler.gw_status (Examples.unreadable 429) = 429
  /\ fst (Handler.serve toLowerCase_ascii (Examples.broken_upstream 429)
            (Examples.post (Examples.small_upload (Some (js "image/png")))))
     = {| Handler.status := 500;
          Handler.body :=
            Handler.ErrorJson (js "error reading a body from connection")
              (Some 7%Z) |}
  /\ Handler.status
       (fst (Handler.serve toLowerCase_ascii (Examples.broken_upstream 429)
               (Examples.post
                  (Examples.small_upload (Some (js "image/png"))))))
     <> 429.
Proof.
  split; [|by vm_compute].
  exists (Examples.small_request (js "data:image/png;base64,AAAA")).
  split; [|reflexivity].
  assert (snd (Handler.serve toLowerCase_ascii (Examples.broken_upstream 429)
                 (Examples.post
                    (Examples.small_upload (Some (js "image/png")))))
          = [Handler.AuthGetUser (js "tok");
             Handler.GatewayFetch
               (Examples.small_request (js "data:image/png;base64,AAAA"))])
    as -> by (by vm_compute).
  by repeat constructor.
Qed.

(** With a backend URL the client library refuses, the client is not
    built: no request is authenticated, and a request with a token is
    answered 500 before any lookup. *)
Example backend_url_refused :
  Claims.authenticated Examples.mistyped_backend
    (Examples.post (Examples.small_upload (Some (js "image/png")))) = false
  /\ Handler.serve toLowerCase_ascii Examples.mistyped_backend
       (Examples.post (Examples.small_upload (Some (js "image/png"))))
     = ({| Handler.status := 500;
           Handler.body :=
             Handler.ErrorJson
               (js "Invalid supabaseUrl: Must be a valid HTTP or HTTPS URL.")
               (Some 7%Z) |},
        []).
Proof. split; by vm_compute. Qed.

(** The quota status, on a concrete run. *)
Example upstream_402 :
  fst (Handler.serve toLowerCase_ascii (Examples.upstream 402 [])
         (Examples.post (Examples.small_upload (Some (js "image/png")))))
  = {| Handler.status := 402;
       Handler.body :=
         Handler.ErrorJson
           (js "Usage limit reached. Please add credits to continue.") None |}.
Proof. vm_compute. reflexivity. Qed.

Lemma generic_failure_witness :
  Handler.status
    (fst (Handler.serve toLowerCase_ascii (Examples.upstream 503 [])
            (Examples.post (Examples.small_upload (Some (js "image/png"))))))
  = 500
  /\ exists message elapsed,
      Handler.body
        (fst (Handler.serve toLowerCase_ascii (Examples.upstream 503 [])
                (Examples.post (Examples.small_upload (Some (js "image/png"))))))
      = Handler.ErrorJson message (Some elapsed).
Proof.
  apply (generic_failure toLowerCase_ascii (Examples.upstream 503 [])
           (Examples.post (Examples.small_upload (Some (js "image/png"))))
           _
           [Handler.AuthGetUser (js "tok");
            Handler.GatewayFetch
              (Examples.small_request (js "data:image/png;base64,AAAA"))]
           {| Handler.gw_status := 503;
              Handler.gw_text := Handler.TextRead (js "{}");
              Handler.gw_json := Handler.Parsed (Examples.completion []) |}).
  - vm_compute. reflexivity.
  - eexists. split; [|reflexivity]. by repeat constructor.
  - left. simpl. lia.
Defined.

(** The two generic failures, on concrete runs: an upstream 503, and a
    completion that is white space only. *)
Example upstream_503 :
  fst (Handler.serve toLowerCase_ascii (Examples.upstream 503 [])
         (Examples.post (Examples.small_upload (Some (js "image/png")))))
  = {| Handler.status := 500;
       Handler.body :=
         Handler.ErrorJson (js "AI Gateway error: 503") (Some 7%Z) |}.
Proof. vm_compute. reflexivity. Qed.

Example blank_completion :
  fst (Handler.serve toLowerCase_ascii (Examples.upstream 200 (js "  "))
         (Examples.post (Examples.small_upload (Some (js "image/png")))))
  = {| Handler.status := 500;
       Handler.body :=
         Handler.ErrorJson (js "No text could be extracted from the image")
           (Some 7%Z) |}.
Proof. vm_compute. reflexivity. Qed.

(** C10, as stated, fails: an authenticated request without a
    [fileType], whose payload has no [data:] prefix, does not proceed
    when the gateway credential is not configured (it is answered 500
    before the payload is looked at), nor when it carries no image data
    (it is answered 400); in neither run is the gateway called. *)
Lemma absent_file_type_not_proceeding :
  Claims.authenticated Examples.misconfigured
    (Examples.post (Examples.small_upload None)) = true
  /\ Handler.fileType (Examples.small_upload None) = None
  /\ Handler.imageBase64 (Examples.small_upload None) = Some (js "AAAA")
  /\ startsWith (js "AAAA") (js "data:") = false
  /\ Handler.serve toLowerCase_ascii Examples.misconfigured
       (Examples.post (Examples.small_upload None))
     = ({| Handler.status := 500;
           Handler.body :=
             Handler.ErrorJson (js "LOVABLE_API_KEY is not configured")
               (Some 7%Z) |},
        [Handler.AuthGetUser (js "tok")])
  /\ Claims.authenticated Examples.production
       (Examples.post Examples.untyped_empty_upload) = true
  /\ Handler.fileType Examples.untyped_empty_upload = None
  /\ Handler.serve toLowerCase_ascii Examples.production
       (Examples.post Examples.untyped_empty_upload)
     = ({| Handler.status := 400;
           Handler.body :=
             Handler.ErrorJson (js "No image data provided") None |},
        [Handler.AuthGetUser (js "tok")]).
Proof. repeat split; by vm_compute. Qed.

Lemma absent_file_type_skips_validation_witness :
  Handler.invalid_file_type toLowerCase_ascii None = false
  /\ fst (Handler.serve toLowerCase_ascii Examples.production
            (Examples.post (Examples.small_upload None)))
     <> {| Handler.status := 400;
           Handler.body :=
             Handler.ErrorJson
               (js "Invalid file type. Allowed: PNG, JPEG, WebP, GIF, PDF")
               None |}
  /\ snd (Handler.serve toLowerCase_ascii Examples.production
            (Examples.post (Examples.small_upload None)))
     = [Handler.AuthGetUser (js "tok");
        Handler.GatewayFetch
          (Examples.small_request (js "data:image/png;base64,AAAA"))].
Proof.
  destruct (absent_file_type_skips_validation toLowerCase_ascii
              Examples.production
              (Examples.post (Examples.small_upload None))
              (Examples.small_upload None)
              (fst (Handler.serve toLowerCase_ascii Examples.production
                      (Examples.post (Examples.small_upload None))))
              (snd (Handler.serve toLowerCase_ascii Examples.production
                      (Examples.post (Examples.small_upload None)))))
    as (_ & Hguard & Hresp & Hproceeds).
  - reflexivity.
  - reflexivity.
  - by left.
  - apply surjective_pairing.
  - split; [exact Hguard|]. split; [exact Hresp|].
    destruct (Hproceeds eq_refl (js "AAAA")) as (token & key & Htoken & Hkey & ->).
    + reflexivity.
    + discriminate.
    + rewrite exceeds_10MB_length. vm_compute. discriminate.
    + injection Htoken as <-. injection Hkey as <-. reflexivity.
Defined.

(** ** The client and the page on concrete files *)

(** The reader's base64, on the classic three bytes. *)
Example base64_Man : Client.base64 [77; 97; 110] = js "TWFu".
Proof. reflexivity. Qed.

Example base64_padding :
  Client.base64 [77; 97] = js "TWE=" /\ Client.base64 [77] = js "TQ==".
Proof. split; reflexivity. Qed.

(** C6, as stated, fails: the payload the client posts for a PNG is the
    bare base64 text, which begins with no [data:<mime>;base64,]
    prefix. *)
Lemma payload_without_data_url_prefix :
  Client.readAsDataURL Examples.notes_png
  = Some (js "data:image/png;base64,iVBO")
  /\ Client.fileToBase64 Examples.notes_png
     = Client.Resolved (Some (js "iVBO"))
  /\ map Handler.imageBase64
       (snd (Client.processDocument toLowerCase_ascii Examples.signed_in
               Examples.notes_png None))
     = [Some (js "iVBO")]
  /\ forall mime,
      startsWith (js "iVBO") (Client.data_url_prefix mime) = false.
Proof.
  split; [reflexivity|]. split; [reflexivity|].
  split; [by vm_compute|]. intros mime. reflexivity.
Qed.

Lemma fileToBase64_strips_data_url_prefix_witness :
  Client.fileToBase64 Examples.notes_png
  = Client.Resolved (Some (Client.base64 [0x89; 0x50; 0x4E]))
  /\ (forall posted,
        posted ∈ snd (Client.processDocument toLowerCase_ascii
                        Examples.signed_in Examples.notes_png None) ->
        Handler.imageBase64 posted = Some (Client.base64 [0x89; 0x50; 0x4E]))
  /\ startsWith (Client.base64 [0x89; 0x50; 0x4E]) (js "data:") = false
  /\ Handler.imageUrl (Client.base64 [0x89; 0x50; 0x4E])
       (Some (Client.file_type Examples.notes_png))
     = js "data:"
       ++ (if truthy_string (Client.file_type Examples.notes_png)
           then Client.file_type Examples.notes_png
           else js "image/png")
       ++ js ";base64," ++ Client.base64 [0x89; 0x50; 0x4E].
Proof.
  apply (fileToBase64_strips_data_url_prefix toLowerCase_ascii
           Examples.signed_in Examples.notes_png [0x89; 0x50; 0x4E] None).
  - reflexivity.
  - apply (bool_decide_unpack _). by vm_compute.
Defined.

(** The URL the handler builds from the posted payload is the data URL
    the reader produced. *)
Example image_url_restored :
  Some (Handler.imageUrl (js "iVBO") (Some (js "image/png")))
  = Client.readAsDataURL Examples.notes_png.
Proof. reflexivity. Qed.

(** The mode inferred for a file named after notes, and for an invoice. *)
Example notes_are_handwriting :
  Client.detectedMode toLowerCase_ascii Examples.notes_png None = handwriting
  /\ Client.detectedMode toLowerCase_ascii Examples.invoice_pdf None = mixed
  /\ Client.detectedMode toLowerCase_ascii Examples.notes_png (Some printed)
     = printed.
Proof. repeat split; by vm_compute. Qed.

(** One successful scan, one scan by a signed-out client, and the
    deletion of the scanned document. *)
Example scan_completes :
  Claims.status_writes (Pipeline.sent Examples.after_scan)
  = [Claims.Created (js "processing");
     Claims.Updated (js "doc-1") (js "completed")]
  /\ Pipeline.doc_status
       <$> Pipeline.documents (Pipeline.db Examples.after_scan) !! js "doc-1"
     = Some (js "completed")
  /\ map Pipeline.res_document_id
       (Pipeline.ocr_results (Pipeline.db Examples.after_scan))
     = [js "doc-1"]
  /\ map Pipeline.item_id (Pipeline.history (Pipeline.ui Examples.after_scan))
     = [js "doc-1"].
Proof. repeat split; by vm_compute. Qed.

Example scan_fails :
  Claims.status_writes
    (Pipeline.sent
       (Pipeline.handleOCRProcessing toLowerCase_ascii Examples.signed_out
          Examples.store (Some Examples.alice) Examples.notes_png mixed
          Examples.fresh_state))
  = [Claims.Created (js "processing");
     Claims.Updated (js "doc-1") (js "failed")].
Proof. by vm_compute. Qed.

Example delete_scanned :
  Pipeline.documents
    (Pipeline.db
       (Pipeline.handleHistoryDelete Examples.store (js "doc-1")
          Examples.after_scan)) !! js "doc-1"
  = None
  /\ Pipeline.ocr_results
       (Pipeline.db
          (Pipeline.handleHistoryDelete Examples.store (js "doc-1")
             Examples.after_scan))
     = []
  /\ Pipeline.history
       (Pipeline.ui
          (Pipeline.handleHistoryDelete Examples.store (js "doc-1")
             Examples.after_scan))
     = []
  /\ map Pipeline.item_id
       (Pipeline.history
          (Pipeline.ui
             (Pipeline.handleHistoryDelete Examples.unavailable (js "doc-1")
                Examples.after_scan)))
     = [js "doc-1"].
Proof. repeat split; by vm_compute. Qed.

(* ===================================================================== *)
(** * Further properties of the code *)
(* ===================================================================== *)

(** ** The function: what reaches the gateway, and what is answered *)

Section HandlerCoverage.

Import Handler Claims.

Variable toLowerCase : jsstring -> jsstring.
Variable w : world.

Ltac unfold_monad :=
  unfold call, when, throw, return_, mbind, mret, M_bind, M_ret, bind, ret
    in *.

Ltac unfold_try :=
  unfold serve, try_block, await_json, createClient, getUser, fetch_gateway
    in *; unfold_monad.

Ltac unfold_normalize :=
  unfold normalize, await_text, await_json_body, content_or_empty,
    string_receiver in *;
  unfold_monad.

Ltac cases := repeat (case_match; simplify_eq/=).

Ltac no_member H :=
  repeat (apply elem_of_cons in H as [?|H]; [simplify_eq|]);
  try (by apply not_elem_of_nil in H).

(** The run of an authenticated request up to the auth lookup. *)
Ltac use_authenticated H p :=
  apply authenticated_inv in H as
    (Hmethod & p' & token & user & Hpayload & Htoken & Htruthy
     & Hurl & Hcheck & Hservice & Hlookup);
  assert (p' = p) by congruence; subst p';
  apply (bool_decide_eq_false_2 _) in Hmethod;
  unfold_try; rewrite Hmethod, Hpayload; simpl;
  rewrite Htoken; simpl; rewrite Htruthy; simpl;
  rewrite !present_default, Hurl, Hcheck, Hservice; simpl;
  rewrite Hlookup; simpl.

Lemma present_Some (o : option jsstring) :
  present o = true <-> exists s, o = Some s /\ s <> [].
Proof.
  destruct o as [[|c s]|]; simpl; split; try done.
  - by intros (? & ? & ?); simplify_eq.
  - intros _. by exists (c :: s).
  - by intros (? & ? & ?).
Qed.

(** Every check the function makes has passed when the gateway is
    called, and the request sent is the one built from the payload. *)
Lemma gateway_fetch_requires (req : Request) (resp : Response)
    (tr : list event) (rq : gateway_request) :
  serve toLowerCase w req = (resp, tr) ->
  GatewayFetch rq ∈ tr ->
  authenticated w req = true
  /\ api_key_configured w = true
  /\ exists p,
      json_body req = BodyObject p
      /\ present (imageBase64 p) = true
      /\ too_large (default [] (imageBase64 p)) = false
      /\ invalid_file_type toLowerCase (fileType p) = false
      /\ rq = chat_completion_request
                (default [] (env_get w (js "LOVABLE_API_KEY")))
                (default mixed (mode p))
                (imageUrl (default [] (imageBase64 p)) (fileType p)).
Proof.
  intros Hrun Hin. unfold authenticated, api_key_configured. unfold_try.
  repeat (case_match; simplify_eq/=);
    try match goal with
        | H : normalize _ _ _ _ _ = _ |- _ =>
            apply normalize_trace in H; subst
        end;
    no_member Hin.
  all: repeat match goal with
         | H : negb _ = false |- _ => apply negb_false_iff in H
         | H : _ || _ = false |- _ => apply orb_false_iff in H as [? ?]
         | H : bool_decide _ = false |- _ => apply bool_decide_eq_false in H
         | H : bool_decide _ = true |- _ => apply bool_decide_eq_true in H
         | H : truthy_string (default [] _) = true |- _ =>
             rewrite present_default in H
         end.
  all: repeat match goal with
         | H : ?x = true |- context [?x] => rewrite H
         | H : auth_getUser _ _ = _ |- _ => rewrite H
         end.
  all: simpl.
  all: repeat match goal with
         | H : ~ is_Some ?o |- _ => destruct o; [by destruct H|]
         | H : is_Some ?o |- _ => destruct H as [? ->]
         end.
  all: by eauto 10.
Qed.

(** X1. The gateway is called only for a request that passed every
    check: it is authenticated, the gateway credential is configured,
    the payload is present and not above the size limit, and the file
    type, if given, is an allowed one. *)
Theorem gateway_called_only_after_all_checks (req : Request)
    (resp : Response) (tr : list event) (rq : gateway_request) :
  serve toLowerCase w req = (resp, tr) ->
  GatewayFetch rq ∈ tr ->
  authenticated w req = true
  /\ api_key_configured w = true
  /\ exists p image,
      json_body req = BodyObject p
      /\ imageBase64 p = Some image
      /\ image <> []
      /\ ~ exceeds_10MB image
      /\ (forall ft, fileType p = Some ft -> ft <> [] ->
                     toLowerCase ft ∈ allowedTypes).
Proof.
  intros Hrun Hin.
  destruct (gateway_fetch_requires _ _ _ _ Hrun Hin)
    as (HA & HK & p & Hp & Himage & Hsize & Htype & _).
  split; [done|]. split; [done|].
  apply present_Some in Himage as (image & Himage & Hne).
  exists p, image. rewrite Himage in Hsize. simpl in Hsize.
  repeat split; try done.
  - rewrite <- too_large_exceeds. congruence.
  - intros ft Hft Hnonempty.
    destruct (decide (toLowerCase ft ∈ allowedTypes)) as [|Hout]; [done|].
    assert (invalid_file_type toLowerCase (fileType p) = true) as Hbad
      by (apply invalid_file_type_iff; eauto).
    congruence.
Qed.

(** X2. Whatever request reaches the gateway is authorised with the
    configured, non-empty credential (never with the user's token), asks
    the fixed model for at most 4096 tokens with the prompts of the
    requested mode ([mixed] when none is given), and carries an image
    URL that begins with [data:]: the payload itself when it already is
    a data URL, the payload behind a prefix otherwise. *)
Theorem gateway_request_well_formed (req : Request) (resp : Response)
    (tr : list event) (rq : gateway_request) :
  serve toLowerCase w req = (resp, tr) ->
  GatewayFetch rq ∈ tr ->
  exists p key image,
    json_body req = BodyObject p
    /\ env_get w (js "LOVABLE_API_KEY") = Some key /\ key <> []
    /\ imageBase64 p = Some image
    /\ gw_authorization rq = js "Bearer " ++ key
    /\ gw_model rq = js "google/gemini-2.5-flash"
    /\ gw_max_tokens rq = 4096
    /\ gw_system_prompt rq = systemPrompt (default mixed (mode p))
    /\ gw_user_prompt rq = userPrompt (default mixed (mode p))
    /\ startsWith (gw_image_url rq) (js "data:") = true
    /\ (startsWith image (js "data:") = true -> gw_image_url rq = image)
    /\ (startsWith image (js "data:") = false ->
        exists mime, gw_image_url rq = js "data:" ++ mime ++ js ";base64," ++ image).
Proof.
  intros Hrun Hin.
  destruct (gateway_fetch_requires _ _ _ _ Hrun Hin)
    as (_ & HK & p & Hp & Himage & _ & _ & ->).
  apply present_Some in HK as (key & HK & Hkey).
  apply present_Some in Himage as (image & Himage & Hne).
  exists p, key, image. rewrite HK, Himage. simpl.
  repeat split; try done; unfold imageUrl.
  - destruct (startsWith image (js "data:")) eqn:Hstarts; simpl; [done|].
    apply startsWith_prefix. eauto.
  - by intros ->.
  - intros ->. simpl. eauto.
Qed.

(** X3. The external calls of a run are, in this order, at most one auth
    lookup, made with the token of the payload, and at most one gateway
    call; there is no gateway call without the lookup before it. *)
Theorem external_calls_in_order (req : Request) (resp : Response)
    (tr : list event) :
  serve toLowerCase w req = (resp, tr) ->
  tr = []
  \/ exists p token,
      json_body req = BodyObject p
      /\ userAccessToken p = Some token
      /\ (tr = [AuthGetUser token]
          \/ exists rq, tr = [AuthGetUser token; GatewayFetch rq]).
Proof.
  intros Hrun. unfold_try.
  repeat (case_match; simplify_eq/=);
    try match goal with
        | H : normalize _ _ _ _ _ = _ |- _ =>
            apply normalize_trace in H; subst
        end;
    try (by left);
    right;
    match goal with
    | H : negb (present (userAccessToken ?a)) = false |- _ =>
        destruct (userAccessToken a) as [token|] eqn:Htoken; [|done]
    end;
    eexists _, token; simpl; eauto 6.
Qed.

(** The status that goes with each kind of body [normalize] ends in. *)
Lemma normalize_status_by_body (m : OCRMode) (start : Z)
    (r : gateway_response) (tr tr' : list event) (o : outcome Response) :
  normalize w m start r tr = (o, tr') ->
  match body (settle w start o) with
  | ResultJson _ => status (settle w start o) = 200
  | ErrorJson _ (Some _) => status (settle w start o) = 500
  | ErrorJson _ None => status (settle w start o) ∈ [400; 401; 402; 429]
  | NoBody => False
  end.
Proof.
  intros Hrun. unfold_normalize. unfold settle, catch_block.
  cases; try done; set_unfold; auto 10.
Qed.

(** The status that goes with each kind of body the function sends. *)
Lemma serve_status_by_body (req : Request) (resp : Response)
    (tr : list event) :
  serve toLowerCase w req = (resp, tr) ->
  match body resp with
  | ResultJson _ => status resp = 200
  | ErrorJson _ (Some _) => status resp = 500
  | ErrorJson _ None => status resp ∈ [400; 401; 402; 429]
  | NoBody => status resp = 200 /\ method req = js "OPTIONS"
  end.
Proof.
  intros Hrun. unfold_try.
  repeat (case_match; simplify_eq/=);
    repeat match goal with
           | H : bool_decide _ = true |- _ => apply bool_decide_eq_true in H
           end;
    try done; try (set_unfold; by auto 10).
  all: match goal with
       | H : normalize _ _ _ _ _ = _, E : body _ = _ |- _ =>
           apply normalize_status_by_body in H; rewrite E in H
       end.
  all: try done. all: set_unfold; by auto 10.
Qed.

(** X4. The statuses of the function: a result is only ever sent with
    status 200; an error body that reports the elapsed time is the 500 of
    the [catch] block, one that does not is a 400, 401, 402 or 429; and
    only a preflight is answered without a body. *)
Theorem response_status_classes (req : Request) (resp : Response)
    (tr : list event) :
  serve toLowerCase w req = (resp, tr) ->
  (forall res, body resp = ResultJson res -> status resp = 200)
  /\ (forall message elapsed,
        body resp = ErrorJson message (Some elapsed) -> status resp = 500)
  /\ (forall message,
        body resp = ErrorJson message None ->
        status resp ∈ [400; 401; 402; 429])
  /\ (body resp = NoBody ->
      status resp = 200 /\ method req = js "OPTIONS").
Proof.
  intros Hrun. pose proof (serve_status_by_body _ _ _ Hrun) as Hstatus.
  repeat split.
  - intros res Hbody. by rewrite Hbody in Hstatus.
  - intros message elapsed Hbody. by rewrite Hbody in Hstatus.
  - intros message Hbody. by rewrite Hbody in Hstatus.
  - by destruct (body resp); [destruct Hstatus| |].
  - by destruct (body resp); [destruct Hstatus| |].
Qed.

(** X5. A token the auth service does not resolve to a user, or
    resolves with an error, is answered 401 "Unauthorized" right after
    the lookup: the request goes no further.  The lookup is made through
    the client built from the backend URL and service key, which are to
    be set, the URL being one the client library accepts. *)
Theorem unresolved_token_unauthorized (req : Request) (p : OCRRequest)
    (token : jsstring) (user error : option jsstring) :
  method req <> js "OPTIONS" ->
  json_body req = BodyObject p ->
  userAccessToken p = Some token -> token <> [] ->
  present (env_get w (js "SUPABASE_URL")) = true ->
  client_url_error w (default [] (env_get w (js "SUPABASE_URL"))) = None ->
  present (env_get w (js "SUPABASE_SERVICE_ROLE_KEY")) = true ->
  auth_getUser w token = AuthResult user error ->
  user = None \/ error <> None ->
  serve toLowerCase w req
  = ({| status := 401; body := ErrorJson (js "Unauthorized") None |},
     [AuthGetUser token]).
Proof.
  intros Hmethod Hbody Htoken Hne Hurl Hcheck Hservice Hlookup Hbad.
  apply (bool_decide_eq_false_2 _) in Hmethod.
  unfold_try. rewrite Hmethod, Hbody. simpl. rewrite Htoken. simpl.
  destruct token as [|c token]; [done|]. simpl.
  rewrite !present_default, Hurl, Hcheck, Hservice. simpl.
  rewrite Hlookup. simpl.
  destruct Hbad as [-> | Herr].
  - by destruct error.
  - by destruct error.
Qed.

(** X6. An authenticated request without image data (the field absent
    or the empty string) is answered 400 "No image data provided", and
    the gateway is not called. *)
Theorem missing_image_rejected (req : Request) (p : OCRRequest) :
  authenticated w req = true ->
  api_key_configured w = true ->
  json_body req = BodyObject p ->
  imageBase64 p = None \/ imageBase64 p = Some [] ->
  exists token,
    userAccessToken p = Some token
    /\ serve toLowerCase w req
       = ({| status := 400;
             body := ErrorJson (js "No image data provided") None |},
          [AuthGetUser token]).
Proof.
  intros HA HK HB HI. unfold api_key_configured in HK.
  use_authenticated HA p. exists token; split; [done|].
  rewrite HK. simpl. by destruct HI as [-> | ->].
Qed.

(** X7. An authenticated request with a payload within the size limit
    and a non-empty [fileType] whose lower-casing is not an allowed type
    is answered 400 "Invalid file type", and the gateway is not
    called. *)
Theorem disallowed_type_rejected (req : Request) (p : OCRRequest)
    (image ft : jsstring) :
  authenticated w req = true ->
  api_key_configured w = true ->
  json_body req = BodyObject p ->
  imageBase64 p = Some image -> image <> [] -> ~ exceeds_10MB image ->
  fileType p = Some ft -> ft <> [] -> toLowerCase ft ∉ allowedTypes ->
  exists token,
    userAccessToken p = Some token
    /\ serve toLowerCase w req
       = ({| status := 400;
             body := ErrorJson
                       (js "Invalid file type. Allowed: PNG, JPEG, WebP, GIF, PDF")
                       None |},
          [AuthGetUser token]).
Proof.
  intros HA HK HB HI Hne HS Hft Hnonempty Hout.
  assert (invalid_file_type toLowerCase (fileType p) = true) as Hguard
    by (apply invalid_file_type_iff; eauto).
  rewrite <- too_large_exceeds, not_true_iff_false in HS.
  unfold api_key_configured in HK.
  use_authenticated HA p. exists token; split; [done|].
  rewrite HK; simpl. rewrite HI; simpl.
  destruct image; [done|]; simpl. rewrite HS; simpl.
  by rewrite Hguard.
Qed.

(** X8. A request that passes every check, and for which the gateway
    answers with a success status and a completion whose text is not
    blank, is answered 200 with that very text, its counts, the time
    elapsed between the two clock readings and the note of its mode,
    after exactly one auth lookup and one gateway call. *)
Theorem valid_request_succeeds (req : Request) (p : OCRRequest)
    (image text : jsstring) (r : gateway_response) (data : json) :
  authenticated w req = true ->
  api_key_configured w = true ->
  json_body req = BodyObject p ->
  imageBase64 p = Some image -> image <> [] -> ~ exceeds_10MB image ->
  invalid_file_type toLowerCase (fileType p) = false ->
  gateway_fetch w
    (chat_completion_request (default [] (env_get w (js "LOVABLE_API_KEY")))
       (default mixed (mode p)) (imageUrl image (fileType p)))
  = FetchResponse r ->
  200 <= gw_status r <= 299 ->
  gw_json r = Parsed data ->
  extractedText_of data = Some (JStr text) ->
  whitespace_only text = false ->
  exists token,
    userAccessToken p = Some token
    /\ serve toLowerCase w req
       = ({| status := 200;
             body :=
               ResultJson
                 {| extracted_text := text;
                    processing_time_ms := (date_now w 1 - date_now w 0)%Z;
                    word_count :=
                      N.of_nat (length (whitespace_separated_words text));
                    character_count := N.of_nat (length text);
                    confidence_note :=
                      match mode p with
                      | Some handwriting =>
                          js "Handwriting recognition - accuracy may vary based on writing clarity"
                      | _ => js "High confidence OCR extraction"
                      end |} |},
          [AuthGetUser token;
           GatewayFetch
             (chat_completion_request
                (default [] (env_get w (js "LOVABLE_API_KEY")))
                (default mixed (mode p)) (imageUrl image (fileType p)))]).
Proof.
  intros HA HK HB HI Hne HS Hguard Hfetch Hst Hjson Htext Hblank.
  rewrite <- too_large_exceeds, not_true_iff_false in HS.
  unfold api_key_configured in HK. apply ok_true_iff in Hst.
  use_authenticated HA p. exists token; split; [done|].
  rewrite HK; simpl. rewrite HI; simpl.
  destruct image as [|c image]; [done|]; simpl. rewrite HS; simpl.
  rewrite Hguard; simpl. rewrite Hfetch; simpl.
  assert (content_or_empty w data = mret (Some (JStr text))) as Hcontent.
  { unfold content_or_empty. rewrite Htext. destruct data; try done.
    vm_compute in Htext. by simplify_eq. }
  unfold normalize, await_json_body, string_receiver. unfold_monad.
  rewrite Hst; simpl. rewrite Hjson; simpl. rewrite Hcontent; simpl.
  rewrite trim_whitespace_only, Hblank; simpl.
  rewrite filter_Boolean_split. by destruct (mode p) as [[]|].
Qed.

End HandlerCoverage.

(** ** Words of a text *)

Section WordFacts.

Import Claims.

Implicit Types (s : jsstring) (c : N).

Lemma split_at_pieces (P : N -> bool) s :
  exists w ws,
    split_at P s = w :: ws
    /\ (length w + length (filter_Boolean ws) <= length s)%nat.
Proof.
  induction s as [|c s (w & ws & E & Hlen)]; simpl.
  - by exists [], [].
  - destruct (P c).
    + exists [], (split_at P s). split; [done|].
      rewrite E. unfold filter_Boolean in *. simpl.
      destruct w; simpl in *; lia.
    + rewrite E. exists (c :: w), ws. split; [done|]. simpl. lia.
Qed.

(** A text has at most as many words as it has code units. *)
Lemma words_at_most_units s :
  (length (whitespace_separated_words s) <= length s)%nat.
Proof.
  unfold whitespace_separated_words.
  destruct (split_at_pieces isWhiteSpace s) as (w & ws & -> & Hlen).
  rewrite <- (List.filter_ext truthy_string) by apply truthy_string_nonempty.
  unfold filter_Boolean in Hlen. simpl. destruct w; simpl in *; lia.
Qed.

(** A text that is not blank has a word. *)
Lemma words_of_nonblank s :
  whitespace_only s = false ->
  (1 <= length (whitespace_separated_words s))%nat.
Proof.
  unfold whitespace_only, whitespace_separated_words.
  rewrite <- (List.filter_ext truthy_string) by apply truthy_string_nonempty.
  induction s as [|c s IH]; simpl; [done|].
  destruct (isWhiteSpace c); simpl; [done|]. intros _.
  destruct (split_at_pieces isWhiteSpace s) as (w & ws & -> & _).
  simpl. lia.
Qed.

End WordFacts.

Section HandlerCounts.

Import Handler Claims.

Variable toLowerCase : jsstring -> jsstring.
Variable w : world.

(** The text of a result is never blank. *)
Lemma normalize_result_nonblank (m : OCRMode) (start : Z)
    (r : gateway_response) (tr tr' : list event) (o : outcome Response)
    (res : OCRResponse) :
  normalize w m start r tr = (o, tr') ->
  body (settle w start o) = ResultJson res ->
  whitespace_only (extracted_text res) = false.
Proof.
  intros Hrun Hbody.
  unfold normalize, await_text, await_json_body, content_or_empty,
    string_receiver, call, when, throw, return_, mbind, mret, M_bind, M_ret,
    bind, ret, settle, catch_block in *.
  repeat (case_match; simplify_eq/=);
    match goal with
    | H : negb (truthy_string (trim _)) = false |- _ =>
        rewrite trim_whitespace_only, negb_involutive in H; exact H
    end.
Qed.

(** X9. A successful response never carries a blank text, and its counts
    are consistent: at least one word, and no more words than
    characters. *)
Theorem successful_response_is_not_blank (req : Request) (resp : Response)
    (tr : list event) (res : OCRResponse) :
  serve toLowerCase w req = (resp, tr) ->
  body resp = ResultJson res ->
  whitespace_only (extracted_text res) = false
  /\ 1 <= word_count res <= character_count res.
Proof.
  intros Hrun Hbody.
  destruct (serve_inv _ _ _ _ _ Hrun)
    as [[_ Hnone]|(p & tok & rq & r & o & _ & _ & _ & _ & _ & _ & Hn & ->)].
  { by destruct (Hnone res). }
  pose proof (normalize_result_nonblank _ _ _ _ _ _ _ Hn Hbody) as Hblank.
  destruct (normalize_result _ _ _ _ _ _ _ _ Hn Hbody) as [-> ->].
  rewrite filter_Boolean_split. split; [done|].
  pose proof (words_of_nonblank _ Hblank).
  pose proof (words_at_most_units (extracted_text res)).
  unfold jslength. lia.
Qed.

End HandlerCounts.

(** ** The client: what it posts and how its calls settle *)

Section ClientCoverage.

Import Client Claims.

Variable toLowerCase : jsstring -> jsstring.
Variable cw : world.

Implicit Types (f : File) (bs : list N).

Ltac unfold_client :=
  unfold processDocument, processPDF, processImage, process_with,
    invokeOcrProcess in *.

Lemma droppable_supported f :
  UploadZone.droppable f = true
  <-> file_type f = js "application/pdf"
      \/ startsWith (file_type f) (js "image/") = true.
Proof.
  unfold UploadZone.droppable.
  rewrite orb_true_iff, bool_decide_eq_true. tauto.
Qed.

(** X10. Without a session token nothing is ever posted to the function;
    a supported, readable file is then rejected with "You must be logged
    in to use OCR processing". *)
Theorem signed_out_posts_nothing f (mode : option OCRMode) :
  Handler.present (session_access_token cw) = false ->
  snd (processDocument toLowerCase cw f mode) = []
  /\ (UploadZone.droppable f = true -> file_bytes f <> None ->
      fst (processDocument toLowerCase cw f mode)
      = Rejected
          (ErrorObject (js "You must be logged in to use OCR processing"))).
Proof.
  intros Hsession. unfold_client. rewrite Hsession. simpl.
  unfold fileToBase64, readAsDataURL. split.
  - repeat case_match; simplify_eq/=; done.
  - intros Hsupported%droppable_supported Hbytes.
    destruct (file_bytes f); [|done]. simpl.
    destruct Hsupported as [-> | ->]; simpl; [done|].
    by case_match.
Qed.

(** The body posted for a file, given what [fileToBase64] resolved
    with. *)
Lemma processDocument_posts f (mode : option OCRMode)
    (token : jsstring) (payload : option jsstring) :
  UploadZone.droppable f = true ->
  fileToBase64 f = Resolved payload ->
  session_access_token cw = Some token -> token <> [] ->
  snd (processDocument toLowerCase cw f mode)
  = [ {| Handler.imageBase64 := payload;
         Handler.fileName := Some (file_name f);
         Handler.fileType := Some (file_type f);
         Handler.mode := Some (detectedMode toLowerCase f mode);
         Handler.userAccessToken := Some token |} ].
Proof.
  intros Hsupported%droppable_supported Hread Hsession Htoken.
  unfold_client. rewrite Hread, Hsession. simpl.
  destruct token; [done|]. simpl.
  destruct Hsupported as [-> | ->]; simpl.
  - repeat case_match; simplify_eq/=; done.
  - repeat case_match; simplify_eq/=; done.
Qed.

(** X11. For a supported, readable file and a signed-in user exactly one
    body is posted: the base64 text of the file, its name and type, the
    detected mode, and the session's access token. *)
Theorem supported_file_posted_once f bs (mode : option OCRMode)
    (token : jsstring) :
  UploadZone.droppable f = true ->
  file_bytes f = Some bs ->
  comma ∉ file_type f ->
  session_access_token cw = Some token -> token <> [] ->
  snd (processDocument toLowerCase cw f mode)
  = [ {| Handler.imageBase64 := Some (base64 bs);
         Handler.fileName := Some (file_name f);
         Handler.fileType := Some (file_type f);
         Handler.mode := Some (detectedMode toLowerCase f mode);
         Handler.userAccessToken := Some token |} ].
Proof.
  intros Hsupported Hbytes Hcomma Hsession Htoken.
  apply processDocument_posts; try done.
  by apply fileToBase64_base64.
Qed.

(** [processDocument] posts at most one body. *)
Lemma processDocument_posts_at_most_once f (mode : option OCRMode) :
  (length (snd (processDocument toLowerCase cw f mode)) <= 1)%nat.
Proof.
  unfold_client. repeat case_match; simplify_eq/=; lia.
Qed.

(** X12. [processDocument] never resolves with an error: when it
    resolves, exactly one body was posted, the invocation settled
    without an error, and the data it returned carries no error
    message. *)
Theorem resolves_only_without_error f (mode : option OCRMode)
    (data : option invoke_data) :
  fst (processDocument toLowerCase cw f mode) = Resolved data ->
  exists posted,
    snd (processDocument toLowerCase cw f mode) = [posted]
    /\ functions_invoke cw posted = InvokeSettled data None
    /\ forall e, data = Some (DataError e) -> e = [].
Proof.
  unfold_client.
  repeat (case_match; simplify_eq/=); intros Hres; simplify_eq;
    eexists; (split; [done|]); (split; [done|]);
    intros e' He; simplify_eq;
    match goal with
    | H : truthy_string ?e = false |- _ => by destruct e
    end.
Qed.

(** [base64] text is no data URL. *)
Lemma base64_not_data_url bs : startsWith (base64 bs) (js "data:") = false.
Proof.
  apply not_true_iff_false. intros Hstarts.
  apply (base64_excludes bs colon); [by right|].
  apply (startsWith_elem _ _ _ Hstarts). by vm_compute; repeat constructor.
Qed.

(** X13. Round trip: for a readable file with a MIME type (free of
    commas), the image URL the function builds from the posted payload
    and file type is the data URL the browser's reader produced. *)
Theorem image_url_round_trip f bs :
  file_bytes f = Some bs ->
  file_type f <> [] ->
  comma ∉ file_type f ->
  exists payload,
    fileToBase64 f = Resolved (Some payload)
    /\ Some (Handler.imageUrl payload (Some (file_type f)))
       = readAsDataURL f.
Proof.
  intros Hbytes Htype Hcomma. exists (base64 bs).
  split; [by apply fileToBase64_base64|].
  unfold Handler.imageUrl, Handler.or_else, readAsDataURL, data_url_prefix.
  rewrite base64_not_data_url, Hbytes. cbn [mbind option_bind negb].
  destruct (file_type f) as [|c t] eqn:E; [done|]. simpl.
  by rewrite <- !app_assoc.
Qed.

(** The length of the base64 text of [n] bytes. *)
Lemma base64_length bs :
  length (base64 bs) = (4 * ((length bs + 2) / 3))%nat.
Proof.
  assert (forall n bs, (length bs <= n)%nat ->
            length (base64 bs) = (4 * ((length bs + 2) / 3))%nat) as Hn.
  { clear bs. induction n as [|n IH]; intros bs Hlen.
    - by destruct bs; [|simpl in Hlen; lia].
    - destruct bs as [|a [|b [|c rest]]]; try done.
      cbn [base64 length]. rewrite IH by (simpl in Hlen; lia).
      replace (S (S (S (length rest))) + 2)%nat
        with (1 * 3 + (length rest + 2))%nat by lia.
      rewrite Nat.div_add_l by done. lia. }
  by apply (Hn (length bs)).
Qed.

(** X14. The size limit, in the terms of the two sides: the function's
    estimate exceeds the limit from 13981014 characters of payload on,
    which for the base64 text of a file means from 10485760 bytes on; a
    file is accepted exactly when it is smaller than 10 MB. *)
Theorem size_limit_thresholds (image : jsstring) bs :
  (Handler.too_large image = true <-> 13981014 <= jslength image)
  /\ (Handler.too_large (base64 bs) = true
      <-> 10485760 <= N.of_nat (length bs)).
Proof.
  rewrite !too_large_exceeds, !exceeds_10MB_length, base64_length.
  unfold jslength. split; [lia|].
  pose proof (Nat.div_mod_eq (length bs + 2) 3) as Hdiv.
  pose proof (Nat.mod_upper_bound (length bs + 2) 3) as Hmod.
  lia.
Qed.

End ClientCoverage.

(** ** The client against the function *)

Section DeployedCoverage.

Import Client Claims.

Variable toLowerCase : jsstring -> jsstring.
Variable w : Handler.world.
Variable syntax_error : thrown.

(** X15. The client sees what the function answers: for a supported,
    readable file and a signed-in user one request is made; when the
    function answers with a result, [processDocument] resolves with that
    result, and when it answers with an error object, [processDocument]
    rejects with the function's own message. *)
Theorem client_sees_function_answer (f : File) (bs : list N)
    (mode : option OCRMode) (token : jsstring) :
  UploadZone.droppable f = true ->
  file_bytes f = Some bs ->
  comma ∉ file_type f ->
  token <> [] ->
  match
    Handler.body
      (fst (Handler.serve toLowerCase w
              (Deployed.request_for toLowerCase f bs mode token)))
  with
  | Handler.ResultJson r =>
      fst (processDocument toLowerCase
             (Deployed.browser toLowerCase w syntax_error (Some token)) f mode)
      = Resolved (Some (DataResult r))
  | Handler.ErrorJson message _ =>
      message <> [] ->
      fst (processDocument toLowerCase
             (Deployed.browser toLowerCase w syntax_error (Some token)) f mode)
      = Rejected (ErrorObject message)
  | Handler.NoBody => False
  end.
Proof.
  intros Hsupported%droppable_supported Hbytes Hcomma Htoken.
  unfold processDocument, processPDF, processImage, process_with,
    invokeOcrProcess.
  rewrite (fileToBase64_base64 f bs Hbytes Hcomma).
  cbn [Deployed.browser session_access_token functions_invoke].
  destruct token as [|c token]; [done|].
  cbn [Handler.present truthy_string negb].
  unfold Deployed.post_to_function, Deployed.request_for.
  destruct (Handler.serve toLowerCase w _) as [resp tr] eqn:Hrun.
  apply serve_status_by_body in Hrun. cbn [fst].
  assert (forall st, st ∈ [400; 401; 402; 429] ->
            (200 <=? st) && (st <=? 299) = false) as Hclient.
  { intros st Hst. set_unfold. destruct Hst as [->|[->|[->|[->|[]]]]]; done. }
  destruct (Handler.body resp) as [|message [elapsed|]|r].
  - by destruct Hrun.
  - rewrite Hrun. intros Hmessage.
    destruct message as [|d message]; [done|].
    destruct Hsupported as [-> | ->];
      repeat (case_match; simplify_eq/=); done.
  - rewrite (Hclient _ Hrun). intros Hmessage.
    destruct message as [|d message]; [done|].
    destruct Hsupported as [-> | ->];
      repeat (case_match; simplify_eq/=); done.
  - rewrite Hrun.
    destruct Hsupported as [-> | ->];
      repeat (case_match; simplify_eq/=); done.
Qed.

End DeployedCoverage.

(** ** The upload zone and the page *)

Section PageCoverage.

Import Pipeline Claims.

Variable toLowerCase : jsstring -> jsstring.
Variable cw : Client.world.
Variable b : backend.

(** X16. Files that come in by drag and drop only are filtered: as long
    as no file was picked through the file input, the file the zone
    hands to the page, if any, is a PDF or of an [image/] type. *)
Theorem dropped_files_are_supported (es : list Session.zone_event)
    (f : Client.File) (m : OCRMode) :
  forallb (fun e => negb (Session.is_choose e)) es = true ->
  UploadZone.handleProcess (Session.zone_run es UploadZone.initial)
  = Some (f, m) ->
  UploadZone.droppable f = true.
Proof.
  intros Hdrops.
  assert (forall z,
            (forall g, UploadZone.selectedFile z = Some g ->
                       UploadZone.droppable g = true) ->
            forall g, UploadZone.selectedFile (Session.zone_run es z) = Some g ->
                      UploadZone.droppable g = true) as Hinv.
  { induction es as [|e es IH]; intros z Hz; [done|].
    simpl in Hdrops. apply andb_prop in Hdrops as [He Hes].
    simpl. apply (IH Hes).
    destruct e as [| |[d|]|c| |m']; simpl in *; try done.
    intros g. destruct (UploadZone.droppable d) eqn:Hd; [|by apply Hz].
    by intros [= <-]. }
  unfold UploadZone.handleProcess.
  destruct (UploadZone.selectedFile _) as [g|] eqn:Hg; [|done].
  intros [= <- _]. by apply (Hinv UploadZone.initial).
Qed.

(** X17. The file input does not filter: a file of an unsupported type
    picked there and sent for extraction gets a document record, created
    as "processing" and at once marked "failed", while nothing is posted
    to the function, no OCR result is saved, and the history is left as
    it was. *)
Theorem unsupported_file_chosen_fails (u : User) (f : Client.File)
    (z : UploadZone.zone) (s : state) (id : jsstring) (d1 : database) :
  UploadZone.droppable f = false ->
  insert_document b (db s) (user_id u) (Client.file_name f)
    (Client.file_type f) (Client.file_size f) (js "processing")
  = Some (id, d1) ->
  snd (Client.processDocument toLowerCase cw f
         (Some (UploadZone.selectedMode z))) = []
  /\ sent (UploadZone.extract toLowerCase cw b (Some u)
             (UploadZone.handleFileInput (Some f) z) s)
     = sent s
       ++ [InsertDocument (user_id u) (Client.file_name f)
             (Client.file_type f) (Client.file_size f) (js "processing");
           UpdateDocumentStatus id (js "failed")]
  /\ status (ui (UploadZone.extract toLowerCase cw b (Some u)
                   (UploadZone.handleFileInput (Some f) z) s)) = error
  /\ history (ui (UploadZone.extract toLowerCase cw b (Some u)
                    (UploadZone.handleFileInput (Some f) z) s))
     = history (ui s)
  /\ ocr_results (db (UploadZone.extract toLowerCase cw b (Some u)
                        (UploadZone.handleFileInput (Some f) z) s))
     = ocr_results (db s).
Proof.
  intros Hbad Hinsert.
  assert (Client.processDocument toLowerCase cw f
            (Some (UploadZone.selectedMode z))
          = (Client.Rejected
               (ErrorObject
                  (js "Unsupported file type: " ++ Client.file_type f)), []))
    as Hrejected.
  { unfold UploadZone.droppable in Hbad.
    apply orb_false_iff in Hbad as [Himage Hpdf].
    unfold Client.processDocument. by rewrite Hpdf, Himage. }
  unfold UploadZone.extract, UploadZone.handleFileInput,
    UploadZone.handleProcess, handleOCRProcessing.
  cbn [UploadZone.selectedFile UploadZone.selectedMode].
  rewrite Hinsert, Hrejected. cbn [fst snd].
  unfold ocr_failed. cbn [sent ui db status history].
  rewrite <- app_assoc. repeat split; try done.
  apply insert_document_inv in Hinsert as (_ & row & _ & _ & Hresults).
  unfold update_document_status. by case_match.
Qed.

Lemma take_9_bound {A} (l : list A) : (length (take 9 l) <= 9)%nat.
Proof. rewrite length_take. lia. Qed.

(** X18. The history list never grows beyond ten items, whatever the
    user does on the page: scanning, deleting, selecting, starting
    over. *)
Theorem history_never_exceeds_ten (user : option User)
    (es : list Session.page_event) (s : state) :
  (length (history (ui s)) <= 10)%nat ->
  (length (history (ui (Session.page_run toLowerCase cw b user es s)))
   <= 10)%nat.
Proof.
  revert s. induction es as [|e es IH]; intros s Hs; [done|].
  simpl. apply IH.
  destruct e as [f m|id|item|]; simpl.
  - unfold handleOCRProcessing, ocr_failed.
    repeat (case_match; simplify_eq/=); try done.
    pose proof (take_9_bound (history (ui s))). lia.
  - unfold handleHistoryDelete. case_match; simpl; [|done].
    pose proof (List.filter_length_le
                  (fun item => negb (bool_decide (item_id item = id)))
                  (history (ui s))).
    lia.
  - done.
  - done.
Qed.

(** X19. After a successful scan the statement that saves the result
    links it to the document just created and to the user, with the text
    and counts of the OCR result; the page shows that text as complete,
    and the document heads the history and is the selected one. *)
Theorem successful_scan_saved (u : User) (f : Client.File) (m : OCRMode)
    (s : state) (id : jsstring) (d1 : database) (r : OCRResponse) :
  insert_document b (db s) (user_id u) (Client.file_name f)
    (Client.file_type f) (Client.file_size f) (js "processing")
  = Some (id, d1) ->
  fst (Client.processDocument toLowerCase cw f (Some m))
  = Client.Resolved (Some (Client.DataResult r)) ->
  InsertOcrResult
    {| res_document_id := id; res_user_id := user_id u;
       res_extracted_text := Some (extracted_text r);
       res_word_count := Some (word_count r);
       res_character_count := Some (character_count r);
       res_processing_time_ms := Some (processing_time_ms r) |}
  ∈ sent (handleOCRProcessing toLowerCase cw b (Some u) f m s)
  /\ status (ui (handleOCRProcessing toLowerCase cw b (Some u) f m s))
     = complete
  /\ extractedText (ui (handleOCRProcessing toLowerCase cw b (Some u) f m s))
     = Some (extracted_text r)
  /\ selectedHistoryId
       (ui (handleOCRProcessing toLowerCase cw b (Some u) f m s))
     = Some id
  /\ exists item,
      head (history (ui (handleOCRProcessing toLowerCase cw b (Some u) f m s)))
      = Some item
      /\ item_id item = id
      /\ item_fileName item = Client.file_name f
      /\ item_extractedText item = Some (extracted_text r).
Proof.
  intros Hinsert Hocr. unfold handleOCRProcessing.
  rewrite Hinsert, Hocr. cbn [sent ui status extractedText selectedHistoryId
                                history head result_field].
  split; [|by eauto 10].
  apply elem_of_app; right. apply elem_of_cons; by left.
Qed.

(** X20. A scan whose OCR call fails shows the error and changes neither
    the history, nor the selection made before it was cleared, nor the
    saved OCR results: no result is sent to the store. *)
Theorem failed_scan_saves_nothing (u : User) (f : Client.File) (m : OCRMode)
    (s : state) (e : thrown) :
  fst (Client.processDocument toLowerCase cw f (Some m)) = Client.Rejected e ->
  status (ui (handleOCRProcessing toLowerCase cw b (Some u) f m s)) = error
  /\ history (ui (handleOCRProcessing toLowerCase cw b (Some u) f m s))
     = history (ui s)
  /\ ocr_results (db (handleOCRProcessing toLowerCase cw b (Some u) f m s))
     = ocr_results (db s)
  /\ forall row,
      InsertOcrResult row
      ∈ sent (handleOCRProcessing toLowerCase cw b (Some u) f m s) ->
      InsertOcrResult row ∈ sent s.
Proof.
  intros Hocr. unfold handleOCRProcessing, ocr_failed. rewrite Hocr.
  destruct (insert_document _ _ _ _ _ _ _) as [[id d1]|] eqn:Hinsert;
    cbn [sent ui db status history].
  - apply insert_document_inv in Hinsert as (_ & row & _ & _ & Hresults).
    repeat split; try done.
    + unfold update_document_status. by case_match.
    + intros row' Hin.
      repeat (apply elem_of_app in Hin as [Hin|Hin]); [done|..];
        apply elem_of_cons in Hin as [?|Hin]; try done;
        by apply not_elem_of_nil in Hin.
  - repeat split; try done.
    intros row' Hin. apply elem_of_app in Hin as [Hin|Hin]; [done|].
    apply elem_of_cons in Hin as [?|Hin]; [done|].
    by apply not_elem_of_nil in Hin.
Qed.

(** X21. Deleting the selected document brings the page back to idle
    with an empty text and no selection; deleting another document
    leaves the selection, the text shown and the status as they are.  A
    delete the store refuses changes none of these. *)
Theorem delete_resets_selected_view (id : jsstring) (s : state) :
  (is_Some (delete_document b (db s) id) ->
   selectedHistoryId (ui s) = Some id ->
   status (ui (handleHistoryDelete b id s)) = idle
   /\ extractedText (ui (handleHistoryDelete b id s)) = Some []
   /\ selectedHistoryId (ui (handleHistoryDelete b id s)) = None)
  /\ (delete_document b (db s) id = None
      \/ selectedHistoryId (ui s) <> Some id ->
      status (ui (handleHistoryDelete b id s)) = status (ui s)
      /\ extractedText (ui (handleHistoryDelete b id s))
         = extractedText (ui s)
      /\ selectedHistoryId (ui (handleHistoryDelete b id s))
         = selectedHistoryId (ui s)).
Proof.
  unfold handleHistoryDelete. split.
  - intros [d ->] Hselected. simpl.
    by rewrite (bool_decide_eq_true_2 _ Hselected).
  - intros [-> | Hother]; [done|].
    destruct (delete_document b (db s) id); [|done]. simpl.
    by rewrite (bool_decide_eq_false_2 _ Hother).
Qed.

(** X22. Deleting a document leaves every other document of the store
    as it was, and deleting it a second time changes nothing more in the
    history list. *)
Theorem delete_is_local_and_idempotent (id : jsstring) (s : state) :
  (forall other,
      other <> id ->
      documents (db (handleHistoryDelete b id s)) !! other
      = documents (db s) !! other)
  /\ history (ui (handleHistoryDelete b id (handleHistoryDelete b id s)))
     = history (ui (handleHistoryDelete b id s)).
Proof.
  split.
  - intros other Hother. unfold handleHistoryDelete, delete_document.
    repeat (case_match; simplify_eq/=); try done.
    by rewrite lookup_delete_ne.
  - assert (forall l : list HistoryItem,
              List.filter (fun item => negb (bool_decide (item_id item = id)))
                (List.filter
                   (fun item => negb (bool_decide (item_id item = id))) l)
              = List.filter
                  (fun item => negb (bool_decide (item_id item = id))) l)
      as Hfilter.
    { induction l as [|x l IH]; simpl; [done|].
      destruct (negb _) eqn:Hx; simpl; [|done]. by rewrite Hx, IH. }
    unfold handleHistoryDelete at 2 3.
    destruct (delete_document b (db s) id) as [d|] eqn:Hfirst.
    + unfold handleHistoryDelete. cbn [ui db history].
      destruct (delete_document b d id); cbn [ui history];
        by rewrite ?Hfilter.
    + unfold handleHistoryDelete. cbn [ui db history].
      by rewrite Hfirst.
Qed.

End PageCoverage.

(** ** The sign-in form *)

Section AuthCoverage.

Import Auth.

Variable is_email : jsstring -> bool.
Variable backend : auth_backend.

Lemma passwordSchema_None (s : jsstring) :
  passwordSchema s = None <-> 6 <= jslength s.
Proof.
  unfold passwordSchema. destruct (jslength s <? 6) eqn:H.
  - apply N.ltb_lt in H. split; [done|lia].
  - apply N.ltb_ge in H. done.
Qed.

Lemma fullNameSchema_None (s : jsstring) :
  fullNameSchema s = None <-> 2 <= jslength s <= 100.
Proof.
  unfold fullNameSchema.
  destruct (jslength s <? 2) eqn:H2; [apply N.ltb_lt in H2|apply N.ltb_ge in H2].
  - split; [done|lia].
  - destruct (100 <? jslength s) eqn:H100;
      [apply N.ltb_lt in H100|apply N.ltb_ge in H100].
    + split; [done|lia].
    + done.
Qed.

(** X23. [validateForm] accepts exactly the forms with a valid e-mail
    address, a password of at least 6 characters and, when signing up, a
    name of 2 to 100 characters; the name is not looked at when logging
    in, and a message is set for each failing field and for no other. *)
Theorem validateForm_accepts (f : form) :
  (snd (validateForm is_email f) = true
   <-> is_email (email f) = true
       /\ 6 <= jslength (password f)
       /\ (isLogin f = true \/ 2 <= jslength (fullName f) <= 100))
  /\ (email_error (fst (validateForm is_email f)) = None
      <-> is_email (email f) = true)
  /\ (password_error (fst (validateForm is_email f)) = None
      <-> 6 <= jslength (password f))
  /\ (fullName_error (fst (validateForm is_email f)) = None
      <-> isLogin f = true \/ 2 <= jslength (fullName f) <= 100).
Proof.
  assert (emailSchema is_email (email f) = None <-> is_email (email f) = true)
    as Hemail by (unfold emailSchema; by destruct (is_email (email f))).
  assert ((if isLogin f then None else fullNameSchema (fullName f)) = None
          <-> isLogin f = true \/ 2 <= jslength (fullName f) <= 100) as Hname.
  { destruct (isLogin f); [by split; auto|].
    rewrite fullNameSchema_None. split; [by right|]. by intros [|]. }
  unfold validateForm. cbn [fst snd email_error password_error fullName_error].
  rewrite !andb_true_iff, !bool_decide_eq_true.
  rewrite Hemail, Hname, passwordSchema_None. tauto.
Qed.

(** X24. [handleSubmit] reaches the auth backend only with a form that
    passed validation: an invalid form makes no call, shows no toast and
    does not navigate.  A valid form makes exactly one call, to sign in
    or to sign up as the form says and with the fields of the form, ends
    not loading, shows one toast, and navigates exactly when the backend
    reports no error.  The calls of the auth hook are taken to return
    their [{ error }] answer, as the hook's signature says. *)
Theorem submit_calls_backend_only_when_valid (f : form) (p : page) :
  errors (handleSubmit is_email backend f p) = fst (validateForm is_email f)
  /\ (snd (validateForm is_email f) = false ->
      calls (handleSubmit is_email backend f p) = calls p
      /\ toasts (handleSubmit is_email backend f p) = toasts p
      /\ navigated (handleSubmit is_email backend f p) = navigated p
      /\ isLoading (handleSubmit is_email backend f p) = isLoading p)
  /\ (snd (validateForm is_email f) = true ->
      isLoading (handleSubmit is_email backend f p) = false
      /\ length (toasts (handleSubmit is_email backend f p))
         = S (length (toasts p))
      /\ calls (handleSubmit is_email backend f p)
         = calls p
           ++ [if isLogin f then SignIn (email f) (password f)
               else SignUp (email f) (password f) (fullName f)]
      /\ (navigated (handleSubmit is_email backend f p) = true
          <-> navigated p = true
              \/ (if isLogin f then signIn backend (email f) (password f)
                  else signUp backend (email f) (password f) (fullName f))
                 = None)).
Proof.
  unfold handleSubmit.
  destruct (validateForm is_email f) as [newErrors valid] eqn:Hv.
  cbn [fst snd]. destruct valid; cbn [negb].
  - split; [by repeat case_match|]. split; [done|]. intros _.
    destruct (isLogin f).
    + destruct (signIn backend _ _);
        cbn [isLoading toasts calls navigated]; rewrite ?length_app;
        simpl; repeat split; try done; try lia; intuition congruence.
    + destruct (signUp backend _ _ _);
        cbn [isLoading toasts calls navigated]; rewrite ?length_app;
        simpl; repeat split; try done; try lia; intuition congruence.
  - split; [done|]. split; [done|]. done.
Qed.

End AuthCoverage.

(** ** The history list and the result view *)

Section ViewCoverage.

Import Handler Claims.

(** X25. [formatTimeAgo] never shows a zero: under a minute (or for a
    date ahead of the clock) it says "Just now"; then it counts 1 to 59
    minutes, 1 to 23 hours, and from a day on, at least 1 day. *)
Theorem formatTimeAgo_buckets (now date : Z) :
  ((now - date < 60000)%Z ->
   DocumentHistory.formatTimeAgo now date = js "Just now")
  /\ ((60000 <= now - date < 3600000)%Z ->
      exists n, 1 <= n <= 59
        /\ DocumentHistory.formatTimeAgo now date
           = number_to_string n ++ js "m ago")
  /\ ((3600000 <= now - date < 86400000)%Z ->
      exists n, 1 <= n <= 23
        /\ DocumentHistory.formatTimeAgo now date
           = number_to_string n ++ js "h ago")
  /\ ((86400000 <= now - date)%Z ->
      exists n, 1 <= n
        /\ DocumentHistory.formatTimeAgo now date
           = number_to_string n ++ js "d ago").
Proof.
  unfold DocumentHistory.formatTimeAgo.
  set (seconds := ((now - date) / 1000)%Z).
  assert ((now - date) = 1000 * seconds + (now - date) mod 1000)%Z as Hdiv
    by (apply Z.div_mod; lia).
  pose proof (Z.mod_pos_bound (now - date) 1000 eq_refl) as Hmod.
  assert (seconds = 60 * (seconds / 60) + seconds mod 60)%Z as Hm
    by (apply Z.div_mod; lia).
  pose proof (Z.mod_pos_bound seconds 60 eq_refl) as Hm'.
  assert (seconds = 3600 * (seconds / 3600) + seconds mod 3600)%Z as Hh
    by (apply Z.div_mod; lia).
  pose proof (Z.mod_pos_bound seconds 3600 eq_refl) as Hh'.
  assert (seconds = 86400 * (seconds / 86400) + seconds mod 86400)%Z as Hd
    by (apply Z.div_mod; lia).
  pose proof (Z.mod_pos_bound seconds 86400 eq_refl) as Hd'.
  repeat split; intros Hrange.
  - replace (seconds <? 60)%Z with true by (symmetry; apply Z.ltb_lt; lia).
    done.
  - replace (seconds <? 60)%Z with false by (symmetry; apply Z.ltb_ge; lia).
    replace (seconds <? 3600)%Z with true by (symmetry; apply Z.ltb_lt; lia).
    exists (Z.to_N (seconds / 60)). split; [lia|done].
  - replace (seconds <? 60)%Z with false by (symmetry; apply Z.ltb_ge; lia).
    replace (seconds <? 3600)%Z with false by (symmetry; apply Z.ltb_ge; lia).
    replace (seconds <? 86400)%Z with true by (symmetry; apply Z.ltb_lt; lia).
    exists (Z.to_N (seconds / 3600)). split; [lia|done].
  - replace (seconds <? 60)%Z with false by (symmetry; apply Z.ltb_ge; lia).
    replace (seconds <? 3600)%Z with false by (symmetry; apply Z.ltb_ge; lia).
    replace (seconds <? 86400)%Z with false by (symmetry; apply Z.ltb_ge; lia).
    exists (Z.to_N (seconds / 86400)). split; [lia|done].
Qed.

(** The first piece of a split: the text up to its first separator. *)
Lemma split_at_head (P : N -> bool) (s : jsstring) :
  exists first pieces rest,
    split_at P s = first :: pieces
    /\ s = first ++ rest
    /\ Forall (fun c => P c = false) first
    /\ (rest = [] \/ exists c r, rest = c :: r /\ P c = true).
Proof.
  induction s as [|c s (first & pieces & rest & E & Hs & Hfirst & Hrest)];
    simpl.
  - exists [], [], []. by auto.
  - destruct (P c) eqn:Hc.
    + exists [], (split_at P s), (c :: s). repeat split; eauto.
    + rewrite E. exists (c :: first), pieces, rest. rewrite Hs.
      repeat split; auto.
Qed.

(** X26. The name of the exported file: for a non-empty file name it is
    the part of the name before its first dot, followed by [_ocr.txt],
    so every extension is dropped, and a name without a dot is kept
    whole; without a file name it is [extracted_text.txt]. *)
Theorem download_name_drops_extensions (fileName : jsstring) :
  fileName <> [] ->
  exists base rest,
    fileName = base ++ rest
    /\ (ResultDisplay.dot ∉ base)
    /\ (rest = [] \/ exists r, rest = ResultDisplay.dot :: r)
    /\ ResultDisplay.download_name (Some fileName) = base ++ js "_ocr.txt".
Proof.
  intros Hname.
  destruct (split_at_head (N.eqb ResultDisplay.dot) fileName)
    as (first & pieces & rest & E & Hs & Hfirst & Hrest).
  exists first, rest. split; [done|]. split; [|split].
  - intros Hin. rewrite Forall_forall in Hfirst.
    apply Hfirst in Hin. by rewrite N.eqb_refl in Hin.
  - destruct Hrest as [->|(c & r & -> & Hc)]; [by left|].
    right. apply N.eqb_eq in Hc. subst c. by exists r.
  - unfold ResultDisplay.download_name, ResultDisplay.base_name.
    change (default [] (Some fileName)) with fileName. rewrite E.
    by destruct fileName.
Qed.

End ViewCoverage.

(* ===================================================================== *)
(** * The further properties on concrete inputs *)
(* ===================================================================== *)

Lemma valid_post_run :
  Handler.serve toLowerCase_ascii Examples.production Scenarios.valid_post
  = ({| Handler.status := 200;
        Handler.body := Handler.ResultJson Examples.two_lines_result |},
     [Handler.AuthGetUser (js "tok");
      Handler.GatewayFetch Scenarios.valid_fetch]).
Proof. by vm_compute. Qed.

Lemma valid_fetch_made :
  Handler.GatewayFetch Scenarios.valid_fetch
  ∈ [Handler.AuthGetUser (js "tok");
     Handler.GatewayFetch Scenarios.valid_fetch].
Proof. apply elem_of_cons; right. apply elem_of_cons; by left. Qed.

Lemma gateway_called_only_after_all_checks_witness :
  Claims.authenticated Examples.production Scenarios.valid_post = true
  /\ Claims.api_key_configured Examples.production = true
  /\ exists p image,
      Handler.json_body Scenarios.valid_post = Handler.BodyObject p
      /\ Handler.imageBase64 p = Some image
      /\ image <> []
      /\ ~ Claims.exceeds_10MB image
      /\ (forall ft, Handler.fileType p = Some ft -> ft <> [] ->
                     toLowerCase_ascii ft ∈ Handler.allowedTypes).
Proof.
  apply (gateway_called_only_after_all_checks toLowerCase_ascii
           Examples.production Scenarios.valid_post _ _ Scenarios.valid_fetch
           valid_post_run valid_fetch_made).
Defined.

Lemma gateway_request_well_formed_witness :
  startsWith (Handler.gw_image_url Scenarios.valid_fetch) (js "data:") = true
  /\ Handler.gw_authorization Scenarios.valid_fetch = js "Bearer gateway-key".
Proof.
  destruct (gateway_request_well_formed toLowerCase_ascii
              Examples.production Scenarios.valid_post _ _
              Scenarios.valid_fetch valid_post_run valid_fetch_made)
    as (p & key & image & _ & Hkey & _ & _ & Hauth & _ & _ & _ & _ & Hurl & _).
  split; [exact Hurl|]. rewrite Hauth.
  vm_compute in Hkey. injection Hkey as <-. reflexivity.
Defined.

Lemma external_calls_in_order_witness :
  [Handler.AuthGetUser (js "tok"); Handler.GatewayFetch Scenarios.valid_fetch]
  = []
  \/ exists p token,
      Handler.json_body Scenarios.valid_post = Handler.BodyObject p
      /\ Handler.userAccessToken p = Some token
      /\ ([Handler.AuthGetUser (js "tok");
           Handler.GatewayFetch Scenarios.valid_fetch]
          = [Handler.AuthGetUser token]
          \/ exists rq,
              [Handler.AuthGetUser (js "tok");
               Handler.GatewayFetch Scenarios.valid_fetch]
              = [Handler.AuthGetUser token; Handler.GatewayFetch rq]).
Proof.
  apply (external_calls_in_order toLowerCase_ascii Examples.production
           Scenarios.valid_post _ _ valid_post_run).
Defined.

Lemma response_status_classes_witness :
  Handler.status
    (fst (Handler.serve toLowerCase_ascii Examples.production
            Scenarios.valid_post))
  = 200.
Proof.
  destruct (response_status_classes toLowerCase_ascii Examples.production
              Scenarios.valid_post
              (fst (Handler.serve toLowerCase_ascii Examples.production
                      Scenarios.valid_post))
              (snd (Handler.serve toLowerCase_ascii Examples.production
                      Scenarios.valid_post)))
    as (Hresult & _).
  - apply surjective_pairing.
  - apply (Hresult Examples.two_lines_result). by vm_compute.
Defined.

Lemma unresolved_token_unauthorized_witness :
  Handler.serve toLowerCase_ascii Examples.production
    (Examples.post Scenarios.stale_upload)
  = ({| Handler.status := 401;
        Handler.body := Handler.ErrorJson (js "Unauthorized") None |},
     [Handler.AuthGetUser (js "stale")]).
Proof.
  apply (unresolved_token_unauthorized toLowerCase_ascii Examples.production
           (Examples.post Scenarios.stale_upload) Scenarios.stale_upload
           (js "stale") None (Some (js "invalid JWT"))).
  - discriminate.
  - reflexivity.
  - reflexivity.
  - discriminate.
  - reflexivity.
  - reflexivity.
  - reflexivity.
  - reflexivity.
  - by left.
Defined.

Lemma missing_image_rejected_witness :
  exists token,
    Handler.userAccessToken Scenarios.empty_upload = Some token
    /\ Handler.serve toLowerCase_ascii Examples.production
         (Examples.post Scenarios.empty_upload)
       = ({| Handler.status := 400;
             Handler.body :=
               Handler.ErrorJson (js "No image data provided") None |},
          [Handler.AuthGetUser token]).
Proof.
  apply (missing_image_rejected toLowerCase_ascii Examples.production
           (Examples.post Scenarios.empty_upload) Scenarios.empty_upload).
  - reflexivity.
  - reflexivity.
  - reflexivity.
  - by left.
Defined.

Lemma not_exceeding_AAAA : ~ Claims.exceeds_10MB (js "AAAA").
Proof. rewrite exceeds_10MB_length. vm_compute. discriminate. Qed.

Lemma disallowed_type_rejected_witness :
  exists token,
    Handler.userAccessToken Scenarios.text_upload = Some token
    /\ Handler.serve toLowerCase_ascii Examples.production
         (Examples.post Scenarios.text_upload)
       = ({| Handler.status := 400;
             Handler.body :=
               Handler.ErrorJson
                 (js "Invalid file type. Allowed: PNG, JPEG, WebP, GIF, PDF")
                 None |},
          [Handler.AuthGetUser token]).
Proof.
  apply (disallowed_type_rejected toLowerCase_ascii Examples.production
           (Examples.post Scenarios.text_upload) Scenarios.text_upload
           (js "AAAA") (js "text/plain")).
  - reflexivity.
  - reflexivity.
  - reflexivity.
  - reflexivity.
  - discriminate.
  - apply not_exceeding_AAAA.
  - reflexivity.
  - discriminate.
  - apply (bool_decide_unpack _). by vm_compute.
Defined.

Lemma valid_request_succeeds_witness :
  Handler.body
    (fst (Handler.serve toLowerCase_ascii Examples.production
            Scenarios.valid_post))
  = Handler.ResultJson Examples.two_lines_result.
Proof.
  destruct (valid_request_succeeds toLowerCase_ascii Examples.production
              Scenarios.valid_post
              (Examples.small_upload (Some (js "image/png")))
              (js "AAAA") Examples.two_lines Scenarios.two_lines_answer
              (Examples.completion Examples.two_lines))
    as (token & _ & Hrun).
  - reflexivity.
  - reflexivity.
  - reflexivity.
  - reflexivity.
  - discriminate.
  - apply not_exceeding_AAAA.
  - reflexivity.
  - reflexivity.
  - simpl. lia.
  - reflexivity.
  - reflexivity.
  - reflexivity.
  - rewrite Hrun. reflexivity.
Defined.

Lemma successful_response_is_not_blank_witness :
  Claims.whitespace_only (extracted_text Examples.two_lines_result) = false
  /\ 1 <= word_count Examples.two_lines_result
     <= character_count Examples.two_lines_result.
Proof.
  apply (successful_response_is_not_blank toLowerCase_ascii
           Examples.production Scenarios.valid_post _ _
           Examples.two_lines_result valid_post_run).
  reflexivity.
Defined.

Lemma signed_out_posts_nothing_witness :
  snd (Client.processDocument toLowerCase_ascii Examples.signed_out
         Scenarios.scan_png None) = []
  /\ (UploadZone.droppable Scenarios.scan_png = true ->
      Client.file_bytes Scenarios.scan_png <> None ->
      fst (Client.processDocument toLowerCase_ascii Examples.signed_out
             Scenarios.scan_png None)
      = Client.Rejected
          (ErrorObject (js "You must be logged in to use OCR processing"))).
Proof.
  apply (signed_out_posts_nothing toLowerCase_ascii Examples.signed_out
           Scenarios.scan_png None).
  reflexivity.
Defined.

Lemma no_comma_in_png : comma ∉ js "image/png".
Proof. apply (bool_decide_unpack _). by vm_compute. Qed.

Lemma supported_file_posted_once_witness :
  snd (Client.processDocument toLowerCase_ascii Examples.signed_in
         Scenarios.scan_png None)
  = [ {| Handler.imageBase64 := Some (Client.base64 [0x89; 0x50; 0x4E]);
         Handler.fileName := Some (Client.file_name Scenarios.scan_png);
         Handler.fileType := Some (Client.file_type Scenarios.scan_png);
         Handler.mode :=
           Some (Client.detectedMode toLowerCase_ascii Scenarios.scan_png None);
         Handler.userAccessToken := Some (js "tok") |} ].
Proof.
  apply (supported_file_posted_once toLowerCase_ascii Examples.signed_in
           Scenarios.scan_png [0x89; 0x50; 0x4E] None (js "tok")).
  - reflexivity.
  - reflexivity.
  - apply no_comma_in_png.
  - reflexivity.
  - discriminate.
Defined.

Lemma resolves_only_without_error_witness :
  exists posted,
    snd (Client.processDocument toLowerCase_ascii Examples.signed_in
           Scenarios.scan_png None) = [posted]
    /\ Client.functions_invoke Examples.signed_in posted
       = Client.InvokeSettled
           (Some (Client.DataResult Examples.two_lines_result)) None
    /\ forall e,
        Some (Client.DataResult Examples.two_lines_result)
        = Some (Client.DataError e) -> e = [].
Proof.
  apply (resolves_only_without_error toLowerCase_ascii Examples.signed_in
           Scenarios.scan_png None
           (Some (Client.DataResult Examples.two_lines_result))).
  by vm_compute.
Defined.

Lemma image_url_round_trip_witness :
  exists payload,
    Client.fileToBase64 Scenarios.scan_png = Client.Resolved (Some payload)
    /\ Some (Handler.imageUrl payload
               (Some (Client.file_type Scenarios.scan_png)))
       = Client.readAsDataURL Scenarios.scan_png.
Proof.
  apply (image_url_round_trip Scenarios.scan_png [0x89; 0x50; 0x4E]).
  - reflexivity.
  - discriminate.
  - apply no_comma_in_png.
Defined.

Lemma client_sees_function_answer_witness :
  fst (Client.processDocument toLowerCase_ascii Scenarios.live_browser
         Scenarios.scan_png None)
  = Client.Resolved (Some (Client.DataResult Examples.two_lines_result)).
Proof.
  pose proof (client_sees_function_answer toLowerCase_ascii
                Examples.production
                (ErrorObject (js "Unexpected end of JSON input"))
                Scenarios.scan_png [0x89; 0x50; 0x4E] None (js "tok")
                eq_refl eq_refl no_comma_in_png) as Hanswer.
  assert (Handler.body
            (fst (Handler.serve toLowerCase_ascii Examples.production
                    (Deployed.request_for toLowerCase_ascii Scenarios.scan_png
                       [0x89; 0x50; 0x4E] None (js "tok"))))
          = Handler.ResultJson Examples.two_lines_result) as Hbody
    by (by vm_compute).
  rewrite Hbody in Hanswer. apply Hanswer. discriminate.
Defined.

(** The same wiring when the gateway is rate limited: the message of the
    function reaches the caller. *)
Example rate_limit_reaches_the_client :
  fst (Client.processDocument toLowerCase_ascii Scenarios.throttled_browser
         Scenarios.scan_png None)
  = Client.Rejected
      (ErrorObject (js "Rate limit exceeded. Please try again in a moment.")).
Proof. by vm_compute. Qed.

Lemma dropped_files_are_supported_witness :
  UploadZone.droppable Scenarios.scan_png = true.
Proof.
  apply (dropped_files_are_supported Scenarios.drop_and_pick
           Scenarios.scan_png printed).
  - reflexivity.
  - reflexivity.
Defined.

Lemma created_readme_inserted :
  Pipeline.insert_document Examples.store (Pipeline.db Examples.fresh_state)
    (Pipeline.user_id Examples.alice) (Client.file_name Scenarios.readme_txt)
    (Client.file_type Scenarios.readme_txt)
    (Client.file_size Scenarios.readme_txt) (js "processing")
  = Some (js "doc-1", Scenarios.created_readme).
Proof. by vm_compute. Qed.

Lemma created_inserted :
  Pipeline.insert_document Examples.store (Pipeline.db Examples.fresh_state)
    (Pipeline.user_id Examples.alice) (Client.file_name Scenarios.scan_png)
    (Client.file_type Scenarios.scan_png)
    (Client.file_size Scenarios.scan_png) (js "processing")
  = Some (js "doc-1", Scenarios.created).
Proof. by vm_compute. Qed.

Lemma unsupported_file_chosen_fails_witness :
  Claims.status_writes
    (Pipeline.sent
       (UploadZone.extract toLowerCase_ascii Examples.signed_in Examples.store
          (Some Examples.alice)
          (UploadZone.handleFileInput (Some Scenarios.readme_txt)
             UploadZone.initial)
          Examples.fresh_state))
  = [Claims.Created (js "processing");
     Claims.Updated (js "doc-1") (js "failed")]
  /\ Pipeline.status
       (Pipeline.ui
          (UploadZone.extract toLowerCase_ascii Examples.signed_in
             Examples.store (Some Examples.alice)
             (UploadZone.handleFileInput (Some Scenarios.readme_txt)
                UploadZone.initial)
             Examples.fresh_state))
     = Pipeline.error.
Proof.
  destruct (unsupported_file_chosen_fails toLowerCase_ascii
              Examples.signed_in Examples.store Examples.alice
              Scenarios.readme_txt UploadZone.initial Examples.fresh_state
              (js "doc-1") Scenarios.created_readme eq_refl
              created_readme_inserted)
    as (_ & Hsent & Hstatus & _).
  split; [|exact Hstatus]. rewrite Hsent. reflexivity.
Defined.

Lemma history_never_exceeds_ten_witness :
  (length
     (Pipeline.history
        (Pipeline.ui
           (Session.page_run toLowerCase_ascii Examples.signed_in
              Examples.store (Some Examples.alice) Scenarios.visit
              Examples.fresh_state)))
   <= 10)%nat.
Proof.
  apply (history_never_exceeds_ten toLowerCase_ascii Examples.signed_in
           Examples.store (Some Examples.alice) Scenarios.visit
           Examples.fresh_state).
  simpl. lia.
Defined.

Lemma successful_scan_saved_witness :
  Pipeline.status
    (Pipeline.ui
       (Pipeline.handleOCRProcessing toLowerCase_ascii Examples.signed_in
          Examples.store (Some Examples.alice) Scenarios.scan_png mixed
          Examples.fresh_state))
  = Pipeline.complete
  /\ Pipeline.selectedHistoryId
       (Pipeline.ui
          (Pipeline.handleOCRProcessing toLowerCase_ascii Examples.signed_in
             Examples.store (Some Examples.alice) Scenarios.scan_png mixed
             Examples.fresh_state))
     = Some (js "doc-1").
Proof.
  destruct (successful_scan_saved toLowerCase_ascii Examples.signed_in
              Examples.store Examples.alice Scenarios.scan_png mixed
              Examples.fresh_state (js "doc-1") Scenarios.created
              Examples.two_lines_result created_inserted)
    as (_ & Hstatus & _ & Hselected & _).
  - by vm_compute.
  - by split.
Defined.

Lemma failed_scan_saves_nothing_witness :
  Pipeline.status
    (Pipeline.ui
       (Pipeline.handleOCRProcessing toLowerCase_ascii Examples.signed_out
          Examples.store (Some Examples.alice) Scenarios.scan_png mixed
          Examples.fresh_state))
  = Pipeline.error
  /\ Pipeline.history
       (Pipeline.ui
          (Pipeline.handleOCRProcessing toLowerCase_ascii Examples.signed_out
             Examples.store (Some Examples.alice) Scenarios.scan_png mixed
             Examples.fresh_state))
     = Pipeline.history (Pipeline.ui Examples.fresh_state).
Proof.
  destruct (failed_scan_saves_nothing toLowerCase_ascii Examples.signed_out
              Examples.store Examples.alice Scenarios.scan_png mixed
              Examples.fresh_state
              (ErrorObject (js "You must be logged in to use OCR processing")))
    as (Hstatus & Hhistory & _).
  - by vm_compute.
  - by split.
Defined.

Lemma download_name_drops_extensions_witness :
  exists base rest,
    js "scan.tar.gz" = base ++ rest
    /\ (ResultDisplay.dot ∉ base)
    /\ (rest = [] \/ exists r, rest = ResultDisplay.dot :: r)
    /\ ResultDisplay.download_name (Some (js "scan.tar.gz"))
       = base ++ js "_ocr.txt".
Proof.
  apply (download_name_drops_extensions (js "scan.tar.gz")). discriminate.
Defined.

(** The exported names of three files. *)
Example download_names :
  ResultDisplay.download_name (Some (js "scan.tar.gz")) = js "scan_ocr.txt"
  /\ ResultDisplay.download_name (Some (js ".env")) = js "_ocr.txt"
  /\ ResultDisplay.download_name None = js "extracted_text.txt".
Proof. repeat split; by vm_compute. Qed.

(** The labels of the history list at a few ages, and the form of the
    sign-in page on a valid and on a short password. *)
Example time_ago_labels :
  DocumentHistory.formatTimeAgo 1700000059999 1700000000000 = js "Just now"
  /\ DocumentHistory.formatTimeAgo 1700000060000 1700000000000 = js "1m ago"
  /\ DocumentHistory.formatTimeAgo 1700003599999 1700000000000 = js "59m ago"
  /\ DocumentHistory.formatTimeAgo 1700086400000 1700000000000 = js "1d ago"
  /\ DocumentHistory.formatTimeAgo 1700000000000 1700000500000 = js "Just now".
Proof. repeat split; by vm_compute. Qed.

Example login_form_valid :
  snd (Auth.validateForm (fun s => includes s (js "@")) Scenarios.login_form)
  = true
  /\ Auth.password_error
       (fst (Auth.validateForm (fun s => includes s (js "@"))
               {| Auth.isLogin := true; Auth.email := js "alice@example.org";
                  Auth.password := js "12345"; Auth.fullName := [] |}))
     = Some (js "Password must be at least 6 characters").
Proof. split; by vm_compute. Qed.

(** ** The figures of the result view, and the demonstration scan *)

Section MoreViewCoverage.

Import Claims.

Lemma words_of_blank (s : jsstring) :
  whitespace_only s = true -> whitespace_separated_words s = [].
Proof.
  unfold whitespace_only, whitespace_separated_words.
  induction s as [|c s IH]; simpl; [done|].
  destruct (isWhiteSpace c); simpl; [done|discriminate].
Qed.

(** X27. The figures of the result view, for any text: it counts no
    word exactly when the text is empty or white space only, and never
    more words than characters. *)
Theorem result_view_counts (text : jsstring) :
  (ResultDisplay.wordCount text = 0 <-> whitespace_only text = true)
  /\ ResultDisplay.wordCount text <= ResultDisplay.charCount text.
Proof.
  unfold ResultDisplay.wordCount, ResultDisplay.charCount, jslength.
  rewrite filter_Boolean_split.
  pose proof (words_at_most_units text) as Hle. split; [|lia].
  destruct (whitespace_only text) eqn:Hblank.
  - by rewrite words_of_blank.
  - pose proof (words_of_nonblank text Hblank). split; [lia|done].
Qed.

Import Pipeline.

Variable b : backend.

(** X28. The demonstration scan never fails a document: once the
    document is created, it saves the demonstration text with the counts
    the result view would show for it, marks the document "completed",
    and shows the text as complete. *)
Theorem demo_scan_always_completes (demoText : jsstring) (u : User)
    (f : Client.File) (s : state) (id : jsstring) (d1 : database) :
  insert_document b (db s) (user_id u) (Client.file_name f)
    (Client.file_type f) (Client.file_size f) (js "processing")
  = Some (id, d1) ->
  sent (simulateOCRProcessing b demoText (Some u) f s)
  = sent s
    ++ [InsertDocument (user_id u) (Client.file_name f) (Client.file_type f)
          (Client.file_size f) (js "processing");
        InsertOcrResult
          {| res_document_id := id; res_user_id := user_id u;
             res_extracted_text := Some demoText;
             res_word_count := Some (ResultDisplay.wordCount demoText);
             res_character_count := Some (ResultDisplay.charCount demoText);
             res_processing_time_ms := Some 1500%Z |};
        UpdateDocumentStatus id (js "completed")]
  /\ status (ui (simulateOCRProcessing b demoText (Some u) f s)) = complete
  /\ extractedText (ui (simulateOCRProcessing b demoText (Some u) f s))
     = Some demoText
  /\ forall id', UpdateDocumentStatus id' (js "failed")
                 ∈ sent (simulateOCRProcessing b demoText (Some u) f s) ->
                 UpdateDocumentStatus id' (js "failed") ∈ sent s.
Proof.
  intros Hinsert. unfold simulateOCRProcessing. rewrite Hinsert.
  cbn [sent ui status extractedText]. rewrite <- app_assoc.
  repeat split; try done.
  intros id' Hin. apply elem_of_app in Hin as [Hin|Hin]; [done|].
  repeat (apply elem_of_cons in Hin as [Hin|Hin]; [by simplify_eq|]).
  by apply not_elem_of_nil in Hin.
Qed.

End MoreViewCoverage.

Lemma demo_scan_always_completes_witness :
  Claims.status_writes
    (Pipeline.sent
       (Pipeline.simulateOCRProcessing Examples.store Examples.two_lines
          (Some Examples.alice) Scenarios.scan_png Examples.fresh_state))
  = [Claims.Created (js "processing");
     Claims.Updated (js "doc-1") (js "completed")]
  /\ Pipeline.status
       (Pipeline.ui
          (Pipeline.simulateOCRProcessing Examples.store Examples.two_lines
             (Some Examples.alice) Scenarios.scan_png Examples.fresh_state))
     = Pipeline.complete.
Proof.
  destruct (demo_scan_always_completes Examples.store Examples.two_lines
              Examples.alice Scenarios.scan_png Examples.fresh_state
              (js "doc-1") Scenarios.created created_inserted)
    as (Hsent & Hstatus & _).
  split; [|exact Hstatus]. rewrite Hsent. reflexivity.
Defined.
